(** * QUIC-FTP client (package ftpq): a shallow embedding and its properties

    The development follows the Go sources of the client:
    - the sub-connection operations ([Feat], [cmdDataReceiveStreamFrom],
      [cmdDataSendStreamFrom], [getDataRetriveStream], [CurrentDir], [List]),
    - the three LIST-line parsers and [parseListLine],
    - the result-collection loop of [MultipleTransfer].

    Go strings are byte strings ([string]); Go integers are [Z]; Go maps are
    [gmap]; a run-time panic is an explicit outcome.  Calls into libraries
    the client drives (sync.Mutex, quic.Session, textproto.Conn) are recorded
    in a trace, and what they answer is read from scripted queues. *)

From Stdlib Require Import ZArith Ascii DecimalString Lia.
From stdpp Require Import base option list gmap strings.

Local Open Scope Z_scope.

(** ** Outcomes of pure Go code: a value, or a run-time panic *)

Inductive PanicKind :=
  | IndexOutOfRange
  | SliceBoundsOutOfRange
  | UnlockOfUnlockedMutex.

Inductive run (A : Type) : Type :=
  | Done (a : A)
  | Panic (k : PanicKind).
Arguments Done {A} a.
Arguments Panic {A} k.

Definition run_bind {A B} (r : run A) (f : A -> run B) : run B :=
  match r with
  | Done a => f a
  | Panic k => Panic k
  end.

Declare Scope run_scope.
Delimit Scope run_scope with run.
Notation "'let+' x := c 'in' k" := (run_bind c (fun x => k))
  (at level 10, x pattern, c at level 100, k at level 200, only parsing) : run_scope.

(** ** Byte strings and Go slice expressions *)

Module GoString.

Definition len (s : string) : Z := Z.of_nat (String.length s).

Fixpoint take (n : nat) (s : string) : string :=
  match n, s with
  | S n', String c s' => String c (take n' s')
  | _, _ => EmptyString
  end.

Fixpoint drop (n : nat) (s : string) : string :=
  match n, s with
  | S n', String _ s' => drop n' s'
  | _, _ => s
  end.

(** [s[lo:hi]]: panics unless [0 <= lo <= hi <= len(s)]. *)
Definition slice (s : string) (lo hi : Z) : run string :=
  if (0 <=? lo) && (lo <=? hi) && (hi <=? len s)
  then Done (take (Z.to_nat (hi - lo)) (drop (Z.to_nat lo) s))
  else Panic SliceBoundsOutOfRange.

(** [s[lo:]] *)
Definition sliceFrom (s : string) (lo : Z) : run string := slice s lo (len s).

(** [s[:hi]] *)
Definition sliceTo (s : string) (hi : Z) : run string := slice s 0 hi.

(** [s[i]] *)
Definition at_ (s : string) (i : Z) : run ascii :=
  if (0 <=? i) && (i <? len s)
  then match String.get (Z.to_nat i) s with
       | Some c => Done c
       | None => Panic IndexOutOfRange
       end
  else Panic IndexOutOfRange.

(** The characters the sources name by escape sequences. *)
Definition LF : string := String "010" EmptyString.
Definition QUOTE : string := String "034" EmptyString.

End GoString.

(** Go slices of strings ([[]string]) as lists, with the bounds checks of
    index and slice expressions.  The slices built here always have
    [cap = len] (they come from [strings.Fields]). *)

Module GoSlice.

Definition len {A} (l : list A) : Z := Z.of_nat (length l).

(** [l[i]] *)
Definition at_ {A} (l : list A) (i : Z) : run A :=
  if (0 <=? i) && (i <? len l)
  then match l !! Z.to_nat i with
       | Some x => Done x
       | None => Panic IndexOutOfRange
       end
  else Panic IndexOutOfRange.

(** [l[lo:hi]] *)
Definition slice {A} (l : list A) (lo hi : Z) : run (list A) :=
  if (0 <=? lo) && (lo <=? hi) && (hi <=? len l)
  then Done (take (Z.to_nat (hi - lo)) (drop (Z.to_nat lo) l))
  else Panic SliceBoundsOutOfRange.

(** [l[lo:]] *)
Definition sliceFrom {A} (l : list A) (lo : Z) : run (list A) :=
  slice l lo (len l).

End GoSlice.

(** ** Package strings (the functions the client calls)

    Bytes of value 128 and above are never white space here; Go agrees
    except on the UTF-8 encodings of the non-ASCII Unicode spaces. *)

Module strings.

Import GoString.

Definition HasPrefix (s prefix : string) : bool := String.prefix prefix s.

(** Index of the first instance of [sep] in [s], or -1. *)
Fixpoint Index (s sep : string) : Z :=
  if String.prefix sep s then 0
  else match s with
       | EmptyString => -1
       | String _ s' =>
           let i := Index s' sep in
           if i <? 0 then -1 else i + 1
       end.

(** Index of the last instance of [sep] in [s], or -1. *)
Fixpoint LastIndex (s sep : string) : Z :=
  match s with
  | EmptyString => if String.prefix sep s then 0 else -1
  | String _ s' =>
      let i := LastIndex s' sep in
      if 0 <=? i then i + 1
      else if String.prefix sep s then 0 else -1
  end.

Definition Contains (s substr : string) : bool := 0 <=? Index s substr.

(** The loop of [genSplit]: at most [k] cuts at instances of [sep]. *)
Fixpoint genSplit (s sep : string) (k : nat) : list string :=
  match k with
  | O => [s]
  | S k' =>
      let m := Index s sep in
      if m <? 0 then [s]
      else take (Z.to_nat m) s
             :: genSplit (drop (Z.to_nat (m + len sep)) s) sep k'
  end.

(** [SplitN(s, sep, n)] for a non-empty [sep].  With [n < 0] Go allows
    [Count(s, sep)] cuts; the loop stops at the first failed [Index], so
    the bound [len(s)] allows the same cuts. *)
Definition SplitN (s sep : string) (n : Z) : list string :=
  if n =? 0 then []
  else if n <? 0 then genSplit s sep (String.length s)
  else genSplit s sep (Z.to_nat (Z.min n (len s + 1) - 1)).

Definition Split (s sep : string) : list string := SplitN s sep (-1).

Fixpoint Join (elems : list string) (sep : string) : string :=
  match elems with
  | [] => EmptyString
  | [e] => e
  | e :: rest => e +:+ sep +:+ Join rest sep
  end.

(** The table [asciiSpace]: tab, line feed, vertical tab, form feed,
    carriage return, space. *)
Definition isSpace (c : ascii) : bool :=
  let n := nat_of_ascii c in
  ((9 <=? n)%nat && (n <=? 13)%nat) || (n =? 32)%nat.

Fixpoint fieldsFrom (s : string) (cur : string) : list string :=
  match s with
  | EmptyString => if decide (cur = EmptyString) then [] else [cur]
  | String c s' =>
      if isSpace c
      then (if decide (cur = EmptyString) then fieldsFrom s' EmptyString
            else cur :: fieldsFrom s' EmptyString)
      else fieldsFrom s' (cur +:+ String c EmptyString)
  end.

(** [Fields(s)]: the maximal runs of non-space bytes. *)
Definition Fields (s : string) : list string := fieldsFrom s EmptyString.

Fixpoint trimLeftSpace (s : string) : string :=
  match s with
  | String c s' => if isSpace c then trimLeftSpace s' else s
  | EmptyString => EmptyString
  end.

Definition trimRightSpace (s : string) : string :=
  String.rev (trimLeftSpace (String.rev s)).

Definition TrimSpace (s : string) : string :=
  trimRightSpace (trimLeftSpace s).

Fixpoint inCutset (c : ascii) (cutset : string) : bool :=
  match cutset with
  | EmptyString => false
  | String d cutset' => if decide (c = d) then true else inCutset c cutset'
  end.

Fixpoint TrimLeft (s cutset : string) : string :=
  match s with
  | String c s' => if inCutset c cutset then TrimLeft s' cutset else s
  | EmptyString => EmptyString
  end.

Definition TrimPrefix (s prefix : string) : string :=
  if HasPrefix s prefix then drop (String.length prefix) s else s.

End strings.

(** ** Package strconv, base 10 *)

Module strconv.

Inductive NumError := ErrSyntax | ErrRange.

#[global] Instance NumError_eq_dec : EqDecision NumError.
Proof. solve_decision. Defined.

Definition maxUint64 : Z := 2 ^ 64 - 1.

Definition isDigit (c : ascii) : bool :=
  let n := nat_of_ascii c in (48 <=? n)%nat && (n <=? 57)%nat.

Definition digitVal (c : ascii) : Z := Z.of_nat (nat_of_ascii c) - 48.

(** The digit loop of [ParseUint(s, 10, 64)]: [n] is the value read so
    far; the cutoff is [maxUint64/10 + 1]. *)
Fixpoint parseUintLoop (s : string) (n : Z) : NumError + Z :=
  match s with
  | EmptyString => inr n
  | String c rest =>
      if isDigit c then
        if maxUint64 / 10 + 1 <=? n then inl ErrRange
        else let n1 := n * 10 + digitVal c in
             if maxUint64 <? n1 then inl ErrRange
             else parseUintLoop rest n1
      else inl ErrSyntax
  end.

Definition ParseUint10 (s : string) : NumError + Z :=
  match s with
  | EmptyString => inl ErrSyntax
  | _ => parseUintLoop s 0
  end.

(** [ParseInt(s, 10, 64)]: an optional sign, then [ParseUint], then the
    range check against [1 << 63]. *)
Definition ParseInt10 (s : string) : NumError + Z :=
  match s with
  | EmptyString => inl ErrSyntax
  | String c rest =>
      let neg := bool_decide (c = "-"%char) in
      let digits := if bool_decide (c = "+"%char) || neg then rest else s in
      match ParseUint10 digits with
      | inl ErrSyntax => inl ErrSyntax
      | inl ErrRange => inl ErrRange
      | inr un =>
          let cutoff := 2 ^ 63 in
          if negb neg && (cutoff <=? un) then inl ErrRange
          else if neg && (cutoff <? un) then inl ErrRange
          else inr (if neg then - un else un)
      end
  end.

(** [fmt.Sprintf("%d", n)] and [strconv.Itoa]. *)
Definition Itoa (n : Z) : string := NilZero.string_of_int (Z.to_int n).

End strconv.

(** ** Errors

    Go compares [error] values by identity: the package variable
    [errUnsupportedListLine] is one value, distinct from every error made
    elsewhere, whatever its text. *)

Inductive error :=
  | errUnsupportedListLine
  | errorsNew (msg : string)                    (* errors.New(msg) *)
  | textprotoError (code : Z) (msg : string)    (* &textproto.Error{Code, Msg} *)
  | numError (e : strconv.NumError) (num : string)
  | libError (msg : string).                    (* an error a library reports *)

Global Instance error_eq_dec : EqDecision error.
Proof. solve_decision. Defined.

(** [%03d] of [fmt]: sign, then the digits padded with zeros to width 3. *)
Definition pad3 (code : Z) : string :=
  let digits := strconv.Itoa (Z.abs code) in
  let sign := if code <? 0 then "-" else "" in
  let width := (3 - String.length sign - String.length digits)%nat in
  sign +:+ String.concat "" (replicate width "0") +:+ digits.

(** The method [Error()]. *)
Definition Error (e : error) : string :=
  match e with
  | errUnsupportedListLine => "Unsupported LIST line"
  | errorsNew msg => msg
  | textprotoError code msg => pad3 code +:+ " " +:+ msg
  | numError strconv.ErrSyntax num =>
      "strconv.ParseInt: parsing " +:+ num +:+ ": invalid syntax"
  | numError strconv.ErrRange num =>
      "strconv.ParseInt: parsing " +:+ num +:+ ": value out of range"
  | libError msg => msg
  end.

(** ** FTP reply codes

    Modelled from the spec: the file declaring the [Status...] constants is
    not among the sources; the values are the ones the spec gives for each
    use (125 already open, 150 about to send, 211 FEAT, 226 closing, 257
    PWD/MKD, 350 REST/RNFR). *)

Definition StatusAlreadyOpen : Z := 125.
Definition StatusAboutToSend : Z := 150.
Definition StatusSystem : Z := 211.
Definition StatusClosingDataConnection : Z := 226.
Definition StatusPathCreated : Z := 257.
Definition StatusRequestFilePending : Z := 350.

(** ** Streams, the session and the sub-connection *)

Class HasStreamID (A : Type) := StreamID : A -> Z.

(** A receive stream: its QUIC stream ID, and what a [bufio.Scanner] reads
    from it (the lines, then the scanner's final error if any). *)
Record ReceiveStream := mkReceiveStream {
  recvID : Z;
  scanLines : list string;
  scanErr : option error
}.

Record SendStream := mkSendStream { sendID : Z }.

Global Instance ReceiveStream_id : HasStreamID ReceiveStream := recvID.
Global Instance SendStream_id : HasStreamID SendStream := sendID.

(** Arguments of a [fmt]-style call. *)
Inductive Arg := ArgString (s : string) | ArgUint (n : Z).

(** Calls into the libraries, in program order. *)
Inductive Event :=
  | EvLock                                         (* structAccessMutex.Lock() *)
  | EvUnlock                                       (* structAccessMutex.Unlock() *)
  | EvAcceptUniStream                              (* quicSession.AcceptUniStream() *)
  | EvOpenUniStreamSync                            (* quicSession.OpenUniStreamSync() *)
  | EvCmd (format : string) (args : list Arg)      (* controlStream.Cmd(format, args...) *)
  | EvReadResponse (expectCode : Z)                (* controlStream.ReadResponse(expectCode) *)
  | EvCloseSend (id : Z).                          (* stream.Close() on a send stream *)

(** struct ServerConn; [structAccessMutex] is [true] while locked.  The
    field [quicSession] is a handle on the peer, see [Peer]. *)
Record ServerConn := mkServerConn {
  dataRetriveStreams : gmap Z ReceiveStream;
  structAccessMutex : bool
}.

(** struct ServerSubConn; [controlStream] is a handle on the peer. *)
Record ServerSubConn := mkServerSubConn {
  serverConnection : ServerConn;
  features : gmap string string
}.

(** What the peer and the transport will answer, call after call.  Once a
    queue is used up the session is over and the call reports an error. *)
Record Peer := mkPeer {
  acceptResults : list (error + ReceiveStream);
  openUniResults : list (error + SendStream);
  cmdResults : list (option error);
  replies : list (error + Z * string)
}.

Record World := mkWorld {
  subC : ServerSubConn;
  peer : Peer;
  trace : list Event
}.

Definition errSessionOver : error := libError "session closed".

(** ** The monad of sub-connection operations *)

Inductive Outcome (A : Type) : Type :=
  | Returns (a : A) (w : World)
  | Panics (k : PanicKind) (w : World)
  | Blocks (w : World)        (* waits for ever, on a mutex that is held *)
  | OutOfFuel.
Arguments Returns {A} a w.
Arguments Panics {A} k w.
Arguments Blocks {A} w.
Arguments OutOfFuel {A}.

Definition M (A : Type) : Type := World -> Outcome A.

Definition ret {A} (a : A) : M A := fun w => Returns a w.

Definition bind {A B} (c : M A) (f : A -> M B) : M B :=
  fun w =>
    match c w with
    | Returns a w' => f a w'
    | Panics k w' => Panics k w'
    | Blocks w' => Blocks w'
    | OutOfFuel => OutOfFuel
    end.

Declare Scope go_scope.
Delimit Scope go_scope with go.
Notation "'let*' x := c 'in' k" := (bind c (fun x => k))
  (at level 10, x pattern, c at level 100, k at level 200, only parsing) : go_scope.
Notation "'do' c 'then' k" := (bind c (fun _ => k))
  (at level 10, c at level 100, k at level 200, only parsing) : go_scope.
Local Open Scope go_scope.

(** A pure computation inside an operation: a panic stays a panic. *)
Definition liftRun {A} (r : run A) : M A :=
  fun w => match r with Done a => Returns a w | Panic k => Panics k w end.

(** [defer d] before [body]: [d] also runs while [body] panics. *)
Definition defer {A} (d : M unit) (body : M A) : M A :=
  fun w =>
    match body w with
    | Returns a w' => (do d then ret a) w'
    | Panics k w' =>
        match d w' with
        | Returns _ w'' => Panics k w''
        | Panics k' w'' => Panics k' w''
        | Blocks w'' => Blocks w''
        | OutOfFuel => OutOfFuel
        end
    | Blocks w' => Blocks w'
    | OutOfFuel => OutOfFuel
    end.

(** *** Access to the fields *)

Definition setDataRetriveStreams (m : gmap Z ReceiveStream) (w : World) : World :=
  mkWorld
    (mkServerSubConn
       (mkServerConn m (structAccessMutex (serverConnection (subC w))))
       (features (subC w)))
    (peer w) (trace w).

Definition setMutex (b : bool) (w : World) : World :=
  mkWorld
    (mkServerSubConn
       (mkServerConn (dataRetriveStreams (serverConnection (subC w))) b)
       (features (subC w)))
    (peer w) (trace w).

Definition setFeatures (f : gmap string string) (w : World) : World :=
  mkWorld (mkServerSubConn (serverConnection (subC w)) f) (peer w) (trace w).

Definition setPeer (p : Peer) (w : World) : World :=
  mkWorld (subC w) p (trace w).

Definition emit (ev : Event) (w : World) : World :=
  mkWorld (subC w) (peer w) (trace w ++ [ev]).

Definition pendingStreams (w : World) : gmap Z ReceiveStream :=
  dataRetriveStreams (serverConnection (subC w)).

Definition mutexHeld (w : World) : bool :=
  structAccessMutex (serverConnection (subC w)).

(** Reading and writing the two maps, as operations. *)
Definition getPending : M (gmap Z ReceiveStream) :=
  fun w => Returns (pendingStreams w) w.

Definition putPending (m : gmap Z ReceiveStream) : M unit :=
  fun w => Returns tt (setDataRetriveStreams m w).

Definition getFeatures : M (gmap string string) :=
  fun w => Returns (features (subC w)) w.

Definition putFeatures (f : gmap string string) : M unit :=
  fun w => Returns tt (setFeatures f w).

(** *** sync.Mutex *)

Definition Lock : M unit :=
  fun w =>
    if mutexHeld w then Blocks w
    else Returns tt (setMutex true (emit EvLock w)).

(** Unlocking a mutex that is not locked is a fatal run-time error. *)
Definition Unlock : M unit :=
  fun w =>
    if mutexHeld w then Returns tt (setMutex false (emit EvUnlock w))
    else Panics UnlockOfUnlockedMutex w.

(** *** quic.Session *)

Definition AcceptUniStream : M (error + ReceiveStream) :=
  fun w =>
    let w1 := emit EvAcceptUniStream w in
    match acceptResults (peer w) with
    | [] => Returns (inl errSessionOver) w1
    | r :: rest =>
        Returns r
          (setPeer (mkPeer rest (openUniResults (peer w))
                      (cmdResults (peer w)) (replies (peer w))) w1)
    end.

Definition OpenUniStreamSync : M (error + SendStream) :=
  fun w =>
    let w1 := emit EvOpenUniStreamSync w in
    match openUniResults (peer w) with
    | [] => Returns (inl errSessionOver) w1
    | r :: rest =>
        Returns r
          (setPeer (mkPeer (acceptResults (peer w)) rest
                      (cmdResults (peer w)) (replies (peer w))) w1)
    end.

Definition CloseSend (stream : SendStream) : M unit :=
  fun w => Returns tt (emit (EvCloseSend (StreamID stream)) w).

(** *** textproto.Conn *)

(** [Cmd(format, args...)]: formats and sends one command line. *)
Definition Cmd (format : string) (args : list Arg) : M (option error) :=
  fun w =>
    let w1 := emit (EvCmd format args) w in
    match cmdResults (peer w) with
    | [] => Returns (Some errSessionOver) w1
    | r :: rest =>
        Returns r
          (setPeer (mkPeer (acceptResults (peer w)) (openUniResults (peer w))
                      rest (replies (peer w))) w1)
    end.

(** The test of [parseCodeLine]: does [code] miss the expectation? *)
Definition unexpectedCode (expectCode code : Z) : bool :=
  ((1 <=? expectCode) && (expectCode <? 10)
     && negb (Z.quot code 100 =? expectCode))
  || ((10 <=? expectCode) && (expectCode <? 100)
        && negb (Z.quot code 10 =? expectCode))
  || ((100 <=? expectCode) && (expectCode <? 1000)
        && negb (code =? expectCode)).

(** [ReadResponse(expectCode)]: the next reply; a reply with an unexpected
    code comes back together with a [textproto.Error] carrying it. *)
Definition ReadResponse (expectCode : Z) : M (Z * string * option error) :=
  fun w =>
    let w1 := emit (EvReadResponse expectCode) w in
    match replies (peer w) with
    | [] => Returns (0, "", Some errSessionOver) w1
    | r :: rest =>
        let w2 := setPeer (mkPeer (acceptResults (peer w))
                             (openUniResults (peer w))
                             (cmdResults (peer w)) rest) w1 in
        match r with
        | inl err => Returns (0, "", Some err) w2
        | inr (code, message) =>
            if unexpectedCode expectCode code
            then Returns (code, message, Some (textprotoError code message)) w2
            else Returns (code, message, None) w2
        end
    end.

(** ** The sub-connection (type ServerSubConn) *)

(** cmd is a helper function to execute a command and check for the
    expected FTP return code. *)
Definition cmd (expected : Z) (format : string) (args : list Arg)
  : M (Z * string * option error) :=
  let* err := Cmd format args in
  match err with
  | Some e => ret (0, "", Some e)
  | None => ReadResponse expected
  end.

(** The body of the loop of [Feat] over the lines of the reply. *)
Fixpoint featLines (lines : list string) (features : gmap string string)
  : run (gmap string string) :=
  match lines with
  | [] => Done features
  | line :: rest =>
      if negb (strings.HasPrefix line " ") then featLines rest features
      else
        let line := strings.TrimSpace line in
        let featureElements := strings.SplitN line " " 2 in
        let+ command := GoSlice.at_ featureElements 0 in
        let+ commandDesc := (if GoSlice.len featureElements =? 2
                             then GoSlice.at_ featureElements 1
                             else Done "") in
        featLines rest (<[command := commandDesc]> features)
  end%run.

(** Feat issues a FEAT command and records what the reply lists. *)
Definition Feat : M (option error) :=
  let* (code, message, err) := cmd (-1) "FEAT" [] in
  match err with
  | Some e => ret (Some e)
  | None =>
      if negb (code =? StatusSystem) then
        (* The server does not support the FEAT command. This is not an
           error: we consider that there is no additional feature. *)
        ret None
      else
        let lines := strings.Split message GoString.LF in
        let* known := getFeatures in
        let* known' := liftRun (featLines lines known) in
        do putFeatures known' then
        ret None
  end.

(** Features return allowed features from feat command response. *)
Definition Features (w : World) : gmap string string := features (subC w).

(** getNewDataSendStream creates a new FTP data stream to send. *)
Definition getNewDataSendStream : M (error + SendStream) :=
  do Lock then defer Unlock OpenUniStreamSync.

(** The loop of [getDataRetriveStream]; every turn that does not return
    takes one stream from the session, so [fuel] above the number of
    streams the session still delivers is never used up. *)
Fixpoint rendezvousLoop (fuel : nat) (streamID : Z) : M (error + ReceiveStream) :=
  match fuel with
  | O => fun _ => OutOfFuel
  | S fuel' =>
      let* pending := getPending in
      match pending !! streamID with
      | Some stream =>
          do putPending (delete streamID pending) then
          ret (inr stream)
      | None =>
          let* r := AcceptUniStream in
          match r with
          | inl err => ret (inl err)
          | inr stream =>
              let* pending := getPending in
              do putPending (<[StreamID stream := stream]> pending) then
              if streamID <? StreamID stream
              then ret (inl (errorsNew "Could not get wanted stream."))
              else rendezvousLoop fuel' streamID
          end
      end
  end.

(** getDataRetriveStream hands out the receive stream of the given ID. *)
Definition getDataRetriveStream (streamID : Z) : M (error + ReceiveStream) :=
  do Lock then
  defer Unlock
    (fun w => rendezvousLoop (S (length (acceptResults (peer w)))) streamID w).

(** cmdDataReceiveStreamFrom executes a command which requires a data
    stream to receive from. *)
Definition cmdDataReceiveStreamFrom (offset : Z) (format : string) (args : list Arg)
  : M (error + ReceiveStream) :=
  let* restErr := (if negb (offset =? 0)
                   then let* (_, _, err) :=
                          cmd StatusRequestFilePending "REST %d" [ArgUint offset] in
                        ret err
                   else ret None) in
  match restErr with
  | Some err => ret (inl err)
  | None =>
      let* err := Cmd format args in
      match err with
      | Some err => ret (inl err)
      | None =>
          let* (code, msg, err) := ReadResponse (-1) in
          match err with
          | Some err => ret (inl err)
          | None =>
              if negb (code =? StatusAlreadyOpen) && negb (code =? StatusAboutToSend)
              then ret (inl (textprotoError code msg))
              else
                let msgParts := strings.SplitN msg " " 2 in
                if negb (GoSlice.len msgParts =? 2)
                then ret (inl (errorsNew
                       "Returnmessage must contain the stream id separated by a blank."))
                else
                  let* part0 := liftRun (GoSlice.at_ msgParts 0) in
                  match strconv.ParseInt10 part0 with
                  | inl _ =>
                      ret (inl (errorsNew
                        "Stream ID has not a valid value for a unidirectional stream from the server."))
                  | inr streamIDUint64 =>
                      if (streamIDUint64 <? 0) || negb (Z.rem streamIDUint64 4 =? 3)
                      then ret (inl (errorsNew
                        "Stream ID has not a valid value for a unidirectional stream from the server."))
                      else
                        let* r := getDataRetriveStream streamIDUint64 in
                        match r with
                        | inl err => ret (inl err)
                        | inr stream => ret (inr stream)
                        end
                  end
          end
      end
  end.

(** The command text of a send: the stream ID goes in after the verb. *)
Definition spliceStreamID (format : string) (id : Z) : run string :=
  let formatParts := strings.SplitN format " " 2 in
  (if GoSlice.len formatParts <? 2
   then let+ part0 := GoSlice.at_ formatParts 0 in
        Done (part0 +:+ (" " +:+ strconv.Itoa id))
   else let+ part0 := GoSlice.at_ formatParts 0 in
        let+ part1 := GoSlice.at_ formatParts 1 in
        Done (part0 +:+ (" " +:+ strconv.Itoa id +:+ " ") +:+ part1))%run.

(** cmdDataSendStreamFrom executes a command which requires a data stream
    to send on. *)
Definition cmdDataSendStreamFrom (offset : Z) (format : string) (args : list Arg)
  : M (error + SendStream) :=
  let* r := getNewDataSendStream in
  match r with
  | inl err => ret (inl err)
  | inr stream =>
      let* restErr := (if negb (offset =? 0)
                       then let* (_, _, err) :=
                              cmd StatusRequestFilePending "REST %d" [ArgUint offset] in
                            ret err
                       else ret None) in
      match restErr with
      | Some err => do CloseSend stream then ret (inl err)
      | None =>
          let* format' := liftRun (spliceStreamID format (StreamID stream)) in
          let* err := Cmd format' args in
          match err with
          | Some err => do CloseSend stream then ret (inl err)
          | None =>
              let* (code, msg, err) := ReadResponse (-1) in
              match err with
              | Some err => do CloseSend stream then ret (inl err)
              | None =>
                  if negb (code =? StatusAlreadyOpen) && negb (code =? StatusAboutToSend)
                  then do CloseSend stream then ret (inl (textprotoError code msg))
                  else ret (inr stream)
              end
          end
      end
  end.

(** CurrentDir issues a PWD command and returns the current directory. *)
Definition CurrentDir : M (string * option error) :=
  let* (_, msg, err) := cmd StatusPathCreated "PWD" [] in
  match err with
  | Some err => ret ("", Some err)
  | None =>
      let start := strings.Index msg GoString.QUOTE in
      let end_ := strings.LastIndex msg GoString.QUOTE in
      if (start =? -1) || (end_ =? -1)
      then ret ("", Some (errorsNew "Unsuported PWD response format"))
      else
        let* path := liftRun (GoString.slice msg (start + 1) end_) in
        ret (path, None)
  end.

(** ** The parallel transfer engine (package client_ftp) *)

(** The error a worker of [parallelTransfer] sends when opening its control
    stream, its login or its change of directory fails. *)
Definition resetReply (err : error) : error :=
  errorsNew ("Go routine reset. " +:+ Error err).

(** The test of the collection loop on a reply that is not nil. *)
Definition countsAsReset (replay : error) : bool :=
  strings.HasPrefix "Go routine reset." (Error replay).

(** The collection loop of [MultipleTransfer]: [returnChannel] holds the
    replies in the order they are received; receiving from the empty
    channel waits for ever ([None]). The result is the final
    [normalReplay], [goRoutineResetReply] and [errorMessage]. *)
Fixpoint collectReplies (lenTasks nrParallel : Z)
    (returnChannel : list (option error))
    (normalReplay goRoutineResetReply : Z) (errorMessage : string)
  : option (Z * Z * string) :=
  if (normalReplay <? lenTasks) && (goRoutineResetReply <? nrParallel) then
    match returnChannel with
    | [] => None
    | replay :: returnChannel' =>
        match replay with
        | Some e =>
            collectReplies lenTasks nrParallel returnChannel'
              (normalReplay + 1)
              (if countsAsReset e then goRoutineResetReply + 1
               else goRoutineResetReply)
              (errorMessage +:+ GoString.LF +:+ Error e)
        | None =>
            collectReplies lenTasks nrParallel returnChannel'
              (normalReplay + 1) goRoutineResetReply errorMessage
        end
    end
  else Some (normalReplay, goRoutineResetReply, errorMessage).

(** ** Definitions used to state the properties *)

(** *** The rendezvous of [getDataRetriveStream] *)

Definition errLostStream : error := errorsNew "Could not get wanted stream.".

(** The loop of [getDataRetriveStream] read off the queue of streams the
    session still delivers: the result, the pending map afterwards, the
    streams left in the session, and the number of [AcceptUniStream] calls. *)
Fixpoint loopRun (streamID : Z) (pending : gmap Z ReceiveStream)
    (queue : list (error + ReceiveStream))
  : (error + ReceiveStream) * gmap Z ReceiveStream
    * list (error + ReceiveStream) * nat :=
  match pending !! streamID with
  | Some stream => (inr stream, delete streamID pending, queue, O)
  | None =>
      match queue with
      | [] => (inl errSessionOver, pending, [], 1%nat)
      | inl err :: rest => (inl err, pending, rest, 1%nat)
      | inr stream :: rest =>
          let pending' := <[StreamID stream := stream]> pending in
          if streamID <? StreamID stream
          then (inl errLostStream, pending', rest, 1%nat)
          else
            let '(r, pending'', rest', k) := loopRun streamID pending' rest in
            (r, pending'', rest', S k)
      end
  end.

(** The world a run of the loop leaves behind. *)
Definition afterLoop (w : World) (pending : gmap Z ReceiveStream)
    (queue : list (error + ReceiveStream)) (events : list Event) : World :=
  mkWorld
    (mkServerSubConn (mkServerConn pending (mutexHeld w)) (features (subC w)))
    (mkPeer queue (openUniResults (peer w)) (cmdResults (peer w))
       (replies (peer w)))
    (trace w ++ events).

(** The rendezvous as the specification words it.  Accepting from the
    session: an accepted stream with the wanted ID is returned, one with a
    smaller ID is filed under its ID and the loop goes on, one with a larger
    ID ends the call with the lost-stream error (the data model has every
    newly accepted stream filed until then); a failed accept is the
    transport failure it reports. *)
Fixpoint specAccept (streamID : Z) (pending : gmap Z ReceiveStream)
    (queue : list (error + ReceiveStream))
  : (error + ReceiveStream) * gmap Z ReceiveStream
    * list (error + ReceiveStream) :=
  match queue with
  | [] => (inl errSessionOver, pending, [])
  | inl err :: rest => (inl err, pending, rest)
  | inr stream :: rest =>
      if StreamID stream =? streamID then (inr stream, pending, rest)
      else if StreamID stream <? streamID
      then specAccept streamID (<[StreamID stream := stream]> pending) rest
      else (inl errLostStream, <[StreamID stream := stream]> pending, rest)
  end.

(** If the map contains the ID, the entry is removed and its stream
    returned; otherwise streams are accepted as above. *)
Definition rendezvousSpec (streamID : Z) (pending : gmap Z ReceiveStream)
    (queue : list (error + ReceiveStream))
  : (error + ReceiveStream) * gmap Z ReceiveStream
    * list (error + ReceiveStream) :=
  match pending !! streamID with
  | Some stream => (inr stream, delete streamID pending, queue)
  | None => specAccept streamID pending queue
  end.

(** *** The mutex along a trace *)

(** Is every [AcceptUniStream] of the trace called while the mutex is
    free?  [held] tells whether it is held where the trace starts. *)
Fixpoint mutexFreeAtAccepts (held : bool) (events : list Event) : bool :=
  match events with
  | [] => true
  | EvLock :: rest => mutexFreeAtAccepts true rest
  | EvUnlock :: rest => mutexFreeAtAccepts false rest
  | EvAcceptUniStream :: rest => negb held && mutexFreeAtAccepts held rest
  | _ :: rest => mutexFreeAtAccepts held rest
  end.

(** Is every [AcceptUniStream] of the trace called while the mutex is held? *)
Fixpoint mutexHeldAtAccepts (held : bool) (events : list Event) : bool :=
  match events with
  | [] => true
  | EvLock :: rest => mutexHeldAtAccepts true rest
  | EvUnlock :: rest => mutexHeldAtAccepts false rest
  | EvAcceptUniStream :: rest => held && mutexHeldAtAccepts held rest
  | _ :: rest => mutexHeldAtAccepts held rest
  end.

(** *** The pending map *)

(** Every entry is filed under the ID of its stream. *)
Definition wellKeyed (pending : gmap Z ReceiveStream) : Prop :=
  forall (k : Z) (stream : ReceiveStream),
    pending !! k = Some stream -> StreamID stream = k.

(** The streams among the results taken from the session. *)
Definition accepted (consumed : list (error + ReceiveStream)) : list ReceiveStream :=
  omap (fun r => match r with inr stream => Some stream | inl _ => None end)
    consumed.

(** Filing streams one after the other, each under its own ID. *)
Definition fileAll (pending : gmap Z ReceiveStream) (streams : list ReceiveStream)
  : gmap Z ReceiveStream :=
  foldl (fun m stream => <[StreamID stream := stream]> m) pending streams.

(** *** Decimal integers in a reply *)

Fixpoint allDigits (s : string) : bool :=
  match s with
  | EmptyString => true
  | String c rest => strconv.isDigit c && allDigits rest
  end.

(** The number a digit string denotes, read after the value [acc]. *)
Fixpoint digitsValue (s : string) (acc : Z) : Z :=
  match s with
  | EmptyString => acc
  | String c rest => digitsValue rest (acc * 10 + strconv.digitVal c)
  end.

(** [text] is an ASCII decimal integer denoting [i]: an optional sign and
    at least one digit. *)
Inductive decimalInteger : string -> Z -> Prop :=
  | decimal_plain (ds : string) :
      ds <> EmptyString -> allDigits ds = true ->
      decimalInteger ds (digitsValue ds 0)
  | decimal_plus (ds : string) :
      ds <> EmptyString -> allDigits ds = true ->
      decimalInteger (String "+" ds) (digitsValue ds 0)
  | decimal_minus (ds : string) :
      ds <> EmptyString -> allDigits ds = true ->
      decimalInteger (String "-" ds) (- digitsValue ds 0).

(** The message begins with a decimal stream ID followed by a space, and
    the ID is non-negative, not 0 and 3 modulo 4. *)
Definition beginsWithStreamID (msg : string) : Prop :=
  exists (text rest : string) (i : Z),
    msg = text +:+ " " +:+ rest /\ decimalInteger text i
    /\ 0 <= i /\ i <> 0 /\ i mod 4 = 3.

(** The two protocol-format errors of [cmdDataReceiveStreamFrom]. *)
Definition isProtocolFormatError (e : error) : Prop :=
  e = errorsNew "Returnmessage must contain the stream id separated by a blank."
  \/ e = errorsNew "Stream ID has not a valid value for a unidirectional stream from the server.".

(** The REST exchange that precedes a transfer command: nothing for offset
    0, else [REST offset] answered without error. *)
Definition restDone (offset : Z) (w w' : World) : Prop :=
  (offset = 0 /\ w' = w)
  \/ (offset <> 0
      /\ exists (code : Z) (msg : string),
          cmd StatusRequestFilePending "REST %d" [ArgUint offset] w
          = Returns (code, msg, None) w').

(** *** Worlds for the examples *)

(** A sub-connection right after [GetNewSubConn]: nothing pending, no
    feature known, the mutex free, and the given answers ahead. *)
Definition freshWorld (accepts : list (error + ReceiveStream))
    (opens : list (error + SendStream)) (cmds : list (option error))
    (answers : list (error + Z * string)) : World :=
  mkWorld (mkServerSubConn (mkServerConn ∅ false) ∅)
    (mkPeer accepts opens cmds answers) [].

(** An empty receive stream with the given ID. *)
Definition streamOf (id : Z) : ReceiveStream := mkReceiveStream id [] None.

(** The reply to FEAT of a server that lists one feature, UTF8. *)
Definition featReply : string :=
  "Features:" +:+ GoString.LF +:+ " UTF8" +:+ GoString.LF +:+ "End".

(** A PWD reply message with its closing quote missing. *)
Definition unclosedPwdReply : string := GoString.QUOTE +:+ "/incoming".

(** Library functions for the examples of the listing parsers: no time
    layout matches and no size parses. *)
Definition noTime (layout value : string) : error + unit :=
  inl (libError "parsing time").
Definition noSize (str : string) : Z * option error :=
  (0, Some (numError strconv.ErrSyntax str)).

(** Library functions for the scenario of the specification: the time is
    kept as its text, and sizes are read in base 10. *)
Definition textTime (layout value : string) : error + string := inr value.
Definition decimalSize (str : string) : Z * option error :=
  match strconv.ParseUint10 str with
  | inr n => (n, None)
  | inl e => (0, Some (numError e str))
  end.

(** ** More of the sub-connection *)

(** Modelled from the spec: the remaining [Status...] constants, declared
    in the same absent file; the values are the ones the spec gives for
    each command (TYPE and NOOP 200, REIN 220, PASS 230, CWD, CDUP, RNTO,
    DELE and RMD 250, USER 331). *)

Definition StatusCommandOK : Z := 200.
Definition StatusReady : Z := 220.
Definition StatusLoggedIn : Z := 230.
Definition StatusRequestedFileActionOK : Z := 250.
Definition StatusUserOK : Z := 331.

(** Quit issues a QUIT FTP command to properly close the connection from
    the remote FTP server.  [closeResult] is what [controlStream.Close()]
    returns. *)
Definition Quit (closeResult : option error) : M (option error) :=
  do Cmd "QUIT" [] then
  ret closeResult.

(** Login authenticates the client with specified user and password. *)
Definition Login (user password : string) (closeResult : option error)
  : M (option error) :=
  let* (code, message, err) := cmd (-1) "USER %s" [ArgString user] in
  match err with
  | Some err => ret (Some err)
  | None =>
      let* refused :=
        (if code =? StatusLoggedIn then ret None
         else if code =? StatusUserOK then
           let* (_, _, err) :=
             cmd StatusLoggedIn "PASS %s" [ArgString password] in
           ret err
         else ret (Some (errorsNew message))) in
      match refused with
      | Some err => ret (Some err)
      | None =>
          (* Switch to binary mode *)
          let* (_, _, err) := cmd StatusCommandOK "TYPE I" [] in
          match err with
          | Some err => ret (Some err)
          | None =>
              (* logged, check features again *)
              let* err := Feat in
              match err with
              | Some err => do Quit closeResult then ret (Some err)
              | None => ret None
              end
          end
      end
  end.

(** ChangeDir issues a CWD FTP command. *)
Definition ChangeDir (path : string) : M (option error) :=
  let* (_, _, err) := cmd StatusRequestedFileActionOK "CWD %s" [ArgString path] in
  ret err.

(** ChangeDirToParent issues a CDUP FTP command. *)
Definition ChangeDirToParent : M (option error) :=
  let* (_, _, err) := cmd StatusRequestedFileActionOK "CDUP" [] in
  ret err.

(** Rename renames a file on the remote FTP server. *)
Definition Rename (from to : string) : M (option error) :=
  let* (_, _, err) := cmd StatusRequestFilePending "RNFR %s" [ArgString from] in
  match err with
  | Some err => ret (Some err)
  | None =>
      let* (_, _, err) :=
        cmd StatusRequestedFileActionOK "RNTO %s" [ArgString to] in
      ret err
  end.

(** Delete issues a DELE FTP command. *)
Definition Delete (path : string) : M (option error) :=
  let* (_, _, err) := cmd StatusRequestedFileActionOK "DELE %s" [ArgString path] in
  ret err.

(** MakeDir issues a MKD FTP command. *)
Definition MakeDir (path : string) : M (option error) :=
  let* (_, _, err) := cmd StatusPathCreated "MKD %s" [ArgString path] in
  ret err.

(** RemoveDir issues a RMD FTP command. *)
Definition RemoveDir (path : string) : M (option error) :=
  let* (_, _, err) := cmd StatusRequestedFileActionOK "RMD %s" [ArgString path] in
  ret err.

(** NoOp issues a NOOP FTP command. *)
Definition NoOp : M (option error) :=
  let* (_, _, err) := cmd StatusCommandOK "NOOP" [] in
  ret err.

(** Logout issues a REIN FTP command to logout the current user. *)
Definition Logout : M (option error) :=
  let* (_, _, err) := cmd StatusReady "REIN" [] in
  ret err.

(** NameList issues an NLST FTP command. *)
Definition NameList (path : string) : M (list string * option error) :=
  let* r := cmdDataReceiveStreamFrom 0 "NLST %s" [ArgString path] in
  match r with
  | inl err => ret ([], Some err)
  | inr conn =>
      defer (do ReadResponse StatusClosingDataConnection then ret tt)
        (ret (scanLines conn, scanErr conn))
  end.

(** An [io.Reader] handed to [Stor], as far as the client sees it: what
    [io.Copy] from it to a send stream reports. *)
Record Reader := mkReader { copyResult : option error }.

(** StorFrom issues a STOR FTP command to store a file to the remote FTP
    server, writing from the given offset. *)
Definition StorFrom (path : string) (r : Reader) (offset : Z) : M (option error) :=
  let* s := cmdDataSendStreamFrom offset "STOR %s" [ArgString path] in
  match s with
  | inl err => ret (Some err)
  | inr stream =>
      let err := copyResult r in
      do CloseSend stream then
      match err with
      | Some err => ret (Some err)
      | None =>
          let* (_, _, err) := ReadResponse StatusClosingDataConnection in
          ret err
      end
  end.

(** Stor issues a STOR FTP command to store a file to the remote FTP server. *)
Definition Stor (path : string) (r : Reader) : M (option error) :=
  StorFrom path r 0.

(** ** More of the parallel transfer engine *)

(** type TransferDirction int8, with the constants [Retrieve] and [Store]. *)
Definition Retrieve : Z := 1.
Definition Store : Z := 2.





(** [MultipleTransfer]: the error returned after the collection loop. *)
Definition collectedError (errorMessage : string) : option error :=
  if decide (errorMessage = "") then None else Some (errorsNew errorMessage).

(** ** More definitions used to state the properties *)

(** The commands among the events of a trace. *)
Fixpoint sentCommands (events : list Event) : list (string * list Arg) :=
  match events with
  | [] => []
  | EvCmd format args :: rest => (format, args) :: sentCommands rest
  | _ :: rest => sentCommands rest
  end.

(** How often the send stream [id] is closed along a trace. *)
Fixpoint closeCount (id : Z) (events : list Event) : nat :=
  match events with
  | [] => O
  | EvCloseSend id' :: rest =>
      ((if decide (id' = id) then 1 else 0) + closeCount id rest)%nat
  | _ :: rest => closeCount id rest
  end.

(** The messages the collection loop appends for the replies it reads. *)
Fixpoint collectedMessages (replies : list (option error)) : string :=
  match replies with
  | [] => ""
  | Some e :: rest => GoString.LF +:+ Error e +:+ collectedMessages rest
  | None :: rest => collectedMessages rest
  end.

(** The next command is written without error and answered with [code]. *)
Definition answered (w : World) (code : Z) : Prop :=
  exists (msg : string) (cs : list (option error)) (rs : list (error + Z * string)),
    cmdResults (peer w) = None :: cs
    /\ replies (peer w) = inr (code, msg) :: rs.

(** The run of an operation from [w] to [w'] leaves the state of the
    sub-connection (pending receive streams, mutex, features) and the
    streams the session still delivers as they were. *)
Definition steady (w w' : World) : Prop :=
  subC w' = subC w /\ acceptResults (peer w') = acceptResults (peer w).


(** ** Directory entries and the LIST-line parsers *)

Inductive EntryType := EntryTypeFile | EntryTypeFolder | EntryTypeLink.

Section Listing.

(** Library functions the parsers call, taken as they are: the type
    [time.Time] with its zero value, [time.Parse(layout, value)], the year
    of [time.Now()], and [strconv.ParseUint(str, 0, 64)] with the value it
    returns next to its error. *)
Context {time_Time : Type}.
Variable zeroTime : time_Time.
Variable time_Parse : string -> string -> error + time_Time.
Variable thisYear : Z.
Variable ParseUint0 : string -> Z * option error.

(** Entry describes a file and is returned by List(). *)
Record Entry := mkEntry {
  Name : string;
  Type_ : EntryType;
  Size : Z;
  Time_ : time_Time
}.

Definition withType (t : EntryType) (e : Entry) : Entry :=
  mkEntry (Name e) t (Size e) (Time_ e).
Definition withSize (n : Z) (e : Entry) : Entry :=
  mkEntry (Name e) (Type_ e) n (Time_ e).
Definition withTime (t : time_Time) (e : Entry) : Entry :=
  mkEntry (Name e) (Type_ e) (Size e) t.
Definition withName (n : string) (e : Entry) : Entry :=
  mkEntry n (Type_ e) (Size e) (Time_ e).

Definition zeroEntry : Entry := mkEntry "" EntryTypeFile 0 zeroTime.

(** [e.Time, err = time.Parse(layout, value)] *)
Definition assignTime (e : Entry) (layout value : string) : Entry * option error :=
  match time_Parse layout value with
  | inr t => (withTime t e, None)
  | inl err => (withTime zeroTime e, Some err)
  end.

Definition SetSize (e : Entry) (str : string) : Entry * option error :=
  let '(n, err) := ParseUint0 str in (withSize n e, err).

Definition SetTime (e : Entry) (fields : list string) : run (Entry * option error) :=
  (let+ f2 := GoSlice.at_ fields 2 in
   if strings.Contains f2 ":" then
     let+ f1 := GoSlice.at_ fields 1 in
     let+ f0 := GoSlice.at_ fields 0 in
     let+ yy := GoString.slice (strconv.Itoa thisYear) 2 4 in
     let+ f2 := GoSlice.at_ fields 2 in
     Done (assignTime e "_2 Jan 06 15:04 MST"
             (f1 +:+ " " +:+ f0 +:+ " " +:+ yy +:+ " " +:+ f2 +:+ " GMT"))
   else if negb (GoString.len f2 =? 4) then
     Done (e, Some (errorsNew "Invalid year format in time string"))
   else
     let+ f1 := GoSlice.at_ fields 1 in
     let+ f0 := GoSlice.at_ fields 0 in
     let+ f2 := GoSlice.at_ fields 2 in
     let+ yy := GoString.slice f2 2 4 in
     Done (assignTime e "_2 Jan 06 15:04 MST"
             (f1 +:+ " " +:+ f0 +:+ " " +:+ yy +:+ " 00:00 GMT")))%run.

(** The loop of [parseRFC3659ListLine] over the facts of the line. *)
Fixpoint rfc3659Facts (fields : list string) (e : Entry) : run (error + Entry) :=
  match fields with
  | [] => Done (inr e)
  | field :: rest =>
      let i := strings.Index field "=" in
      if i <? 1 then Done (inl errUnsupportedListLine)
      else
        let+ key := GoString.sliceTo field i in
        let+ value := GoString.sliceFrom field (i + 1) in
        if decide (key = "modify") then
          match assignTime e "20060102150405" value with
          | (_, Some err) => Done (inl err)
          | (e', None) => rfc3659Facts rest e'
          end
        else if decide (key = "type") then
          if decide (value = "dir" ∨ value = "cdir" ∨ value = "pdir")
          then rfc3659Facts rest (withType EntryTypeFolder e)
          else if decide (value = "file")
          then rfc3659Facts rest (withType EntryTypeFile e)
          else rfc3659Facts rest e
        else if decide (key = "size") then
          rfc3659Facts rest (fst (SetSize e value))
        else rfc3659Facts rest e
  end%run.

(** parseRFC3659ListLine parses the style of directory line defined in
    RFC 3659. *)
Definition parseRFC3659ListLine (line : string) : run (error + Entry) :=
  let iSemicolon := strings.Index line ";" in
  let iWhitespace := strings.Index line " " in
  if (iSemicolon <? 0) || (iWhitespace <? iSemicolon)
  then Done (inl errUnsupportedListLine)
  else
    (let+ name := GoString.sliceFrom line (iWhitespace + 1) in
     let+ facts := GoString.sliceTo line (iWhitespace - 1) in
     rfc3659Facts (strings.Split facts ";") (withName name zeroEntry))%run.

(** The test [len(fields) >= 7 && fields[1] == "folder" && fields[2] == "0"],
    operands evaluated left to right and only as far as needed. *)
Definition isFolderVariant (fields : list string) : run bool :=
  (if negb (7 <=? GoSlice.len fields) then Done false
   else
     let+ f1 := GoSlice.at_ fields 1 in
     if negb (bool_decide (f1 = "folder")) then Done false
     else
       let+ f2 := GoSlice.at_ fields 2 in
       Done (bool_decide (f2 = "0")))%run.

(** parseLsListLine parses a directory line in a format based on the
    output of the UNIX ls command. *)
Definition parseLsListLine (line : string) : run (error + Entry) :=
  let fields := strings.Fields line in
  (let+ folderVariant := isFolderVariant fields in
   if folderVariant then
     let+ nameFields := GoSlice.sliceFrom fields 6 in
     let e := mkEntry (strings.Join nameFields " ") EntryTypeFolder 0 zeroTime in
     let+ timeFields := GoSlice.slice fields 3 6 in
     let+ r := SetTime e timeFields in
     match r with
     | (_, Some err) => Done (inl err)
     | (e, None) => Done (inr e)
     end
   else
     let+ f1 := GoSlice.at_ fields 1 in
     if bool_decide (f1 = "0") then
       let+ nameFields := GoSlice.sliceFrom fields 7 in
       let e := mkEntry (strings.Join nameFields " ") EntryTypeFile 0 zeroTime in
       let+ f2 := GoSlice.at_ fields 2 in
       match SetSize e f2 with
       | (_, Some err) => Done (inl err)
       | (e, None) =>
           let+ timeFields := GoSlice.slice fields 4 7 in
           let+ r := SetTime e timeFields in
           match r with
           | (_, Some err) => Done (inl err)
           | (e, None) => Done (inr e)
           end
       end
     else if GoSlice.len fields <? 9 then Done (inl errUnsupportedListLine)
     else
       let e := zeroEntry in
       let+ f0 := GoSlice.at_ fields 0 in
       let+ c := GoString.at_ f0 0 in
       let+ typed :=
         (if bool_decide (c = "-"%char) then
            let+ f4 := GoSlice.at_ fields 4 in
            match SetSize (withType EntryTypeFile e) f4 with
            | (_, Some err) => Done (inl err)
            | (e, None) => Done (inr e)
            end
          else if bool_decide (c = "d"%char) then
            Done (inr (withType EntryTypeFolder e))
          else if bool_decide (c = "l"%char) then
            Done (inr (withType EntryTypeLink e))
          else Done (inl (errorsNew "Unknown entry type"))) in
       match typed with
       | inl err => Done (inl err)
       | inr e =>
           let+ timeFields := GoSlice.slice fields 5 8 in
           let+ r := SetTime e timeFields in
           match r with
           | (_, Some err) => Done (inl err)
           | (e, None) =>
               let+ nameFields := GoSlice.sliceFrom fields 8 in
               Done (inr (withName (strings.Join nameFields " ") e))
           end
       end)%run.

Definition dirTimeFormats : list string :=
  ["01-02-06  03:04PM"; "2006-01-02  15:04"].

(** The loop of [parseDirListLine] over the time formats: it stops at the
    first format that parses the head of the line. *)
Fixpoint dirTime (formats : list string) (line : string) (e : Entry)
    (err : option error) : run (Entry * string * option error) :=
  match formats with
  | [] => Done (e, line, err)
  | format :: rest =>
      let+ head := GoString.sliceTo line (GoString.len format) in
      match assignTime e format head with
      | (e', None) =>
          let+ line' := GoString.sliceFrom line (GoString.len format) in
          Done (e', line', None)
      | (e', Some err') => dirTime rest line e' (Some err')
      end
  end%run.

(** parseDirListLine parses a directory line in a format based on the
    output of the MS-DOS DIR command. *)
Definition parseDirListLine (line : string) : run (error + Entry) :=
  (let+ (e, line, err) := dirTime dirTimeFormats line zeroEntry None in
   match err with
   | Some _ => Done (inl errUnsupportedListLine)
   | None =>
       let line := strings.TrimLeft line " " in
       if strings.HasPrefix line "<DIR>" then
         let line := strings.TrimPrefix line "<DIR>" in
         Done (inr (withName (strings.TrimLeft line " ") (withType EntryTypeFolder e)))
       else
         let space := strings.Index line " " in
         if space =? -1 then Done (inl errUnsupportedListLine)
         else
           let+ digits := GoString.sliceTo line space in
           match strconv.ParseUint10 digits with
           | inl _ => Done (inl errUnsupportedListLine)
           | inr n =>
               let+ line := GoString.sliceFrom line space in
               Done (inr (withName (strings.TrimLeft line " ")
                            (withType EntryTypeFile (withSize n e))))
           end
   end)%run.

Definition listLineParsers : list (string -> run (error + Entry)) :=
  [parseRFC3659ListLine; parseLsListLine; parseDirListLine].

(** The loop of [parseListLine] over the parsers still to try. *)
Fixpoint tryParsers (parsers : list (string -> run (error + Entry)))
    (line : string) : run (error + Entry) :=
  match parsers with
  | [] => Done (inl errUnsupportedListLine)
  | f :: rest =>
      let+ r := f line in
      match r with
      | inl err =>
          if decide (err = errUnsupportedListLine)
          then tryParsers rest line      (* Try another format. *)
          else Done (inl err)
      | inr e => Done (inr e)
      end
  end%run.

(** parseListLine parses the various non-standard format returned by the
    LIST FTP command. *)
Definition parseListLine (line : string) : run (error + Entry) :=
  tryParsers listLineParsers line.

(** The scanner loop of [List]: a line enters the result when its parse
    returned no error. *)
Fixpoint scanEntries (lines : list string) (entries : list Entry)
  : run (list Entry) :=
  match lines with
  | [] => Done entries
  | line :: rest =>
      let+ r := parseListLine line in
      match r with
      | inr entry => scanEntries rest (entries ++ [entry])
      | inl _ => scanEntries rest entries
      end
  end%run.

(** What [List] does once it has its receive stream: the deferred read
    of the closing reply, the scanner loop, the scanner's error. *)
Definition listFrom (conn : ReceiveStream) : M (list Entry * option error) :=
  defer (do ReadResponse StatusClosingDataConnection then ret tt)
    (let* entries := liftRun (scanEntries (scanLines conn) []) in
     match scanErr conn with
     | Some err => ret ([], Some err)
     | None => ret (entries, None)
     end).

(** List issues a LIST FTP command. *)
Definition List (path : string) : M (list Entry * option error) :=
  let* r := cmdDataReceiveStreamFrom 0 "LIST %s" [ArgString path] in
  match r with
  | inl err => ret ([], Some err)
  | inr conn => listFrom conn
  end.

(** Did a parser return the unsupported-line error? *)
Definition isUnsupported (o : run (error + Entry)) : bool :=
  match o with
  | Done (inl err) => bool_decide (err = errUnsupportedListLine)
  | _ => false
  end.

(** The first of the outcomes that is not the unsupported-line error;
    that error when there is none. *)
Fixpoint firstSupported (outcomes : list (run (error + Entry)))
  : run (error + Entry) :=
  match outcomes with
  | [] => Done (inl errUnsupportedListLine)
  | o :: rest => if isUnsupported o then firstSupported rest else o
  end.

(** * Properties *)

(** ** The LIST-line parsers *)

(** C6: on a line of fewer than two fields [parseLsListLine] does not
    return the unsupported-line error: the test [fields[1] == "0"] reads
    past the end of the fields and panics. *)
Theorem parseLsListLine_few_fields (line : string) :
  GoSlice.len (strings.Fields line) < 2 ->
  parseLsListLine line = Panic IndexOutOfRange.
Proof.
  intros Hfew. unfold parseLsListLine, isFolderVariant.
  assert ((7 <=? GoSlice.len (strings.Fields line)) = false) as ->
    by (apply Z.leb_gt; lia).
  cbn [negb run_bind]. unfold GoSlice.at_.
  assert ((1 <? GoSlice.len (strings.Fields line)) = false) as ->
    by (apply Z.ltb_ge; lia).
  reflexivity.
Qed.

(** What [parseLsListLine] does get right: with at least two fields and
    fewer than nine, of neither Windows variant, the line is unsupported. *)
Lemma parseLsListLine_short_unsupported (line f1 : string) :
  isFolderVariant (strings.Fields line) = Done false ->
  GoSlice.at_ (strings.Fields line) 1 = Done f1 ->
  f1 <> "0" ->
  GoSlice.len (strings.Fields line) < 9 ->
  parseLsListLine line = Done (inl errUnsupportedListLine).
Proof.
  intros Hfolder Hf1 Hzero Hshort. unfold parseLsListLine.
  rewrite Hfolder. cbn [run_bind]. rewrite Hf1. cbn [run_bind].
  rewrite bool_decide_eq_false_2 by done.
  by rewrite (proj2 (Z.ltb_lt _ _) Hshort).
Qed.

Lemma tryParsers_firstSupported
    (parsers : list (string -> run (error + Entry)))
    (line : string) :
  tryParsers parsers line = firstSupported (map (fun f => f line) parsers).
Proof.
  induction parsers as [|f parsers IH]; [done|]. cbn.
  destruct (f line) as [[err|e]|k]; cbn; try done.
  rewrite IH. unfold bool_decide. by destruct (decide_rel _ _ _).
Qed.

Lemma scan_dropped (line : string) (before after : list string) :
  parseListLine line = Done (inl errUnsupportedListLine) ->
  forall entries,
    scanEntries (before ++ line :: after) entries
    = scanEntries (before ++ after) entries.
Proof.
  intros Hline. induction before as [|l before IH]; intros entries;
    cbn [app scanEntries].
  - by rewrite Hline.
  - destruct (parseListLine l) as [[err|e]|k]; cbn [run_bind]; auto.
Qed.

(** C9: [parseListLine] tries the parsers in the order RFC 3659, ls -l,
    MS-DOS DIR and returns the outcome of the first one that is not the
    unsupported-line error; and when all three return that error for a
    line, [List] gives what it gives on the stream without that line: the
    line is left out and no error is reported for it. *)
Theorem parseListLine_first_supported (line : string) :
  parseListLine line
  = firstSupported
      [parseRFC3659ListLine line; parseLsListLine line; parseDirListLine line]
  /\ (isUnsupported (parseRFC3659ListLine line) = true ->
      isUnsupported (parseLsListLine line) = true ->
      isUnsupported (parseDirListLine line) = true ->
      forall (conn : ReceiveStream) (before after : list string),
        scanLines conn = before ++ line :: after ->
        forall (path : string) (w w1 : World),
          cmdDataReceiveStreamFrom 0 "LIST %s" [ArgString path] w
          = Returns (inr conn) w1 ->
          List path w
          = listFrom
              (mkReceiveStream (recvID conn) (before ++ after) (scanErr conn))
              w1).
Proof.
  assert (Hfirst : parseListLine line
            = firstSupported
                [parseRFC3659ListLine line; parseLsListLine line;
                 parseDirListLine line])
    by apply tryParsers_firstSupported.
  split; [exact Hfirst|].
  intros Hrfc Hls Hdir conn before after Hlines path w w1 Hrecv.
  assert (Hline : parseListLine line = Done (inl errUnsupportedListLine)).
  { rewrite Hfirst. cbn. by rewrite Hrfc, Hls, Hdir. }
  unfold List, bind. rewrite Hrecv. unfold listFrom. cbn [scanLines scanErr].
  by rewrite Hlines, (scan_dropped line before after Hline).
Qed.

End Listing.

(** C6 at the empty line. *)
Lemma parseLsListLine_few_fields_witness :
  GoSlice.len (strings.Fields "") < 2
  /\ parseLsListLine tt noTime 2026 noSize "" = Panic IndexOutOfRange.
Proof.
  split; [reflexivity|].
  apply (parseLsListLine_few_fields tt noTime 2026 noSize ""). reflexivity.
Defined.

(** C9 at a line no parser supports, the only line of stream 3. *)
Lemma parseListLine_first_supported_witness :
  exists w1,
    cmdDataReceiveStreamFrom 0 "LIST %s" [ArgString "/"]
      (freshWorld [inr (mkReceiveStream 3 ["total 12 and some more text"] None)]
         [] [None] [inr (150, "3 Here comes the listing."); inr (226, "Done.")])
    = Returns (inr (mkReceiveStream 3 ["total 12 and some more text"] None)) w1
    /\ parseListLine tt noTime 2026 noSize "total 12 and some more text"
       = Done (inl errUnsupportedListLine)
    /\ List tt noTime 2026 noSize "/"
         (freshWorld [inr (mkReceiveStream 3 ["total 12 and some more text"] None)]
            [] [None] [inr (150, "3 Here comes the listing."); inr (226, "Done.")])
       = listFrom tt noTime 2026 noSize (mkReceiveStream 3 [] None) w1.
Proof.
  eexists. split; [vm_compute; reflexivity|].
  destruct (parseListLine_first_supported tt noTime 2026 noSize
              "total 12 and some more text") as [Hfirst Hdrop].
  split; [rewrite Hfirst; reflexivity|].
  eapply (Hdrop eq_refl eq_refl eq_refl
            (mkReceiveStream 3 ["total 12 and some more text"] None) [] []
            eq_refl "/").
  vm_compute; reflexivity.
Defined.

(** ** The rendezvous loop *)

Section Rendezvous.

Implicit Types (w : World) (streamID : Z) (pending : gmap Z ReceiveStream).
Implicit Types (queue : list (error + ReceiveStream)).

Lemma afterLoop_nil w :
  afterLoop w (pendingStreams w) (acceptResults (peer w)) [] = w.
Proof.
  destruct w as [[[m b] f] [a o c r] t]; unfold afterLoop; cbn.
  by rewrite app_nil_r.
Qed.

(** With more fuel than streams in the session, the loop runs to its end
    and does what [loopRun] reads off the queue. *)
Lemma rendezvousLoop_run fuel streamID w :
  (length (acceptResults (peer w)) < fuel)%nat ->
  rendezvousLoop fuel streamID w
  = let '(r, pending', queue', k) :=
      loopRun streamID (pendingStreams w) (acceptResults (peer w)) in
    Returns r (afterLoop w pending' queue' (replicate k EvAcceptUniStream)).
Proof.
  revert w; induction fuel as [|fuel IH]; intros w Hfuel; [lia|].
  destruct w as [[[m b] f] [a o c r] t]; cbn in *.
  destruct a as [|[err|stream] rest]; cbn;
    destruct (m !! streamID) as [found|] eqn:Hm; cbn;
    unfold afterLoop, pendingStreams, setDataRetriveStreams; cbn;
    rewrite ?app_nil_r; try reflexivity.
  unfold bind, AcceptUniStream; cbn.
  unfold pendingStreams, setDataRetriveStreams; cbn.
  destruct (streamID <? StreamID stream) eqn:Hlt; [reflexivity|].
  rewrite IH by (cbn in *; lia); cbn.
  unfold pendingStreams; cbn.
  destruct (loopRun streamID (<[StreamID stream:=stream]> m) rest)
    as [[[r' m'] q'] k]; cbn.
  unfold afterLoop; cbn. by rewrite <- app_assoc.
Qed.

(** The whole call, from a world in which the mutex is free. *)
Lemma getDataRetriveStream_run streamID w :
  mutexHeld w = false ->
  getDataRetriveStream streamID w
  = let '(r, pending', queue', k) :=
      loopRun streamID (pendingStreams w) (acceptResults (peer w)) in
    Returns r
      (afterLoop w pending' queue'
         (EvLock :: replicate k EvAcceptUniStream ++ [EvUnlock])).
Proof.
  intros Hfree.
  destruct w as [[[m b] f] [a o c r] t]; cbn in Hfree; subst b.
  unfold getDataRetriveStream, bind, Lock, defer; cbn -[rendezvousLoop].
  rewrite rendezvousLoop_run by (cbn; lia).
  cbn. unfold pendingStreams; cbn.
  destruct (loopRun streamID m a) as [[[r' m'] q'] k]; cbn.
  unfold afterLoop, setMutex, emit, ret; cbn.
  by rewrite <- !app_assoc.
Qed.

(** When the wanted ID is not pending, the loop is the accepting of the
    specification. *)
Lemma loopRun_specAccept streamID queue : forall pending,
  pending !! streamID = None ->
  exists k, loopRun streamID pending queue
            = (specAccept streamID pending queue, k).
Proof.
  induction queue as [|[err|stream] rest IH]; intros pending Hnone; cbn;
    rewrite Hnone; eauto.
  destruct (Z.eqb_spec (StreamID stream) streamID) as [->|Hne].
  - rewrite Z.ltb_irrefl.
    destruct rest as [|x rest']; cbn; rewrite lookup_insert_eq;
      rewrite delete_insert_id by done; eauto.
  - destruct (Z.ltb_spec streamID (StreamID stream)) as [Hgt|Hle].
    + destruct (Z.ltb_spec (StreamID stream) streamID); [lia|]. eauto.
    + destruct (Z.ltb_spec (StreamID stream) streamID); [|lia].
      destruct (IH (<[StreamID stream:=stream]> pending)) as [k Hk].
      { by rewrite lookup_insert_ne. }
      rewrite Hk. destruct (specAccept _ _ _) as [[? ?] ?]. eauto.
Qed.

Lemma loopRun_rendezvousSpec streamID pending queue :
  exists k, loopRun streamID pending queue
            = (rendezvousSpec streamID pending queue, k).
Proof.
  unfold rendezvousSpec.
  destruct (pending !! streamID) as [found|] eqn:Hm.
  - destruct queue as [|[?|?] ?]; cbn; rewrite Hm; eauto.
  - by apply loopRun_specAccept.
Qed.

End Rendezvous.

Section RendezvousClaims.

Implicit Types (w : World) (streamID : Z) (pending : gmap Z ReceiveStream).
Implicit Types (queue : list (error + ReceiveStream)).

(** C1: for every requested stream ID, [getDataRetriveStream] returns
    exactly as the rendezvous algorithm prescribes: a pending entry is
    removed and returned; otherwise streams are accepted, those with a
    smaller ID are filed and the loop goes on, the one with the wanted ID
    is returned, and the first one with a larger ID makes the call return
    the lost-stream error.  The call also leaves the pending map and the
    session as [rendezvousSpec] says. *)
Theorem getDataRetriveStream_rendezvous streamID w :
  mutexHeld w = false ->
  exists r pending' queue' events,
    rendezvousSpec streamID (pendingStreams w) (acceptResults (peer w))
    = (r, pending', queue')
    /\ getDataRetriveStream streamID w
       = Returns r (afterLoop w pending' queue' events).
Proof.
  intros Hfree. rewrite getDataRetriveStream_run by done.
  destruct (loopRun_rendezvousSpec streamID (pendingStreams w)
              (acceptResults (peer w))) as [k Hk].
  rewrite Hk.
  destruct (rendezvousSpec _ _ _) as [[r pending'] queue'].
  eexists r, pending', queue', _. split; reflexivity.
Qed.

Lemma getDataRetriveStream_rendezvous_witness :
  mutexHeld (freshWorld [inr (streamOf 3); inr (streamOf 7)] [] [] []) = false
  /\ exists r pending' queue' events,
      rendezvousSpec 7 ∅ [inr (streamOf 3); inr (streamOf 7)]
      = (r, pending', queue')
      /\ getDataRetriveStream 7
           (freshWorld [inr (streamOf 3); inr (streamOf 7)] [] [] [])
         = Returns r
             (afterLoop (freshWorld [inr (streamOf 3); inr (streamOf 7)] [] [] [])
                pending' queue' events).
Proof.
  split; [reflexivity|].
  apply (getDataRetriveStream_rendezvous 7
           (freshWorld [inr (streamOf 3); inr (streamOf 7)] [] [] [])).
  reflexivity.
Defined.

(** The mutex along the events of a call. *)
Lemma mutexHeldAtAccepts_call k :
  mutexHeldAtAccepts false
    (EvLock :: replicate k EvAcceptUniStream ++ [EvUnlock]) = true.
Proof. cbn. induction k as [|k IH]; cbn; done. Qed.

Lemma loopRun_accepts streamID queue : forall pending,
  pending !! streamID = None ->
  (0 < snd (loopRun streamID pending queue))%nat.
Proof.
  destruct queue as [|[err|stream] rest]; intros pending Hnone; cbn;
    rewrite Hnone; cbn; try lia.
  destruct (streamID <? StreamID stream); cbn; [lia|].
  destruct (loopRun _ _ _) as [[[? ?] ?] ?]; cbn; lia.
Qed.

(** C4, as the code has it: [getDataRetriveStream] locks the session mutex
    once on entry and unlocks it once on return; every [AcceptUniStream]
    of its loop is called while the mutex is held, and at least one is
    called when the wanted stream is not pending. *)
Theorem getDataRetriveStream_holds_mutex streamID w :
  mutexHeld w = false ->
  exists r w' k,
    getDataRetriveStream streamID w = Returns r w'
    /\ trace w'
       = trace w ++ EvLock :: replicate k EvAcceptUniStream ++ [EvUnlock]
    /\ mutexHeldAtAccepts false
         (EvLock :: replicate k EvAcceptUniStream ++ [EvUnlock]) = true
    /\ (pendingStreams w !! streamID = None -> (0 < k)%nat)
    /\ mutexHeld w' = false.
Proof.
  intros Hfree. rewrite getDataRetriveStream_run by done.
  pose proof (loopRun_accepts streamID (acceptResults (peer w))
                (pendingStreams w)) as Hpos.
  destruct (loopRun _ _ _) as [[[r pending'] queue'] k]; cbn in Hpos.
  eexists _, _, k. split; [reflexivity|].
  repeat split; auto using mutexHeldAtAccepts_call.
Qed.

Lemma getDataRetriveStream_holds_mutex_witness :
  mutexHeld (freshWorld [inr (streamOf 3)] [] [] []) = false
  /\ exists r w' k,
      getDataRetriveStream 3 (freshWorld [inr (streamOf 3)] [] [] [])
      = Returns r w'
      /\ trace w'
         = trace (freshWorld [inr (streamOf 3)] [] [] [])
           ++ EvLock :: replicate k EvAcceptUniStream ++ [EvUnlock]
      /\ mutexHeldAtAccepts false
           (EvLock :: replicate k EvAcceptUniStream ++ [EvUnlock]) = true
      /\ (pendingStreams (freshWorld [inr (streamOf 3)] [] [] []) !! 3 = None
          -> (0 < k)%nat)
      /\ mutexHeld w' = false.
Proof.
  split; [reflexivity|].
  apply (getDataRetriveStream_holds_mutex 3
           (freshWorld [inr (streamOf 3)] [] [] [])).
  reflexivity.
Defined.

(** C4 as the specification states it fails: asked for stream 3 on a
    fresh session that delivers stream 3, the call accepts between its
    lock and its unlock. *)
Lemma getDataRetriveStream_accepts_under_mutex :
  exists w',
    getDataRetriveStream 3 (freshWorld [inr (streamOf 3)] [] [] [])
    = Returns (inr (streamOf 3)) w'
    /\ trace w' = [EvLock; EvAcceptUniStream; EvUnlock]
    /\ mutexFreeAtAccepts false (trace w') = false.
Proof. eexists. split; [reflexivity|]. split; reflexivity. Qed.

(** Filing and removing keep every entry under the ID of its stream. *)
Lemma wellKeyed_insert pending (stream : ReceiveStream) :
  wellKeyed pending -> wellKeyed (<[StreamID stream := stream]> pending).
Proof.
  intros Hk k s. rewrite lookup_insert.
  case_decide as Heq.
  - intros Hs. injection Hs as <-. exact Heq.
  - apply Hk.
Qed.

Lemma wellKeyed_delete pending streamID :
  wellKeyed pending -> wellKeyed (delete streamID pending).
Proof.
  intros Hk k s. rewrite lookup_delete.
  case_decide; [discriminate | apply Hk].
Qed.

Lemma wellKeyed_fileAll streams : forall pending,
  wellKeyed pending -> wellKeyed (fileAll pending streams).
Proof.
  induction streams as [|s streams IH]; intros pending Hk; cbn; [done|].
  apply IH, wellKeyed_insert, Hk.
Qed.

(** What the loop takes from the session and what it files. *)
Lemma loopRun_files streamID queue : forall pending,
  exists r pending' queue' k consumed,
    loopRun streamID pending queue = (r, pending', queue', k)
    /\ queue = consumed ++ queue'
    /\ pending' = match r with
                  | inr _ => delete streamID
                  | inl _ => id
                  end (fileAll pending (accepted consumed))
    /\ (forall stream : ReceiveStream,
          last consumed = Some (inr stream) ->
          streamID < StreamID stream ->
          r = inl errLostStream
          /\ pending' !! StreamID stream = Some stream).
Proof.
  induction queue as [|[err|stream] rest IH]; intros pending; cbn;
    destruct (pending !! streamID) as [found|] eqn:Hm.
  1,2,3,5: eexists _, _, _, _, []; cbn; split; [reflexivity|]; done.
  - eexists _, _, _, _, [inl err]; cbn. split; [reflexivity|]. done.
  - destruct (Z.ltb_spec streamID (StreamID stream)) as [Hgt|Hle].
    + eexists _, _, _, _, [inr stream]; cbn. split; [reflexivity|].
      split; [done|]. split; [done|].
      intros s Hs _. injection Hs as <-.
      split; [done|]. by rewrite lookup_insert_eq.
    + destruct (IH (<[StreamID stream:=stream]> pending))
        as (r & p' & q' & k & consumed & Hrun & Hq & Hp & Hlast).
      rewrite Hrun.
      eexists _, _, _, _, (inr stream :: consumed); cbn.
      split; [reflexivity|]. split; [by rewrite Hq|]. split; [done|].
      intros s Hs Hlt. destruct consumed as [|c consumed].
      * cbn in Hs. injection Hs as <-. lia.
      * apply Hlast; [|done]. by rewrite last_cons_cons in Hs.
Qed.

(** C10: every stream accepted inside [getDataRetriveStream] is filed in
    the pending map under its own ID before the call returns; the map keeps
    every entry under the ID of its stream; and when the call accepted a
    stream whose ID exceeds the requested one, it returns the lost-stream
    error and that stream stays filed. *)
Theorem getDataRetriveStream_files_accepted streamID w :
  mutexHeld w = false ->
  wellKeyed (pendingStreams w) ->
  exists r w' consumed,
    getDataRetriveStream streamID w = Returns r w'
    /\ acceptResults (peer w) = consumed ++ acceptResults (peer w')
    /\ pendingStreams w'
       = match r with
         | inr _ => delete streamID
         | inl _ => id
         end (fileAll (pendingStreams w) (accepted consumed))
    /\ wellKeyed (pendingStreams w')
    /\ (forall stream : ReceiveStream,
          last consumed = Some (inr stream) ->
          streamID < StreamID stream ->
          r = inl errLostStream
          /\ pendingStreams w' !! StreamID stream = Some stream).
Proof.
  intros Hfree Hkeyed. rewrite getDataRetriveStream_run by done.
  destruct (loopRun_files streamID (acceptResults (peer w)) (pendingStreams w))
    as (r & p' & q' & k & consumed & Hrun & Hq & Hp & Hlast).
  rewrite Hrun. eexists r, _, consumed. split; [reflexivity|].
  cbn. split; [exact Hq|]. split; [exact Hp|]. split; [|exact Hlast].
  rewrite Hp. destruct r; cbn.
  - by apply wellKeyed_fileAll.
  - by apply wellKeyed_delete, wellKeyed_fileAll.
Qed.

Lemma getDataRetriveStream_files_accepted_witness :
  mutexHeld (freshWorld [inr (streamOf 3); inr (streamOf 11)] [] [] []) = false
  /\ wellKeyed
       (pendingStreams (freshWorld [inr (streamOf 3); inr (streamOf 11)] [] [] []))
  /\ exists r w' consumed,
    getDataRetriveStream 7
      (freshWorld [inr (streamOf 3); inr (streamOf 11)] [] [] [])
    = Returns r w'
    /\ [inr (streamOf 3); inr (streamOf 11)]
       = consumed ++ acceptResults (peer w')
    /\ pendingStreams w'
       = match r with
         | inr _ => delete 7
         | inl _ => id
         end (fileAll ∅ (accepted consumed))
    /\ wellKeyed (pendingStreams w')
    /\ (forall stream : ReceiveStream,
          last consumed = Some (inr stream) ->
          7 < StreamID stream ->
          r = inl errLostStream
          /\ pendingStreams w' !! StreamID stream = Some stream).
Proof.
  assert (Hkeyed : wellKeyed
            (pendingStreams
               (freshWorld [inr (streamOf 3); inr (streamOf 11)] [] [] []))).
  { intros k s Hs. cbn in Hs. by rewrite lookup_empty in Hs. }
  split; [reflexivity|]. split; [exact Hkeyed|].
  apply (getDataRetriveStream_files_accepted 7
           (freshWorld [inr (streamOf 3); inr (streamOf 11)] [] [] []));
    [reflexivity | exact Hkeyed].
Defined.

End RendezvousClaims.

(** ** The library models on small inputs *)

Example Index_ex : strings.Index "STOR %s" " " = 4.
Proof. reflexivity. Qed.
Example SplitN_ex : strings.SplitN "3 Opening data stream" " " 2 = ["3"; "Opening data stream"].
Proof. reflexivity. Qed.
Example SplitN_ex2 : strings.SplitN "FEAT" " " 2 = ["FEAT"].
Proof. reflexivity. Qed.
Example SplitN_ex3 : strings.SplitN "" " " 2 = [""].
Proof. reflexivity. Qed.
Example Split_ex : strings.Split "a;b;;c" ";" = ["a"; "b"; ""; "c"].
Proof. reflexivity. Qed.
Example Fields_ex : strings.Fields "  ab  c d " = ["ab"; "c"; "d"].
Proof. reflexivity. Qed.
Example TrimSpace_ex : strings.TrimSpace "  UTF8 x  " = "UTF8 x".
Proof. reflexivity. Qed.
Example ParseInt_ex : strconv.ParseInt10 "+7" = inr 7.
Proof. reflexivity. Qed.
Example ParseInt_ex2 : strconv.ParseInt10 "9223372036854775808" = inl strconv.ErrRange.
Proof. reflexivity. Qed.
Example ParseInt_ex3 : strconv.ParseInt10 "-9223372036854775808" = inr (-9223372036854775808).
Proof. reflexivity. Qed.
Example Itoa_ex : strconv.Itoa (-42) = "-42".
Proof. reflexivity. Qed.
Example LastIndex_ex : strings.LastIndex "a.b.c" "." = 3.
Proof. reflexivity. Qed.

(** ** Byte strings *)

Section Strings.

Import GoString.
Implicit Types (s sep v r : string) (c d : ascii).

Lemma append_nil s : "" +:+ s = s.
Proof. reflexivity. Qed.

Lemma append_cons c s r : String c s +:+ r = String c (s +:+ r).
Proof. reflexivity. Qed.

Lemma append_assoc s v r : (s +:+ v) +:+ r = s +:+ v +:+ r.
Proof.
  induction s as [|c s IH]; [done|]. rewrite !append_cons. by f_equal.
Qed.

Lemma length_append s r :
  String.length (s +:+ r) = (String.length s + String.length r)%nat.
Proof.
  induction s as [|c s IH]; [done|]. rewrite append_cons. cbn. by rewrite IH.
Qed.

Lemma take_app_length v r : take (String.length v) (v +:+ r) = v.
Proof.
  induction v as [|c v IH]; [by destruct r|].
  rewrite append_cons. cbn. by f_equal.
Qed.

Lemma drop_app_length v r : drop (String.length v) (v +:+ r) = r.
Proof.
  induction v as [|c v IH]; [by destruct r|]. by rewrite append_cons.
Qed.

Lemma prefix_nil s : String.prefix "" s = true.
Proof. by destruct s. Qed.

Lemma prefix_drop sep s :
  String.prefix sep s = true -> s = sep +:+ drop (String.length sep) s.
Proof.
  revert s; induction sep as [|c sep IH]; intros [|d s]; cbn; try done.
  destruct (ascii_dec c d) as [->|]; [|done].
  intros H. rewrite append_cons. f_equal. by apply IH.
Qed.

Lemma Index_lower s sep : -1 <= strings.Index s sep.
Proof.
  induction s as [|c s IH]; cbn [strings.Index].
  - destruct (String.prefix sep ""); lia.
  - destruct (String.prefix sep (String c s)); [lia|].
    destruct (strings.Index s sep <? 0) eqn:E; lia.
Qed.

Lemma Index_upper s sep : strings.Index s sep <= len s.
Proof.
  unfold len. induction s as [|c s IH]; cbn [strings.Index String.length].
  - destruct (String.prefix sep ""); lia.
  - destruct (String.prefix sep (String c s)); [lia|].
    destruct (strings.Index s sep <? 0) eqn:E; lia.
Qed.

Lemma LastIndex_upper s sep : strings.LastIndex s sep <= len s.
Proof.
  unfold len. induction s as [|c s IH]; cbn [strings.LastIndex String.length].
  - destruct (String.prefix sep ""); lia.
  - destruct (0 <=? strings.LastIndex s sep) eqn:E; [lia|].
    destruct (String.prefix sep (String c s)); lia.
Qed.

(** [Index] cuts the string at an instance of the separator. *)
Lemma Index_cut s sep :
  0 <= strings.Index s sep ->
  s = take (Z.to_nat (strings.Index s sep)) s +:+ sep
      +:+ drop (Z.to_nat (strings.Index s sep + len sep)) s.
Proof.
  unfold len. induction s as [|c s IH]; cbn [strings.Index].
  - destruct (String.prefix sep "") eqn:Hp; [|lia]. intros _.
    destruct sep; [done | discriminate].
  - destruct (String.prefix sep (String c s)) eqn:Hp.
    + intros _. rewrite Z.add_0_l, Nat2Z.id. cbn [take Z.to_nat].
      rewrite append_nil. by apply prefix_drop.
    + destruct (strings.Index s sep <? 0) eqn:E; [lia|]. intros _.
      apply Z.ltb_ge in E.
      replace (Z.to_nat (strings.Index s sep + 1))
        with (S (Z.to_nat (strings.Index s sep))) by lia.
      replace (Z.to_nat (strings.Index s sep + 1 + Z.of_nat (String.length sep)))
        with (S (Z.to_nat (strings.Index s sep + Z.of_nat (String.length sep))))
        by lia.
      cbn [take drop]. rewrite append_cons. f_equal. by apply IH.
Qed.

(** The first instance of a one-byte separator after a text without it. *)
Lemma Index_after c v r :
  strings.Index v (String c "") = -1 ->
  strings.Index (v +:+ String c "" +:+ r) (String c "") = len v.
Proof.
  unfold len. induction v as [|d v IH].
  - intros _. rewrite !append_nil, append_cons. cbn.
    rewrite prefix_nil. by destruct (ascii_dec c c).
  - rewrite append_cons. cbn [strings.Index String.prefix String.length].
    destruct (ascii_dec c d) as [->|Hne]; [by rewrite prefix_nil|].
    destruct (strings.Index v (String c "") <? 0) eqn:E; [|lia]. intros _.
    rewrite IH.
    + destruct (Z.of_nat (String.length v) <? 0) eqn:E'; lia.
    + pose proof (Index_lower v (String c "")). lia.
Qed.

(** [SplitN(s, " ", 2)]: the string itself when it has no space, else the
    text before the first space and the text after it. *)
Lemma SplitN2_none s :
  strings.Index s " " < 0 -> strings.SplitN s " " 2 = [s].
Proof.
  intros H. unfold strings.SplitN; cbn [Z.eqb Z.ltb Z.compare].
  destruct (Z.to_nat _); cbn; [done|].
  by rewrite (proj2 (Z.ltb_lt _ _) H).
Qed.

Lemma SplitN2_some s :
  0 <= strings.Index s " " ->
  strings.SplitN s " " 2
  = [take (Z.to_nat (strings.Index s " ")) s;
     drop (Z.to_nat (strings.Index s " " + 1)) s].
Proof.
  intros H. unfold strings.SplitN; cbn [Z.eqb Z.ltb Z.compare].
  assert (Hlen : 1 <= len s).
  { destruct s; [cbn in H; lia | unfold len; cbn; lia]. }
  replace (Z.to_nat (Z.min 2 (len s + 1) - 1)) with 1%nat by lia.
  cbn. by rewrite (proj2 (Z.ltb_ge _ _) H).
Qed.

Lemma SplitN2_two s a b :
  strings.SplitN s " " 2 = [a; b] -> s = a +:+ " " +:+ b.
Proof.
  destruct (Z.lt_ge_cases (strings.Index s " ") 0) as [Hlt|Hge].
  - by rewrite SplitN2_none.
  - rewrite SplitN2_some by lia. intros [= <- <-].
    by apply (Index_cut s " ").
Qed.

Lemma SplitN2_split v r :
  strings.Index v " " = -1 ->
  strings.SplitN (v +:+ " " +:+ r) " " 2 = [v; r].
Proof.
  intros H. pose proof (Index_after " " v r H) as Hi.
  rewrite SplitN2_some by (rewrite Hi; unfold len; lia).
  rewrite Hi. unfold len.
  replace (Z.to_nat (Z.of_nat (String.length v) + 1))
    with (String.length (v +:+ " ")) by (rewrite length_append; cbn; lia).
  rewrite Nat2Z.id, take_app_length.
  by rewrite <- append_assoc, drop_app_length.
Qed.

(** Slices of one and of two strings. *)
Lemma len_one {A} (a : A) : GoSlice.len [a] = 1.
Proof. reflexivity. Qed.

Lemma len_two {A} (a b : A) : GoSlice.len [a; b] = 2.
Proof. reflexivity. Qed.

Lemma at_head {A} (a : A) (l : list A) : GoSlice.at_ (a :: l) 0 = Done a.
Proof.
  unfold GoSlice.at_, GoSlice.len.
  assert ((0 <=? 0) && (0 <? Z.of_nat (length (a :: l))) = true) as ->;
    [|reflexivity].
  apply andb_true_iff. split; [done|]. apply Z.ltb_lt. cbn [length]. lia.
Qed.

Lemma at_second {A} (a b : A) (l : list A) :
  GoSlice.at_ (a :: b :: l) 1 = Done b.
Proof.
  unfold GoSlice.at_, GoSlice.len.
  assert ((0 <=? 1) && (1 <? Z.of_nat (length (a :: b :: l))) = true) as ->;
    [|reflexivity].
  apply andb_true_iff. split; [done|]. apply Z.ltb_lt. cbn [length]. lia.
Qed.

End Strings.

(** ** Decimal numbers *)

Section Decimal.

Import strconv.

Lemma parseUintLoop_digits s : forall n v,
  parseUintLoop s n = inr v -> allDigits s = true /\ v = digitsValue s n.
Proof.
  induction s as [|c s IH]; intros n v; cbn.
  - by intros [= ->].
  - destruct (isDigit c); [|done].
    destruct (maxUint64 / 10 + 1 <=? n); [done|].
    destruct (maxUint64 <? n * 10 + digitVal c); [done|].
    apply IH.
Qed.

Lemma ParseUint10_digits s v :
  ParseUint10 s = inr v ->
  s <> EmptyString /\ allDigits s = true /\ v = digitsValue s 0.
Proof.
  destruct s as [|c s]; [done|]. unfold ParseUint10.
  intros H. split; [done|]. by apply parseUintLoop_digits.
Qed.

(** What [ParseInt] accepts is a decimal integer, and its value. *)
Lemma ParseInt10_decimal s i :
  ParseInt10 s = inr i -> decimalInteger s i.
Proof.
  destruct s as [|c s]; [done|]. unfold ParseInt10.
  destruct (decide (c = "+"%char)) as [->|Hplus].
  - cbn [bool_decide decide_rel orb negb andb].
    rewrite bool_decide_eq_true_2 by done.
    rewrite bool_decide_eq_false_2 by done. cbn [orb negb andb].
    destruct (ParseUint10 s) as [[|]|un] eqn:Hu; try done.
    destruct (2 ^ 63 <=? un); [done|]. intros [= <-].
    apply ParseUint10_digits in Hu as (? & ? & ->). by constructor.
  - rewrite (bool_decide_eq_false_2 (c = "+"%char)) by done.
    destruct (decide (c = "-"%char)) as [->|Hminus].
    + rewrite bool_decide_eq_true_2 by done. cbn [orb negb andb].
      destruct (ParseUint10 s) as [[|]|un] eqn:Hu; try done.
      destruct (2 ^ 63 <? un); [done|]. intros [= <-].
      apply ParseUint10_digits in Hu as (? & ? & ->). by constructor.
    + rewrite bool_decide_eq_false_2 by done. cbn [orb negb andb].
      destruct (ParseUint10 (String c s)) as [[|]|un] eqn:Hu; try done.
      destruct (2 ^ 63 <=? un); [done|]. intros [= <-].
      apply ParseUint10_digits in Hu as (? & ? & ->). by constructor.
Qed.

End Decimal.

(** ** Receiving: the reply to RETR, LIST and NLST *)

Section Receive.

Implicit Types (w : World) (offset code : Z) (format msg : string).

(** The REST exchange done, the optional first step of a transfer
    command has no error to report. *)
Lemma restDone_run offset w wr {A} (k : option error -> M A) :
  restDone offset w wr ->
  bind (if negb (offset =? 0)
        then bind (cmd StatusRequestFilePending "REST %d" [ArgUint offset])
               (fun '(_, _, err) => ret err)
        else ret None) k w
  = k None wr.
Proof.
  intros [[-> ->]|[Hne (c & m & Hrest)]]; unfold bind.
  - reflexivity.
  - rewrite (proj2 (Z.eqb_neq _ _) Hne). cbn [negb]. by rewrite Hrest.
Qed.

(** A message whose first field [ParseInt] reads as a valid stream ID
    begins with a stream ID. *)
Lemma validReply_beginsWithStreamID msg text rest i :
  strings.SplitN msg " " 2 = [text; rest] ->
  strconv.ParseInt10 text = inr i ->
  (i <? 0) || negb (Z.rem i 4 =? 3) = false ->
  beginsWithStreamID msg.
Proof.
  intros Hsplit Hparse Hvalid.
  apply orb_false_iff in Hvalid as [Hneg Hrem].
  apply Z.ltb_ge in Hneg. apply negb_false_iff, Z.eqb_eq in Hrem.
  exists text, rest, i. split; [by apply SplitN2_two|].
  split; [by apply ParseInt10_decimal|].
  rewrite Z.rem_mod_nonneg in Hrem by lia.
  repeat split; [done| |done]. intros ->. discriminate.
Qed.

(** C2: once the transfer command is sent and its reply [(code, msg)] is
    read, a code other than 125 and 150 makes [cmdDataReceiveStreamFrom]
    return the error carrying that code and message; for 125 or 150 a
    message that does not begin with a decimal stream ID (non-negative,
    not 0, 3 modulo 4) followed by a space makes it return a
    protocol-format error.  In both cases the world is left as it was when
    the reply was read: no stream is claimed. *)
Theorem cmdDataReceiveStreamFrom_reply
    offset format (args : list Arg) w wr wc code msg w1 :
  restDone offset w wr ->
  Cmd format args wr = Returns None wc ->
  ReadResponse (-1) wc = Returns (code, msg, None) w1 ->
  (code <> StatusAlreadyOpen -> code <> StatusAboutToSend ->
   cmdDataReceiveStreamFrom offset format args w
   = Returns (inl (textprotoError code msg)) w1)
  /\ (code = StatusAlreadyOpen \/ code = StatusAboutToSend ->
      ~ beginsWithStreamID msg ->
      exists e,
        isProtocolFormatError e
        /\ cmdDataReceiveStreamFrom offset format args w = Returns (inl e) w1).
Proof.
  intros Hrest Hcmd Hread.
  assert (Hreach : forall k : Z * string * option error -> M (error + ReceiveStream),
            bind (Cmd format args)
              (fun err => match err with
                          | Some err => ret (inl err)
                          | None => bind (ReadResponse (-1)) k
                          end) wr
            = k (code, msg, None) w1).
  { intros k. unfold bind at 1. rewrite Hcmd. unfold bind. by rewrite Hread. }
  unfold cmdDataReceiveStreamFrom.
  rewrite (restDone_run _ _ _ _ Hrest), Hreach. clear Hreach.
  split.
  - intros H125 H150.
    apply Z.eqb_neq in H125, H150. by rewrite H125, H150.
  - intros Hcode Hmsg.
    assert (negb (code =? StatusAlreadyOpen) && negb (code =? StatusAboutToSend)
            = false) as Hok.
    { destruct Hcode as [->| ->]; reflexivity. }
    destruct (Z.lt_ge_cases (strings.Index msg " ") 0) as [Hnone|Hsome].
    { eexists. split; [by left|].
      by rewrite Hok, SplitN2_none, len_one by done. }
    pose proof (SplitN2_some msg Hsome) as Hsplit.
    set (text := GoString.take (Z.to_nat (strings.Index msg " ")) msg) in *.
    set (rest := GoString.drop (Z.to_nat (strings.Index msg " " + 1)) msg) in *.
    clearbody text rest.
    destruct (strconv.ParseInt10 text) as [e|i] eqn:Hparse.
    { eexists. split; [by right|].
      rewrite Hok, Hsplit. unfold bind, liftRun.
      rewrite len_two, at_head. cbn [Z.eqb Pos.eqb negb].
      by rewrite Hparse. }
    destruct ((i <? 0) || negb (Z.rem i 4 =? 3)) eqn:Hvalid.
    { eexists. split; [by right|].
      rewrite Hok, Hsplit. unfold bind, liftRun.
      rewrite len_two, at_head. cbn [Z.eqb Pos.eqb negb].
      by rewrite Hparse, Hvalid. }
    exfalso. apply Hmsg.
    eapply validReply_beginsWithStreamID;
      [exact Hsplit | exact Hparse | exact Hvalid].
Qed.

End Receive.

(** ** Sending: the command of STOR *)

Section Send.

Implicit Types (w : World) (offset id : Z) (format verb rest : string).

Lemma spliceStreamID_noargs format id :
  strings.Index format " " = -1 ->
  spliceStreamID format id = Done (format +:+ " " +:+ strconv.Itoa id).
Proof.
  intros H. unfold spliceStreamID. rewrite SplitN2_none by lia.
  by rewrite len_one, at_head.
Qed.

Lemma spliceStreamID_args verb rest id :
  strings.Index verb " " = -1 ->
  spliceStreamID (verb +:+ " " +:+ rest) id
  = Done (verb +:+ " " +:+ strconv.Itoa id +:+ " " +:+ rest).
Proof.
  intros H. unfold spliceStreamID. rewrite SplitN2_split by done.
  rewrite len_two, at_head, at_second. cbn. by rewrite !append_assoc.
Qed.

Lemma spliceStreamID_total format id :
  exists format', spliceStreamID format id = Done format'.
Proof.
  unfold spliceStreamID.
  destruct (Z.lt_ge_cases (strings.Index format " ") 0) as [Hnone|Hsome].
  - rewrite SplitN2_none, len_one, at_head by done. by eexists.
  - rewrite SplitN2_some, len_two, at_head, at_second by done. by eexists.
Qed.

(** From the command on, a send returns, and its first event is the
    command. *)
Lemma sendTail_trace (stream : SendStream) format' (args : list Arg) w :
  exists r w' events,
    bind (Cmd format' args)
      (fun err =>
         match err with
         | Some err => bind (CloseSend stream) (fun _ => ret (inl err))
         | None =>
             bind (ReadResponse (-1))
               (fun '(code, msg, err) =>
                  match err with
                  | Some err => bind (CloseSend stream) (fun _ => ret (inl err))
                  | None =>
                      if negb (code =? StatusAlreadyOpen)
                         && negb (code =? StatusAboutToSend)
                      then bind (CloseSend stream)
                             (fun _ => ret (inl (textprotoError code msg)))
                      else ret (inr stream)
                  end)
         end) w
    = Returns r w'
    /\ trace w' = trace w ++ EvCmd format' args :: events.
Proof.
  destruct w as [sc [a o c r] t].
  unfold bind, Cmd, ReadResponse, CloseSend, ret; cbn.
  destruct c as [|[err|] c]; cbn.
  1,2: eexists _, _, _; split; [reflexivity|]; cbn;
       by rewrite <- !app_assoc.
  destruct r as [|[err|[code msg]] r]; cbn.
  1,2: eexists _, _, _; split; [reflexivity|]; cbn;
       by rewrite <- !app_assoc.
  destruct (negb (code =? StatusAlreadyOpen) && negb (code =? StatusAboutToSend));
    cbn; eexists _, _, _; (split; [reflexivity|]); cbn;
    by rewrite <- !app_assoc.
Qed.

(** C7: for every command string and every send stream, the command
    [cmdDataSendStreamFrom] hands to the control stream is the given one
    with the stream ID spliced in after the verb: at the first space of
    the string when there is one, at its end otherwise. *)
Theorem cmdDataSendStreamFrom_splices
    offset format (args : list Arg) w (stream : SendStream) w0 wr :
  getNewDataSendStream w = Returns (inr stream) w0 ->
  restDone offset w0 wr ->
  exists format' r w' events,
    spliceStreamID format (StreamID stream) = Done format'
    /\ cmdDataSendStreamFrom offset format args w = Returns r w'
    /\ trace w' = trace wr ++ EvCmd format' args :: events
    /\ (forall verb rest,
          format = verb +:+ " " +:+ rest ->
          strings.Index verb " " = -1 ->
          format' = verb +:+ " " +:+ strconv.Itoa (StreamID stream)
                    +:+ " " +:+ rest)
    /\ (strings.Index format " " = -1 ->
        format' = format +:+ " " +:+ strconv.Itoa (StreamID stream)).
Proof.
  intros Hopen Hrest.
  destruct (spliceStreamID_total format (StreamID stream)) as [format' Hsplice].
  destruct (sendTail_trace stream format' args wr) as (r & w' & events & Hrun & Htrace).
  exists format', r, w', events. split; [done|]. split; [|split; [done|]].
  - unfold cmdDataSendStreamFrom. unfold bind at 1. rewrite Hopen.
    rewrite (restDone_run _ _ _ _ Hrest).
    unfold bind at 1, liftRun. rewrite Hsplice. exact Hrun.
  - split.
    + intros verb rest -> Hverb.
      rewrite spliceStreamID_args in Hsplice by done. by injection Hsplice.
    + intros Hnone.
      rewrite spliceStreamID_noargs in Hsplice by done. by injection Hsplice.
Qed.

End Send.

(** ** The control stream leaves the sub-connection alone *)

Section Control.

Implicit Types (w : World) (code : Z) (msg format : string).

Lemma Cmd_subC format (args : list Arg) w r w' :
  Cmd format args w = Returns r w' -> subC w' = subC w.
Proof.
  unfold Cmd. destruct (cmdResults (peer w)); by intros [= _ <-].
Qed.

Lemma ReadResponse_subC expect w r w' :
  ReadResponse expect w = Returns r w' -> subC w' = subC w.
Proof.
  unfold ReadResponse. destruct (replies (peer w)) as [|[e|[c m]] rs].
  1,2: by intros [= _ <-].
  destruct (unexpectedCode expect c); by intros [= _ <-].
Qed.

(** A command sent and its reply read without error. *)
Lemma cmd_run expected format (args : list Arg) w wc code msg w1 :
  Cmd format args w = Returns None wc ->
  ReadResponse expected wc = Returns (code, msg, None) w1 ->
  cmd expected format args w = Returns (code, msg, None) w1.
Proof. intros Hcmd Hread. unfold cmd, bind. by rewrite Hcmd. Qed.

(** C8, as the code has it: whenever [Feat] reads a reply whose code is
    not 211 it returns no error and leaves the features map as it was, so
    the map is empty afterwards exactly when it was empty before. *)
Theorem Feat_other_code w wc code msg w1 :
  Cmd "FEAT" [] w = Returns None wc ->
  ReadResponse (-1) wc = Returns (code, msg, None) w1 ->
  code <> StatusSystem ->
  Feat w = Returns None w1 /\ Features w1 = Features w.
Proof.
  intros Hcmd Hread Hcode. split.
  - unfold Feat, bind. rewrite (cmd_run _ _ _ _ _ _ _ _ Hcmd Hread).
    by rewrite (proj2 (Z.eqb_neq _ _) Hcode).
  - unfold Features.
    by rewrite (ReadResponse_subC _ _ _ _ Hread), (Cmd_subC _ _ _ _ _ Hcmd).
Qed.

Lemma Feat_other_code_witness :
  exists wc w1,
    Cmd "FEAT" [] (freshWorld [] [] [None] [inr (502, "Command not implemented.")])
    = Returns None wc
    /\ ReadResponse (-1) wc = Returns (502, "Command not implemented.", None) w1
    /\ 502 <> StatusSystem
    /\ Feat (freshWorld [] [] [None] [inr (502, "Command not implemented.")])
       = Returns None w1
    /\ Features w1
       = Features (freshWorld [] [] [None] [inr (502, "Command not implemented.")]).
Proof.
  eexists _, _. split; [reflexivity|]. split; [reflexivity|].
  split; [discriminate|].
  eapply (Feat_other_code
            (freshWorld [] [] [None] [inr (502, "Command not implemented.")]));
    [reflexivity | reflexivity | discriminate].
Defined.

(** C8 as the specification states it fails: a first FEAT answered 211
    fills the map with UTF8, and a second FEAT answered 502 returns no
    error but leaves UTF8 in the map. *)
Lemma Feat_keeps_earlier_features :
  exists w1 w2,
    Feat (freshWorld [] [] [None; None]
            [inr (211, featReply); inr (502, "Command not implemented.")])
    = Returns None w1
    /\ Feat w1 = Returns None w2
    /\ Features w2 !! "UTF8" = Some ""
    /\ Features w2 <> ∅.
Proof.
  eexists _, _. split; [vm_compute; reflexivity|].
  split; [vm_compute; reflexivity|].
  split; [vm_compute; reflexivity|].
  intros H. apply (f_equal (fun m => m !! "UTF8")) in H.
  vm_compute in H. discriminate.
Qed.

(** C5: on a PWD reply whose message holds exactly one double quote (its
    first and its last are the same), [CurrentDir] does not return an
    error: the slice expression [msg[start+1 : end]] panics. *)
Theorem CurrentDir_single_quote w wc code msg w1 :
  Cmd "PWD" [] w = Returns None wc ->
  ReadResponse StatusPathCreated wc = Returns (code, msg, None) w1 ->
  0 <= strings.Index msg GoString.QUOTE ->
  strings.Index msg GoString.QUOTE = strings.LastIndex msg GoString.QUOTE ->
  CurrentDir w = Panics SliceBoundsOutOfRange w1.
Proof.
  intros Hcmd Hread Hstart Hsame.
  unfold CurrentDir, bind. rewrite (cmd_run _ _ _ _ _ _ _ _ Hcmd Hread).
  rewrite <- Hsame.
  assert ((strings.Index msg GoString.QUOTE =? -1) = false) as ->
    by (apply Z.eqb_neq; lia).
  cbn [orb]. unfold liftRun, GoString.slice.
  assert ((strings.Index msg GoString.QUOTE + 1
           <=? strings.Index msg GoString.QUOTE) = false) as ->
    by (apply Z.leb_gt; lia).
  by rewrite andb_false_r.
Qed.

Lemma CurrentDir_single_quote_witness :
  exists wc w1,
    Cmd "PWD" [] (freshWorld [] [] [None] [inr (257, unclosedPwdReply)])
    = Returns None wc
    /\ ReadResponse StatusPathCreated wc
       = Returns (257, unclosedPwdReply, None) w1
    /\ 0 <= strings.Index unclosedPwdReply GoString.QUOTE
    /\ strings.Index unclosedPwdReply GoString.QUOTE
       = strings.LastIndex unclosedPwdReply GoString.QUOTE
    /\ CurrentDir (freshWorld [] [] [None] [inr (257, unclosedPwdReply)])
       = Panics SliceBoundsOutOfRange w1.
Proof.
  eexists _, _. split; [reflexivity|]. split; [reflexivity|].
  split; [vm_compute; discriminate|]. split; [reflexivity|].
  eapply (CurrentDir_single_quote
            (freshWorld [] [] [None] [inr (257, unclosedPwdReply)]));
    [reflexivity | reflexivity | vm_compute; discriminate | reflexivity].
Defined.

(** What [CurrentDir] does get right: a message without any double quote
    is answered with the protocol-format error. *)
Lemma CurrentDir_no_quote w wc code msg w1 :
  Cmd "PWD" [] w = Returns None wc ->
  ReadResponse StatusPathCreated wc = Returns (code, msg, None) w1 ->
  strings.Index msg GoString.QUOTE = -1 ->
  CurrentDir w
  = Returns ("", Some (errorsNew "Unsuported PWD response format")) w1.
Proof.
  intros Hcmd Hread Hnone.
  unfold CurrentDir, bind. rewrite (cmd_run _ _ _ _ _ _ _ _ Hcmd Hread).
  by rewrite Hnone.
Qed.

(** And a message with two double quotes or more yields the text strictly
    between the first and the last of them. *)
Lemma CurrentDir_quoted w wc code msg w1 :
  Cmd "PWD" [] w = Returns None wc ->
  ReadResponse StatusPathCreated wc = Returns (code, msg, None) w1 ->
  0 <= strings.Index msg GoString.QUOTE ->
  strings.Index msg GoString.QUOTE < strings.LastIndex msg GoString.QUOTE ->
  CurrentDir w
  = Returns
      (GoString.take
         (Z.to_nat (strings.LastIndex msg GoString.QUOTE
                    - (strings.Index msg GoString.QUOTE + 1)))
         (GoString.drop (Z.to_nat (strings.Index msg GoString.QUOTE + 1)) msg),
       None) w1.
Proof.
  intros Hcmd Hread Hstart Hlt.
  pose proof (LastIndex_upper msg GoString.QUOTE) as Hend.
  unfold CurrentDir, bind. rewrite (cmd_run _ _ _ _ _ _ _ _ Hcmd Hread).
  assert ((strings.Index msg GoString.QUOTE =? -1) = false) as ->
    by (apply Z.eqb_neq; lia).
  assert ((strings.LastIndex msg GoString.QUOTE =? -1) = false) as ->
    by (apply Z.eqb_neq; lia).
  cbn [orb]. unfold liftRun, GoString.slice.
  assert ((0 <=? strings.Index msg GoString.QUOTE + 1)
          && (strings.Index msg GoString.QUOTE + 1
              <=? strings.LastIndex msg GoString.QUOTE)
          && (strings.LastIndex msg GoString.QUOTE <=? GoString.len msg)
          = true) as ->; [|reflexivity].
  rewrite !andb_true_iff. repeat split; apply Z.leb_le; lia.
Qed.

(** A message that begins with a letter does not begin with a stream ID. *)
Lemma not_beginsWithStreamID_letter :
  ~ beginsWithStreamID "Opening data stream".
Proof.
  intros (text & rest & i & Heq & Hdec & _).
  destruct Hdec as [ds Hne Hds|ds Hne Hds|ds Hne Hds].
  - destruct ds as [|c ds]; [done|].
    rewrite append_cons in Heq. injection Heq as <- _. discriminate.
  - rewrite append_cons in Heq. discriminate.
  - rewrite append_cons in Heq. discriminate.
Qed.

(** C2 at a reply 150 whose message names no stream. *)
Lemma cmdDataReceiveStreamFrom_reply_witness :
  exists wc w1,
    restDone 0 (freshWorld [] [] [None] [inr (150, "Opening data stream")])
      (freshWorld [] [] [None] [inr (150, "Opening data stream")])
    /\ Cmd "RETR %s" [ArgString "f"]
         (freshWorld [] [] [None] [inr (150, "Opening data stream")])
       = Returns None wc
    /\ ReadResponse (-1) wc = Returns (150, "Opening data stream", None) w1
    /\ exists e,
        isProtocolFormatError e
        /\ cmdDataReceiveStreamFrom 0 "RETR %s" [ArgString "f"]
             (freshWorld [] [] [None] [inr (150, "Opening data stream")])
           = Returns (inl e) w1.
Proof.
  eexists _, _.
  split; [left; split; reflexivity|]. split; [reflexivity|].
  split; [reflexivity|].
  eapply (cmdDataReceiveStreamFrom_reply 0 "RETR %s" [ArgString "f"]
            (freshWorld [] [] [None] [inr (150, "Opening data stream")])
            (freshWorld [] [] [None] [inr (150, "Opening data stream")]));
    [left; split; reflexivity | reflexivity | reflexivity
    | right; reflexivity | exact not_beginsWithStreamID_letter].
Defined.

(** C7 at "STOR %s" and the send stream 2: the command sent is
    "STOR 2 %s". *)
Lemma cmdDataSendStreamFrom_splices_witness :
  exists w0,
    getNewDataSendStream
      (freshWorld [] [inr (mkSendStream 2)] [None] [inr (150, "Ok")])
    = Returns (inr (mkSendStream 2)) w0
    /\ restDone 0 w0 w0
    /\ exists r w' events,
        cmdDataSendStreamFrom 0 "STOR %s" [ArgString "f"]
          (freshWorld [] [inr (mkSendStream 2)] [None] [inr (150, "Ok")])
        = Returns r w'
        /\ trace w' = trace w0 ++ EvCmd "STOR 2 %s" [ArgString "f"] :: events.
Proof.
  eexists. split; [reflexivity|]. split; [left; split; reflexivity|].
  destruct (cmdDataSendStreamFrom_splices 0 "STOR %s" [ArgString "f"]
              (freshWorld [] [inr (mkSendStream 2)] [None] [inr (150, "Ok")])
              (mkSendStream 2) _ _ eq_refl (or_introl (conj eq_refl eq_refl)))
    as (format' & r & w' & events & _ & Hrun & Htrace & Hargs & _).
  rewrite (Hargs "STOR" "%s" eq_refl eq_refl) in Htrace.
  exists r, w', events. split; [exact Hrun | exact Htrace].
Defined.

End Control.

(** ** The collection loop of MultipleTransfer *)

Section Collect.

Lemma resetReply_has_prefix (err : error) :
  strings.HasPrefix (Error (resetReply err)) "Go routine reset." = true.
Proof. reflexivity. Qed.

Lemma resetReply_not_reset (err : error) :
  countsAsReset (resetReply err) = false.
Proof. reflexivity. Qed.

(** The loop counts a reply as a reset exactly when its message is a
    prefix of the literal, not when the literal is a prefix of it. *)
Lemma countsAsReset_prefix (replay : error) :
  countsAsReset replay = String.prefix (Error replay) "Go routine reset.".
Proof. reflexivity. Qed.

(** C3: the reply a worker sends when it is reset, whose message starts
    with "Go routine reset.", does not increment the reset counter of the
    collection loop: the loop goes on with [goRoutineResetReply]
    unchanged. *)
Theorem resetReply_not_counted (err : error) (lenTasks nrParallel : Z)
    (returnChannel : list (option error))
    (normalReplay goRoutineResetReply : Z) (errorMessage : string) :
  normalReplay < lenTasks ->
  goRoutineResetReply < nrParallel ->
  strings.HasPrefix (Error (resetReply err)) "Go routine reset." = true
  /\ collectReplies lenTasks nrParallel
       (Some (resetReply err) :: returnChannel)
       normalReplay goRoutineResetReply errorMessage
     = collectReplies lenTasks nrParallel returnChannel
         (normalReplay + 1) goRoutineResetReply
         (errorMessage +:+ GoString.LF +:+ Error (resetReply err)).
Proof.
  intros Hnormal Hreset. split; [apply resetReply_has_prefix|].
  cbn [collectReplies].
  rewrite (proj2 (Z.ltb_lt _ _) Hnormal), (proj2 (Z.ltb_lt _ _) Hreset).
  cbn [andb]. by rewrite resetReply_not_reset.
Qed.

Lemma resetReply_not_counted_witness :
  0 < 2 /\ 0 < 1
  /\ strings.HasPrefix (Error (resetReply (libError "EOF"))) "Go routine reset."
     = true
  /\ collectReplies 2 1 [Some (resetReply (libError "EOF"))] 0 0 ""
     = collectReplies 2 1 [] (0 + 1) 0
         ("" +:+ GoString.LF +:+ Error (resetReply (libError "EOF"))).
Proof.
  split; [lia|]. split; [lia|].
  apply (resetReply_not_counted (libError "EOF") 2 1 [] 0 0 ""); lia.
Defined.

End Collect.

(** ** The parsers on the lines of the specification and of the tests *)

(** The RFC 3659 line of the specification's last scenario. *)
Example parseListLine_welcome :
  parseListLine "" textTime 2026 decimalSize
    "modify=20150813175250;perm=adfr;size=951;type=file;unique=119FBB87UE;UNIX.group=0; welcome.msg"
  = Done (inr (mkEntry "welcome.msg" EntryTypeFile 951 "20150813175250")).
Proof. vm_compute. reflexivity. Qed.

(** A line of [ls -l] from the tests: the time handed to [time.Parse] is
    day, month and the last two digits of the year. *)
Example parseListLine_pub :
  parseListLine "" textTime 2026 decimalSize
    "drwxr-xr-x    3 110      1002            3 Dec 02  2009 pub"
  = Done (inr (mkEntry "pub" EntryTypeFolder 0 "02 Dec 09 00:00 GMT")).
Proof. vm_compute. reflexivity. Qed.

(** A line too short for the first DIR time format makes the DIR parser,
    and with it [parseListLine], panic. *)
Example parseListLine_short_line :
  parseListLine tt noTime 2026 noSize "abc def" = Panic SliceBoundsOutOfRange.
Proof. vm_compute. reflexivity. Qed.

(** ** One step on the control stream *)

Section Steps.

Implicit Types (w : World) (format : string) (args : list Arg).

Lemma sentCommands_app (evs evs' : list Event) :
  sentCommands (evs ++ evs') = sentCommands evs ++ sentCommands evs'.
Proof.
  induction evs as [|[] evs IH]; cbn; try done. by rewrite IH.
Qed.

Lemma closeCount_app (id : Z) (evs evs' : list Event) :
  closeCount id (evs ++ evs') = (closeCount id evs + closeCount id evs')%nat.
Proof.
  induction evs as [|[] evs IH]; cbn; try done. rewrite IH. lia.
Qed.

Lemma Cmd_step format args w :
  exists r w',
    Cmd format args w = Returns r w'
    /\ trace w' = trace w ++ [EvCmd format args]
    /\ subC w' = subC w.
Proof.
  unfold Cmd. destruct (cmdResults (peer w)); eexists _, _; done.
Qed.

Lemma ReadResponse_step expect w :
  exists r w',
    ReadResponse expect w = Returns r w'
    /\ trace w' = trace w ++ [EvReadResponse expect]
    /\ subC w' = subC w.
Proof.
  unfold ReadResponse. destruct (replies (peer w)) as [|[e|[c m]] rs].
  1,2: eexists _, _; done.
  destruct (unexpectedCode expect c); eexists _, _; done.
Qed.

(** [cmd] always returns; it sends its command and nothing else. *)
Lemma cmd_step expected format args w :
  exists r w' evs,
    cmd expected format args w = Returns r w'
    /\ trace w' = trace w ++ evs
    /\ sentCommands evs = [(format, args)]
    /\ (forall id, closeCount id evs = O)
    /\ subC w' = subC w.
Proof.
  destruct (Cmd_step format args w) as (r & w1 & Hcmd & Ht1 & Hs1).
  unfold cmd, bind. rewrite Hcmd. destruct r as [e|].
  - eexists _, _, _. split; [reflexivity|]. split; [exact Ht1|]. done.
  - destruct (ReadResponse_step expected w1) as (r & w2 & Hread & Ht2 & Hs2).
    rewrite Hread. eexists _, _, _. split; [reflexivity|].
    split; [by rewrite Ht2, Ht1, <- app_assoc|].
    split; [done|]. split; [done|]. by rewrite Hs2.
Qed.

(** When [cmd] reports no error, the command was written, the next reply
    was read, and its code met the expectation. *)
Lemma cmd_nil_inv expected format args w code msg w' :
  cmd expected format args w = Returns (code, msg, None) w' ->
  cmdResults (peer w) = None :: cmdResults (peer w')
  /\ replies (peer w) = inr (code, msg) :: replies (peer w')
  /\ unexpectedCode expected code = false.
Proof.
  destruct w as [sc [a o c r] t]. unfold cmd, bind, Cmd, ReadResponse; cbn.
  destruct c as [|[e|] c]; cbn; try done.
  destruct r as [|[e|[c' m]] r]; cbn; try done.
  destruct (unexpectedCode expected c') eqn:Hu; cbn; try done.
  by intros [= -> -> <-].
Qed.

Lemma unexpectedCode_three_digits expected code :
  100 <= expected < 1000 ->
  unexpectedCode expected code = false <-> code = expected.
Proof.
  intros Hexp. unfold unexpectedCode.
  assert ((1 <=? expected) && (expected <? 10) = false) as ->
    by (apply andb_false_iff; right; apply Z.ltb_ge; lia).
  assert ((10 <=? expected) && (expected <? 100) = false) as ->
    by (apply andb_false_iff; right; apply Z.ltb_ge; lia).
  assert ((100 <=? expected) && (expected <? 1000) = true) as ->
    by (apply andb_true_iff; split; [apply Z.leb_le | apply Z.ltb_lt]; lia).
  cbn [andb orb]. rewrite negb_false_iff. apply Z.eqb_eq.
Qed.

(** For a three-digit expectation, [cmd] reports no error exactly when
    the command is written and answered with the expected code. *)
Lemma cmd_nil_iff expected format args w :
  100 <= expected < 1000 ->
  (exists code msg w', cmd expected format args w = Returns (code, msg, None) w')
  <-> answered w expected.
Proof.
  intros Hexp. split.
  - intros (code & msg & w' & Hrun).
    apply cmd_nil_inv in Hrun as (Hc & Hr & Hu).
    apply (unexpectedCode_three_digits _ _ Hexp) in Hu as ->.
    by eexists _, _, _.
  - intros (msg & cs & rs & Hc & Hr).
    destruct w as [sc [a o c r] t]; cbn in Hc, Hr; subst c r.
    unfold cmd, bind, Cmd, ReadResponse; cbn.
    rewrite (proj2 (unexpectedCode_three_digits expected expected Hexp) eq_refl).
    by eexists _, _, _.
Qed.

End Steps.

(** ** FEAT and Login *)

Section Login.

Implicit Types (w : World).

(** The loop of [Feat] never panics and only adds to the map. *)
Lemma featLines_total (lines : list string) : forall known : gmap string string,
  exists known', featLines lines known = Done known' /\ dom known ⊆ dom known'.
Proof.
  induction lines as [|line lines IH]; intros known; cbn [featLines].
  - by exists known.
  - destruct (negb (strings.HasPrefix line " ")); [apply IH|].
    destruct (Z.lt_ge_cases (strings.Index (strings.TrimSpace line) " ") 0)
      as [Hnone|Hsome].
    + rewrite SplitN2_none, at_head, len_one by done. cbn [run_bind Z.eqb].
      destruct (IH (<[strings.TrimSpace line:=""]> known))
        as (known' & Hrun & Hdom).
      exists known'. split; [done|]. etrans; [|exact Hdom].
      rewrite dom_insert. set_solver.
    + rewrite SplitN2_some, at_head, len_two, at_second by done.
      cbn [run_bind Z.eqb Pos.eqb].
      destruct (IH (<[GoString.take
                        (Z.to_nat (strings.Index (strings.TrimSpace line) " "))
                        (strings.TrimSpace line)
                      := GoString.drop
                           (Z.to_nat (strings.Index (strings.TrimSpace line) " " + 1))
                           (strings.TrimSpace line)]> known))
        as (known' & Hrun & Hdom).
      exists known'. split; [done|]. etrans; [|exact Hdom].
      rewrite dom_insert. set_solver.
Qed.

(** [Feat] always returns; it sends FEAT and nothing else, and leaves the
    session as it is. *)
Lemma Feat_step w :
  exists err w' evs,
    Feat w = Returns err w'
    /\ trace w' = trace w ++ evs
    /\ sentCommands evs = [("FEAT", [])]
    /\ serverConnection (subC w') = serverConnection (subC w)
    /\ dom (Features w) ⊆ dom (Features w').
Proof.
  destruct (cmd_step (-1) "FEAT" [] w)
    as ([[code msg] err] & w1 & evs & Hcmd & Ht & Hs & _ & Hsub).
  unfold Feat, bind at 1. rewrite Hcmd. destruct err as [e|].
  { eexists _, _, evs. split; [reflexivity|]. unfold Features.
    by rewrite Hsub. }
  destruct (negb (code =? StatusSystem)).
  { eexists _, _, evs. split; [reflexivity|]. unfold Features.
    by rewrite Hsub. }
  destruct (featLines_total (strings.Split msg GoString.LF) (features (subC w1)))
    as (known' & Hrun & Hdom).
  unfold bind, getFeatures, putFeatures, liftRun, ret. rewrite Hrun.
  eexists _, _, evs. split; [reflexivity|].
  unfold Features, setFeatures; cbn. rewrite <- Hsub. done.
Qed.

(** X1: [Feat] never panics and never forgets a feature: on every world
    it returns, and every feature known before is still known afterwards
    (a 211 reply only adds or overwrites entries; any other outcome
    leaves the map alone); the session part of the connection is not
    touched. *)
Theorem Feat_never_forgets w :
  exists err w',
    Feat w = Returns err w'
    /\ dom (Features w) ⊆ dom (Features w')
    /\ serverConnection (subC w') = serverConnection (subC w).
Proof.
  destruct (Feat_step w) as (err & w' & evs & Hrun & _ & _ & Hconn & Hdom).
  by exists err, w'.
Qed.

(** What [Login] does from TYPE I on. *)
Lemma loginTail_commands (closeResult : option error) w :
  exists r w' evs,
    bind (cmd StatusCommandOK "TYPE I" [])
      (fun '(_, _, err) =>
         match err with
         | Some err => ret (Some err)
         | None =>
             bind Feat
               (fun err =>
                  match err with
                  | Some err =>
                      bind (Quit closeResult) (fun _ => ret (Some err))
                  | None => ret None
                  end)
         end) w
    = Returns r w'
    /\ trace w' = trace w ++ evs
    /\ (exists n, (1 <= n)%nat
          /\ sentCommands evs
             = take n [("TYPE I", []); ("FEAT", []); ("QUIT", [])]
          /\ (r = None -> n = 2%nat)).
Proof.
  destruct (cmd_step StatusCommandOK "TYPE I" [] w)
    as ([[code msg] err] & w1 & ev1 & H1 & T1 & S1 & _ & _).
  unfold bind at 1. rewrite H1. destruct err as [e|].
  { eexists _, _, ev1. split; [reflexivity|]. split; [done|].
    exists 1%nat. rewrite S1. split; [lia|]. split; [reflexivity|]. done. }
  destruct (Feat_step w1) as (err & w2 & ev2 & H2 & T2 & S2 & _ & _).
  unfold bind at 1. rewrite H2. destruct err as [e|].
  - destruct (Cmd_step "QUIT" [] w2) as (rq & w3 & H3 & T3 & _).
    unfold Quit, bind, ret. rewrite H3.
    eexists _, _, (ev1 ++ ev2 ++ [EvCmd "QUIT" []]).
    split; [reflexivity|].
    split; [by rewrite T3, T2, T1, <- !app_assoc|].
    exists 3%nat. rewrite !sentCommands_app, S1, S2.
    split; [lia|]. split; [reflexivity|]. done.
  - eexists _, _, (ev1 ++ ev2). split; [reflexivity|].
    split; [by rewrite T2, T1, <- !app_assoc|].
    exists 2%nat. rewrite !sentCommands_app, S1, S2.
    split; [lia|]. split; [reflexivity|]. done.
Qed.

(** X2: [Login] always returns, and the commands it sends are a
    beginning of USER, PASS (left out unless USER was answered 331),
    TYPE I, FEAT, QUIT; it reports success only when it stopped right
    after FEAT. *)
Theorem Login_command_order (user password : string)
    (closeResult : option error) w :
  exists r w' evs (pass : bool) (n : nat),
    Login user password closeResult w = Returns r w'
    /\ trace w' = trace w ++ evs
    /\ (1 <= n)%nat
    /\ sentCommands evs
       = take n ([("USER %s", [ArgString user])]
                 ++ (if pass then [("PASS %s", [ArgString password])] else [])
                 ++ [("TYPE I", []); ("FEAT", []); ("QUIT", [])])
    /\ (pass = true ->
        exists msg rs, replies (peer w) = inr (StatusUserOK, msg) :: rs)
    /\ (r = None -> n = if pass then 4%nat else 3%nat).
Proof.
  destruct (cmd_step (-1) "USER %s" [ArgString user] w)
    as ([[code message] err] & w1 & ev1 & H1 & T1 & S1 & _ & _).
  unfold Login, bind at 1. rewrite H1. destruct err as [e|].
  { eexists _, _, ev1, false, 1%nat. split; [reflexivity|].
    rewrite S1. split; [done|]. split; [lia|]. split; [reflexivity|]. done. }
  apply cmd_nil_inv in H1 as (_ & Hreply & _).
  destruct (code =? StatusLoggedIn) eqn:H230.
  { destruct (loginTail_commands closeResult w1)
      as (r & w' & evs & Hrun & Ht & n & Hn & Hs & Hr).
    unfold bind at 1, ret at 1. cbn beta iota.
    eexists r, w', (ev1 ++ evs), false, (S n). split; [exact Hrun|].
    split; [by rewrite Ht, T1, <- app_assoc|]. split; [lia|].
    split; [by rewrite sentCommands_app, S1, Hs|].
    split; [done|]. intros Hnil. by rewrite (Hr Hnil). }
  destruct (code =? StatusUserOK) eqn:H331.
  2: { unfold bind, ret.
       eexists _, _, ev1, false, 1%nat. split; [reflexivity|].
       rewrite S1. split; [done|]. split; [lia|]. split; [reflexivity|].
       done. }
  apply Z.eqb_eq in H331 as ->.
  destruct (cmd_step StatusLoggedIn "PASS %s" [ArgString password] w1)
    as ([[code2 msg2] err2] & w2 & ev2 & H2 & T2 & S2 & _ & _).
  unfold bind at 1. unfold bind at 1. rewrite H2. unfold ret at 1.
  destruct err2 as [e|].
  { eexists _, _, (ev1 ++ ev2), true, 2%nat. split; [reflexivity|].
    split; [by rewrite T2, T1, <- app_assoc|]. split; [lia|].
    split; [by rewrite sentCommands_app, S1, S2|].
    split; [by eexists _, _|]. done. }
  destruct (loginTail_commands closeResult w2)
    as (r & w' & evs & Hrun & Ht & n & Hn & Hs & Hr).
  eexists r, w', (ev1 ++ ev2 ++ evs), true, (S (S n)). split; [exact Hrun|].
  split; [by rewrite Ht, T2, T1, <- !app_assoc|]. split; [lia|].
  split; [by rewrite !sentCommands_app, S1, S2, Hs|].
  split; [by eexists _, _|]. intros Hnil. by rewrite (Hr Hnil).
Qed.

(** X3: a USER reply with a code other than 230 and 331 ends [Login]
    there: it returns an error made of the reply's message alone, and
    sends nothing after USER. *)
Theorem Login_refused (user password : string) (closeResult : option error)
    w wc code msg w1 :
  Cmd "USER %s" [ArgString user] w = Returns None wc ->
  ReadResponse (-1) wc = Returns (code, msg, None) w1 ->
  code <> StatusLoggedIn ->
  code <> StatusUserOK ->
  Login user password closeResult w = Returns (Some (errorsNew msg)) w1.
Proof.
  intros Hcmd Hread H230 H331.
  unfold Login, bind at 1. rewrite (cmd_run _ _ _ _ _ _ _ _ Hcmd Hread).
  apply Z.eqb_neq in H230, H331. by rewrite H230, H331.
Qed.

Lemma Login_refused_witness :
  exists wc w1,
    Cmd "USER %s" [ArgString "anonymous"]
      (freshWorld [] [] [None] [inr (530, "Login incorrect.")])
    = Returns None wc
    /\ ReadResponse (-1) wc = Returns (530, "Login incorrect.", None) w1
    /\ 530 <> StatusLoggedIn
    /\ 530 <> StatusUserOK
    /\ Login "anonymous" "anonymous" None
         (freshWorld [] [] [None] [inr (530, "Login incorrect.")])
       = Returns (Some (errorsNew "Login incorrect.")) w1.
Proof.
  eexists _, _. split; [reflexivity|]. split; [reflexivity|].
  split; [discriminate|]. split; [discriminate|].
  eapply (Login_refused "anonymous" "anonymous" None
            (freshWorld [] [] [None] [inr (530, "Login incorrect.")]));
    [reflexivity | reflexivity | discriminate | discriminate].
Defined.

End Login.

(** ** Commands answered by one reply *)

Section SimpleCommands.

Implicit Types (w : World) (path : string).

(** An operation that is one [cmd] succeeds exactly when [cmd] does. *)
Lemma oneCmd_nil_iff expected format (args : list Arg) w :
  100 <= expected < 1000 ->
  (exists w', bind (cmd expected format args) (fun '(_, _, err) => ret err) w
              = Returns None w')
  <-> answered w expected.
Proof.
  intros Hexp. rewrite <- (cmd_nil_iff expected format args w Hexp).
  unfold bind, ret.
  destruct (cmd expected format args w) as [[[code msg] err] w1| | |] eqn:Hrun.
  - split.
    + intros (w' & [= -> ->]). by eexists _, _, _.
    + intros (c & m & w' & [= -> -> -> ->]). by eexists.
  - split; [by intros (? & ?) | by intros (? & ? & ? & ?)].
  - split; [by intros (? & ?) | by intros (? & ? & ? & ?)].
  - split; [by intros (? & ?) | by intros (? & ? & ? & ?)].
Qed.

(** X4: each operation made of a single command reports success exactly
    when its command is written without error and the next reply carries
    its code: 250 for CWD, CDUP, DELE and RMD, 257 for MKD, 200 for NOOP,
    220 for REIN. *)
Theorem simple_commands_succeed_iff w path :
  ((exists w', ChangeDir path w = Returns None w')
     <-> answered w StatusRequestedFileActionOK)
  /\ ((exists w', ChangeDirToParent w = Returns None w')
        <-> answered w StatusRequestedFileActionOK)
  /\ ((exists w', Delete path w = Returns None w')
        <-> answered w StatusRequestedFileActionOK)
  /\ ((exists w', RemoveDir path w = Returns None w')
        <-> answered w StatusRequestedFileActionOK)
  /\ ((exists w', MakeDir path w = Returns None w')
        <-> answered w StatusPathCreated)
  /\ ((exists w', NoOp w = Returns None w') <-> answered w StatusCommandOK)
  /\ ((exists w', Logout w = Returns None w') <-> answered w StatusReady).
Proof.
  repeat split; try (apply oneCmd_nil_iff; done);
    try (apply (oneCmd_nil_iff _ _ _ w); done).
Qed.

(** X5: [Rename] reports success exactly when RNFR is written and
    answered 350 and then RNTO is written and answered 250; and when RNFR
    is not answered so, RNTO is never sent. *)
Theorem Rename_two_steps (from to : string) w :
  ((exists w', Rename from to w = Returns None w')
   <-> exists m1 m2 cs rs,
         cmdResults (peer w) = None :: None :: cs
         /\ replies (peer w)
            = inr (StatusRequestFilePending, m1)
                :: inr (StatusRequestedFileActionOK, m2) :: rs)
  /\ (~ answered w StatusRequestFilePending ->
      exists e w' evs,
        Rename from to w = Returns (Some e) w'
        /\ trace w' = trace w ++ evs
        /\ sentCommands evs = [("RNFR %s", [ArgString from])]).
Proof.
  split.
  - split.
    + intros (w' & Hrun). unfold Rename, bind at 1 in Hrun.
      destruct (cmd StatusRequestFilePending "RNFR %s" [ArgString from] w)
        as [[[c1 m1] [e1|]] w1| | |] eqn:H1; try done.
      apply cmd_nil_inv in H1 as (Hc1 & Hr1 & Hu1).
      apply unexpectedCode_three_digits in Hu1 as ->; [|done].
      assert (Hsecond : exists w'',
                bind (cmd StatusRequestedFileActionOK "RNTO %s" [ArgString to])
                  (fun '(_, _, err) => ret err) w1 = Returns None w'')
        by (by exists w').
      apply oneCmd_nil_iff in Hsecond as (m2 & cs & rs & Hc2 & Hr2); [|done].
      exists m1, m2, cs, rs. by rewrite Hc1, Hr1, Hc2, Hr2.
    + intros (m1 & m2 & cs & rs & Hc & Hr).
      destruct w as [sc [a o c r] t]; cbn in Hc, Hr; subst c r.
      by eexists.
  - intros Hnot.
    destruct (cmd_step StatusRequestFilePending "RNFR %s" [ArgString from] w)
      as ([[c1 m1] err] & w1 & evs & H1 & T1 & S1 & _ & _).
    destruct err as [e|].
    + exists e, w1, evs. unfold Rename, bind. by rewrite H1.
    + exfalso. apply Hnot.
      apply (cmd_nil_iff StatusRequestFilePending "RNFR %s" [ArgString from] w);
        [done|]. by eexists _, _, _.
Qed.

Lemma Rename_two_steps_witness :
  ~ answered (freshWorld [] [] [None; None] [inr (550, "No such file.")])
      StatusRequestFilePending
  /\ exists e w' evs,
      Rename "a" "b" (freshWorld [] [] [None; None] [inr (550, "No such file.")])
      = Returns (Some e) w'
      /\ trace w'
         = trace (freshWorld [] [] [None; None] [inr (550, "No such file.")])
           ++ evs
      /\ sentCommands evs = [("RNFR %s", [ArgString "a"])].
Proof.
  assert (Hnot : ~ answered
                   (freshWorld [] [] [None; None] [inr (550, "No such file.")])
                   StatusRequestFilePending).
  { intros (msg & cs & rs & _ & Hr). cbn in Hr. discriminate. }
  split; [exact Hnot|].
  exact (proj2 (Rename_two_steps "a" "b"
                  (freshWorld [] [] [None; None] [inr (550, "No such file.")]))
           Hnot).
Defined.

(** X6: once [NameList] has its receive stream it returns every line the
    scanner read, together with the scanner's error, and reads the
    closing reply once, expecting 226, without looking at what came: a
    failed closing reply does not make [NameList] fail.  When the stream
    is not obtained, the error is returned and no closing reply is read. *)
Theorem NameList_result path w :
  (forall conn w1,
     cmdDataReceiveStreamFrom 0 "NLST %s" [ArgString path] w
     = Returns (inr conn) w1 ->
     exists w',
       NameList path w = Returns (scanLines conn, scanErr conn) w'
       /\ trace w' = trace w1 ++ [EvReadResponse StatusClosingDataConnection]
       /\ replies (peer w') = tail (replies (peer w1)))
  /\ (forall err w1,
        cmdDataReceiveStreamFrom 0 "NLST %s" [ArgString path] w
        = Returns (inl err) w1 ->
        NameList path w = Returns ([], Some err) w1).
Proof.
  split.
  - intros conn w1 Hrecv. unfold NameList, bind at 1. rewrite Hrecv.
    destruct w1 as [sc [a o c r] t].
    unfold defer, bind, ret, ReadResponse; cbn.
    destruct r as [|[e|[code msg]] r]; cbn.
    1,2: eexists; split; [reflexivity|]; split; reflexivity.
    destruct (code =? StatusClosingDataConnection);
      eexists; (split; [reflexivity|]); split; reflexivity.
  - intros err w1 Hrecv. unfold NameList, bind. by rewrite Hrecv.
Qed.

End SimpleCommands.

(** ** Storing *)

Section Store.

Implicit Types (w : World) (stream : SendStream).

Lemma closeCount_close stream :
  closeCount (StreamID stream) [EvCloseSend (StreamID stream)] = 1%nat.
Proof. cbn. by rewrite decide_True. Qed.

(** From the STOR command on, a send either fails and closes the stream
    once, or hands it over open. *)
Lemma sendTail_closes stream format' (args : list Arg) w :
  exists r w' evs,
    bind (Cmd format' args)
      (fun err =>
         match err with
         | Some err => bind (CloseSend stream) (fun _ => ret (inl err))
         | None =>
             bind (ReadResponse (-1))
               (fun '(code, msg, err) =>
                  match err with
                  | Some err => bind (CloseSend stream) (fun _ => ret (inl err))
                  | None =>
                      if negb (code =? StatusAlreadyOpen)
                         && negb (code =? StatusAboutToSend)
                      then bind (CloseSend stream)
                             (fun _ => ret (inl (textprotoError code msg)))
                      else ret (inr stream)
                  end)
         end) w
    = Returns r w'
    /\ trace w' = trace w ++ evs
    /\ closeCount (StreamID stream) evs
       = match r with inl _ => 1%nat | inr _ => O end
    /\ (forall stream', r = inr stream' -> stream' = stream).
Proof.
  destruct (Cmd_step format' args w) as (rc & w1 & H1 & T1 & _).
  unfold bind at 1. rewrite H1.
  assert (Hclose : forall (e : error) w0 evs0,
            trace w0 = trace w ++ evs0 ->
            closeCount (StreamID stream) evs0 = O ->
            exists r w' evs,
              bind (CloseSend stream) (fun _ => ret (inl e)) w0
              = Returns (r : error + SendStream) w'
              /\ trace w' = trace w ++ evs
              /\ closeCount (StreamID stream) evs
                 = match r with inl _ => 1%nat | inr _ => O end
              /\ (forall stream', r = inr stream' -> stream' = stream)).
  { intros e w0 evs0 Ht Hc.
    eexists (inl e), _, (evs0 ++ [EvCloseSend (StreamID stream)]).
    split; [reflexivity|]. cbn. split; [by rewrite Ht, <- app_assoc|].
    split; [|done]. by rewrite closeCount_app, Hc, closeCount_close. }
  destruct rc as [e|]; [by apply (Hclose e w1 [EvCmd format' args])|].
  destruct (ReadResponse_step (-1) w1) as ([[code msg] err] & w2 & H2 & T2 & _).
  unfold bind at 1. rewrite H2.
  assert (Ht2 : trace w2 = trace w ++ [EvCmd format' args; EvReadResponse (-1)])
    by (by rewrite T2, T1, <- app_assoc).
  destruct err as [e|]; [by apply (Hclose e w2 _ Ht2)|].
  destruct (negb (code =? StatusAlreadyOpen) && negb (code =? StatusAboutToSend)).
  - by apply (Hclose _ w2 _ Ht2).
  - eexists (inr stream), w2, _. split; [reflexivity|]. split; [exact Ht2|].
    split; [done|]. by intros ? [= <-].
Qed.

(** X7: [StorFrom] closes the send stream it opened exactly once on every
    path: whatever the offset, the replies and the copy do, it returns,
    and the stream opened by [getNewDataSendStream] is closed once along
    the way; it reports success only if the copy succeeded. *)
Theorem StorFrom_closes_once (path : string) (r : Reader) (offset : Z)
    w stream w0 :
  getNewDataSendStream w = Returns (inr stream) w0 ->
  exists err w' evs,
    StorFrom path r offset w = Returns err w'
    /\ trace w' = trace w0 ++ evs
    /\ closeCount (StreamID stream) evs = 1%nat
    /\ (err = None -> copyResult r = None).
Proof.
  intros Hopen.
  unfold StorFrom, cmdDataSendStreamFrom. unfold bind at 1. unfold bind at 1.
  rewrite Hopen.
  assert (Hrest : exists restErr wr evr,
            (if negb (offset =? 0)
             then bind (cmd StatusRequestFilePending "REST %d" [ArgUint offset])
                    (fun '(_, _, err) => ret err)
             else ret None) w0 = Returns restErr wr
            /\ trace wr = trace w0 ++ evr
            /\ closeCount (StreamID stream) evr = O).
  { destruct (negb (offset =? 0)).
    - destruct (cmd_step StatusRequestFilePending "REST %d" [ArgUint offset] w0)
        as ([[c m] e] & wr & evr & Hr & Tr & _ & Cr & _).
      unfold bind, ret. rewrite Hr. by eexists _, _, evr.
    - eexists None, w0, []. by rewrite app_nil_r. }
  destruct Hrest as (restErr & wr & evr & Hr & Tr & Cr).
  unfold bind at 1. rewrite Hr. destruct restErr as [e|].
  { eexists _, _, (evr ++ [EvCloseSend (StreamID stream)]).
    split; [reflexivity|]. cbn. split; [by rewrite Tr, <- app_assoc|].
    split; [|done]. by rewrite closeCount_app, Cr, closeCount_close. }
  destruct (spliceStreamID_total "STOR %s" (StreamID stream)) as [format' Hsplice].
  unfold bind at 1, liftRun. rewrite Hsplice.
  destruct (sendTail_closes stream format' [ArgString path] wr)
    as (s & w1 & evs & Hs & Ts & Cs & Hsame).
  rewrite Hs. destruct s as [e|stream'].
  { eexists _, _, (evr ++ evs). split; [reflexivity|].
    split; [by rewrite Ts, Tr, <- app_assoc|].
    split; [|done]. rewrite closeCount_app, Cr, Cs. done. }
  rewrite (Hsame stream' eq_refl). unfold bind at 1, CloseSend.
  destruct (copyResult r) as [e|] eqn:Hcopy.
  { eexists _, _, (evr ++ evs ++ [EvCloseSend (StreamID stream)]).
    split; [reflexivity|]. cbn. split; [by rewrite Ts, Tr, <- !app_assoc|].
    split; [|done].
    by rewrite !closeCount_app, Cr, Cs, closeCount_close. }
  destruct (ReadResponse_step StatusClosingDataConnection
              (emit (EvCloseSend (StreamID stream)) w1))
    as ([[c m] e] & w2 & H2 & T2 & _).
  unfold bind. rewrite H2.
  eexists _, _, (evr ++ evs ++ [EvCloseSend (StreamID stream);
                                EvReadResponse StatusClosingDataConnection]).
  split; [reflexivity|]. split.
  { rewrite T2. cbn. by rewrite Ts, Tr, <- !app_assoc. }
  split; [|done].
  rewrite !closeCount_app, Cr, Cs. cbn. by rewrite decide_True.
Qed.

Lemma StorFrom_closes_once_witness :
  exists w0,
    getNewDataSendStream
      (freshWorld [] [inr (mkSendStream 2)] [None] [inr (550, "No.")])
    = Returns (inr (mkSendStream 2)) w0
    /\ exists err w' evs,
        StorFrom "f" (mkReader None) 0
          (freshWorld [] [inr (mkSendStream 2)] [None] [inr (550, "No.")])
        = Returns err w'
        /\ trace w' = trace w0 ++ evs
        /\ closeCount 2 evs = 1%nat
        /\ (err = None -> copyResult (mkReader None) = None).
Proof.
  eexists. split; [reflexivity|].
  exact (StorFrom_closes_once "f" (mkReader None) 0
           (freshWorld [] [inr (mkSendStream 2)] [None] [inr (550, "No.")])
           (mkSendStream 2) _ eq_refl).
Defined.

End Store.

(** ** Receiving, from the command to the stream *)

Section ReceiveStream.

Import strconv.
Implicit Types (w : World) (format msg : string) (args : list Arg).

Lemma isDigit_digitVal c : isDigit c = true -> 0 <= digitVal c <= 9.
Proof.
  unfold isDigit, digitVal. intros H.
  apply andb_true_iff in H as [H1 H2].
  apply Nat.leb_le in H1, H2. lia.
Qed.

Lemma parseUintLoop_range s : forall n v,
  0 <= n <= maxUint64 ->
  parseUintLoop s n = inr v -> 0 <= v <= maxUint64.
Proof.
  induction s as [|c s IH]; intros n v Hn; cbn [parseUintLoop].
  - by intros [= <-].
  - destruct (isDigit c) eqn:Hd; [|done].
    destruct (maxUint64 / 10 + 1 <=? n); [done|].
    destruct (maxUint64 <? n * 10 + digitVal c) eqn:Hmax; [done|].
    apply IH. apply Z.ltb_ge in Hmax.
    pose proof (isDigit_digitVal c Hd). lia.
Qed.

(** What [ParseInt(s, 10, 64)] returns fits in 64 bits. *)
Lemma ParseInt10_range s i :
  ParseInt10 s = inr i -> - 2 ^ 63 <= i < 2 ^ 63.
Proof.
  destruct s as [|c s]; [done|]. unfold ParseInt10. cbv zeta.
  generalize (if bool_decide (c = "+"%char) || bool_decide (c = "-"%char)
              then s else String c s).
  intros digits.
  destruct (ParseUint10 digits) as [[|]|un] eqn:Hu; try done.
  assert (0 <= un <= maxUint64) as Hun.
  { unfold ParseUint10 in Hu. destruct digits as [|d digits]; [done|].
    apply (parseUintLoop_range (String d digits) 0 un);
      [unfold maxUint64; lia | done]. }
  destruct (bool_decide (c = "-"%char)); cbn [negb andb].
  - destruct (2 ^ 63 <? un) eqn:E; [done|]. intros [= <-].
    apply Z.ltb_ge in E. lia.
  - destruct (2 ^ 63 <=? un) eqn:E; [done|]. intros [= <-].
    apply Z.leb_gt in E. lia.
Qed.

(** A stream handed out by the loop was pending under the wanted ID and
    is pending no more. *)
Lemma loopRun_handed_out streamID queue : forall pending stream pending' queue' k,
  loopRun streamID pending queue = (inr stream, pending', queue', k) ->
  pending' !! streamID = None
  /\ (wellKeyed pending -> StreamID stream = streamID /\ wellKeyed pending').
Proof.
  induction queue as [|[err|accepted] rest IH];
    intros pending stream pending' queue' k; cbn;
    destruct (pending !! streamID) as [found|] eqn:Hm; try done.
  1,2,3: intros [= <- <- <- <-]; split; [apply lookup_delete_eq|];
         intros Hk; split; [by apply Hk | by apply wellKeyed_delete].
  destruct (streamID <? StreamID accepted); [done|].
  destruct (loopRun streamID (<[StreamID accepted:=accepted]> pending) rest)
    as [[[r p'] q'] k'] eqn:Hrun.
  intros [= -> <- <- <-].
  destruct (IH _ _ _ _ _ Hrun) as [Hnone Hkeyed]. split; [done|].
  intros Hk. by apply Hkeyed, wellKeyed_insert.
Qed.

Lemma Cmd_env format args w r w' :
  Cmd format args w = Returns r w' ->
  subC w' = subC w
  /\ acceptResults (peer w') = acceptResults (peer w)
  /\ replies (peer w') = replies (peer w).
Proof.
  destruct w as [sc [a o cs rs] t]. unfold Cmd; cbn.
  destruct cs; by intros [= _ <-].
Qed.

Lemma ReadResponse_env expect w r w' :
  ReadResponse expect w = Returns r w' ->
  subC w' = subC w
  /\ acceptResults (peer w') = acceptResults (peer w)
  /\ (forall x, x ∈ replies (peer w') -> x ∈ replies (peer w))
  /\ (forall code msg, r = (code, msg, None) ->
      inr (code, msg) ∈ replies (peer w)).
Proof.
  destruct w as [sc [a o cs rs] t]. unfold ReadResponse; cbn.
  destruct rs as [|[e|[c m]] rs].
  - intros [= <- <-]. cbn. done.
  - intros [= <- <-]. cbn. split; [done|]. split; [done|].
    split; [set_solver|done].
  - destruct (unexpectedCode expect c); intros [= <- <-]; cbn;
      (split; [done|]); (split; [done|]); (split; [set_solver|]).
    + done.
    + intros code msg [= -> ->]. set_solver.
Qed.

Lemma cmd_env expected format args w r w' :
  cmd expected format args w = Returns r w' ->
  subC w' = subC w
  /\ acceptResults (peer w') = acceptResults (peer w)
  /\ (forall x, x ∈ replies (peer w') -> x ∈ replies (peer w)).
Proof.
  unfold cmd, bind.
  destruct (Cmd format args w) as [[e|] w1| | |] eqn:Hcmd; try done.
  - intros [= <- <-]. apply Cmd_env in Hcmd as (? & ? & ->). done.
  - intros Hread. apply Cmd_env in Hcmd as (Hs & Ha & Hr).
    apply ReadResponse_env in Hread as (Hs' & Ha' & Hr' & _).
    rewrite Hs', Ha', <- Hr, Hs, Ha. done.
Qed.

(** [cmdDataReceiveStreamFrom] from a world with the mutex free: it
    returns; and when it returns a stream, the ID of that stream was read,
    by [ParseInt], from the head of a reply of the server, and the stream
    is what [getDataRetriveStream] hands out for that ID. *)
Lemma cmdDataReceiveStreamFrom_run offset format args w :
  mutexHeld w = false ->
  exists r w',
    cmdDataReceiveStreamFrom offset format args w = Returns r w'
    /\ mutexHeld w' = false
    /\ Features w' = Features w
    /\ (forall stream, r = inr stream ->
        exists id code msg text rest w1 pending' queue' k,
          inr (code, msg) ∈ replies (peer w)
          /\ strings.SplitN msg " " 2 = [text; rest]
          /\ ParseInt10 text = inr id
          /\ 0 <= id /\ Z.rem id 4 = 3
          /\ pendingStreams w1 = pendingStreams w
          /\ acceptResults (peer w1) = acceptResults (peer w)
          /\ loopRun id (pendingStreams w) (acceptResults (peer w))
             = (inr stream, pending', queue', k)
          /\ pendingStreams w' = pending').
Proof.
  intros Hfree. unfold cmdDataReceiveStreamFrom.
  (* REST *)
  assert (Hrest : exists restErr wr,
            (if negb (offset =? 0)
             then bind (cmd StatusRequestFilePending "REST %d" [ArgUint offset])
                    (fun '(_, _, err) => ret err)
             else ret None) w = Returns restErr wr
            /\ subC wr = subC w
            /\ acceptResults (peer wr) = acceptResults (peer w)
            /\ (forall x, x ∈ replies (peer wr) -> x ∈ replies (peer w))).
  { destruct (negb (offset =? 0)); [|by eexists _, _].
    destruct (cmd_step StatusRequestFilePending "REST %d" [ArgUint offset] w)
      as ([[c m] e] & wr & evr & Hr & _).
    unfold bind, ret. rewrite Hr. apply cmd_env in Hr. by eexists _, _. }
  destruct Hrest as (restErr & wr & Hr & Hsr & Har & Hrr).
  unfold bind at 1. rewrite Hr.
  assert (Hquiet : forall w0 : World, subC w0 = subC w ->
            mutexHeld w0 = false /\ Features w0 = Features w).
  { intros w0 Hs. unfold mutexHeld, Features. by rewrite Hs. }
  destruct restErr as [e|].
  { eexists _, wr. split; [reflexivity|].
    destruct (Hquiet wr Hsr). by repeat split. }
  (* the command *)
  destruct (Cmd_step format args wr) as (rc & wc & Hc & _ & _).
  unfold bind at 1. rewrite Hc.
  apply Cmd_env in Hc as (Hsc & Hac & Hrc).
  destruct rc as [e|].
  { eexists _, wc. split; [reflexivity|].
    destruct (Hquiet wc ltac:(congruence)). by repeat split. }
  (* the reply *)
  destruct (ReadResponse_step (-1) wc) as ([[code msg] err] & w1 & H1 & _ & _).
  unfold bind at 1. rewrite H1.
  apply ReadResponse_env in H1 as (Hs1 & Ha1 & _ & Hin).
  assert (Hsub1 : subC w1 = subC w) by congruence.
  destruct (Hquiet w1 Hsub1) as [Hfree1 Hfeat1].
  destruct err as [e|].
  { eexists _, w1. split; [reflexivity|]. by repeat split. }
  destruct (negb (code =? StatusAlreadyOpen) && negb (code =? StatusAboutToSend)).
  { eexists _, w1. split; [reflexivity|]. by repeat split. }
  destruct (Z.lt_ge_cases (strings.Index msg " ") 0) as [Hnone|Hsome].
  { rewrite SplitN2_none, len_one by done.
    eexists _, w1. split; [reflexivity|]. by repeat split. }
  pose proof (SplitN2_some msg Hsome) as Hsplit.
  set (text := GoString.take (Z.to_nat (strings.Index msg " ")) msg) in *.
  set (rest := GoString.drop (Z.to_nat (strings.Index msg " " + 1)) msg) in *.
  clearbody text rest.
  rewrite Hsplit, len_two, at_head. cbn [Z.eqb Pos.eqb negb].
  unfold bind at 1, liftRun.
  destruct (ParseInt10 text) as [e|id] eqn:Hparse.
  { eexists _, w1. split; [reflexivity|]. by repeat split. }
  destruct ((id <? 0) || negb (Z.rem id 4 =? 3)) eqn:Hvalid.
  { eexists _, w1. split; [reflexivity|]. by repeat split. }
  apply orb_false_iff in Hvalid as [Hneg Hrem].
  apply Z.ltb_ge in Hneg. apply negb_false_iff, Z.eqb_eq in Hrem.
  (* the rendezvous *)
  unfold bind. rewrite getDataRetriveStream_run by done.
  assert (Hp1 : pendingStreams w1 = pendingStreams w)
    by (unfold pendingStreams; by rewrite Hsub1).
  assert (Hq1 : acceptResults (peer w1) = acceptResults (peer w)) by congruence.
  rewrite Hp1, Hq1.
  destruct (loopRun id (pendingStreams w) (acceptResults (peer w)))
    as [[[r pending'] queue'] k] eqn:Hrun.
  destruct r as [e|stream]; cbn [ret].
  { eexists _, _. split; [reflexivity|]. unfold afterLoop, mutexHeld, Features.
    cbn. rewrite Hsub1. by repeat split. }
  eexists _, _. split; [reflexivity|]. unfold afterLoop, mutexHeld, Features.
  cbn. rewrite Hsub1. split; [done|]. split; [done|].
  intros stream' [= <-].
  exists id, code, msg, text, rest, w1, pending', queue', k.
  repeat split; try done.
  apply Hrr. rewrite <- Hrc. by apply Hin.
Qed.



(** X9: a stream returned by [cmdDataReceiveStreamFrom], when every
    pending stream is filed under its own ID: its ID is the decimal
    integer at the head of a reply of the server, lies between 0 and
    2^63, is 3 modulo 4, and is no longer pending afterwards, so the same
    stream cannot be handed out twice; the pending map stays keyed by
    stream IDs. *)
Theorem cmdDataReceiveStreamFrom_stream offset format args w stream w' :
  mutexHeld w = false ->
  wellKeyed (pendingStreams w) ->
  cmdDataReceiveStreamFrom offset format args w = Returns (inr stream) w' ->
  (exists code msg text rest,
     inr (code, msg) ∈ replies (peer w)
     /\ msg = text +:+ " " +:+ rest
     /\ decimalInteger text (StreamID stream))
  /\ 0 <= StreamID stream < 2 ^ 63
  /\ StreamID stream mod 4 = 3
  /\ pendingStreams w' !! StreamID stream = None
  /\ wellKeyed (pendingStreams w').
Proof.
  intros Hfree Hkeyed Hrun.
  destruct (cmdDataReceiveStreamFrom_run offset format args w Hfree)
    as (r & w'' & Hrun' & _ & _ & Hstream).
  rewrite Hrun in Hrun'. injection Hrun' as <- <-.
  destruct (Hstream stream eq_refl)
    as (id & code & msg & text & rest & w1 & pending' & queue' & k
        & Hin & Hsplit & Hparse & Hpos & Hrem & _ & _ & Hloop & Hpend).
  apply loopRun_handed_out in Hloop as [Hnone Hid].
  destruct (Hid Hkeyed) as [-> Hkeyed'].
  pose proof (ParseInt10_range _ _ Hparse) as Hrange.
  split.
  { exists code, msg, text, rest. split; [done|].
    split; [by apply SplitN2_two | by apply ParseInt10_decimal]. }
  split; [lia|]. split; [by rewrite <- Z.rem_mod_nonneg by lia|].
  rewrite Hpend. done.
Qed.

Lemma cmdDataReceiveStreamFrom_stream_witness :
  exists w',
    mutexHeld (freshWorld [inr (streamOf 3)] [] [None] [inr (150, "3 Ok")]) = false
    /\ wellKeyed
         (pendingStreams
            (freshWorld [inr (streamOf 3)] [] [None] [inr (150, "3 Ok")]))
    /\ cmdDataReceiveStreamFrom 0 "RETR %s" [ArgString "f"]
         (freshWorld [inr (streamOf 3)] [] [None] [inr (150, "3 Ok")])
       = Returns (inr (streamOf 3)) w'
    /\ 0 <= StreamID (streamOf 3) < 2 ^ 63
    /\ StreamID (streamOf 3) mod 4 = 3
    /\ pendingStreams w' !! StreamID (streamOf 3) = None
    /\ wellKeyed (pendingStreams w').
Proof.
  assert (Hkeyed : wellKeyed
            (pendingStreams
               (freshWorld [inr (streamOf 3)] [] [None] [inr (150, "3 Ok")]))).
  { intros k s Hs. cbn in Hs. by rewrite lookup_empty in Hs. }
  eexists. split; [reflexivity|]. split; [exact Hkeyed|].
  split; [vm_compute; reflexivity|].
  eapply (proj2 (cmdDataReceiveStreamFrom_stream 0 "RETR %s" [ArgString "f"]
                   (freshWorld [inr (streamOf 3)] [] [None] [inr (150, "3 Ok")])
                   (streamOf 3) _ eq_refl Hkeyed _)).
  Unshelve. vm_compute; reflexivity.
Defined.

End ReceiveStream.

(** ** More on byte strings *)

Section MoreStrings.

Import GoString.
Implicit Types (s sep : string) (c d : ascii).

Lemma prefix_length sep s :
  String.prefix sep s = true -> (String.length sep <= String.length s)%nat.
Proof.
  revert s; induction sep as [|c sep IH]; intros [|d s]; cbn; try done; try lia.
  destruct (ascii_dec c d); [|done]. intros H. apply IH in H. lia.
Qed.

(** An instance found by [Index] lies inside the string. *)
Lemma Index_found_bound s sep :
  0 <= strings.Index s sep -> strings.Index s sep + len sep <= len s.
Proof.
  unfold len. induction s as [|c s IH]; cbn [strings.Index String.length].
  - destruct (String.prefix sep "") eqn:Hp; [|lia]. intros _.
    apply prefix_length in Hp. cbn in Hp. lia.
  - destruct (String.prefix sep (String c s)) eqn:Hp.
    + intros _. apply prefix_length in Hp. cbn in Hp. lia.
    + destruct (strings.Index s sep <? 0) eqn:E; [lia|]. intros _.
      apply Z.ltb_ge in E. specialize (IH E). lia.
Qed.

(** Two different bytes are not first found at the same place. *)
Lemma Index_distinct c d s :
  c <> d ->
  0 <= strings.Index s (String c "") ->
  strings.Index s (String c "") <> strings.Index s (String d "").
Proof.
  intros Hcd. induction s as [|x s IH]; cbn [strings.Index String.prefix].
  - lia.
  - pose proof (Index_lower s (String c "")) as Hc.
    pose proof (Index_lower s (String d "")) as Hd.
    destruct (ascii_dec c x) as [->|Hcx]; destruct (ascii_dec d x) as [->|Hdx];
      rewrite ?prefix_nil; try done.
    + destruct (strings.Index s (String d "") <? 0) eqn:E; lia.
    + destruct (strings.Index s (String c "") <? 0) eqn:E; lia.
    + destruct (strings.Index s (String c "") <? 0) eqn:E; [lia|].
      apply Z.ltb_ge in E. specialize (IH E).
      destruct (strings.Index s (String d "") <? 0) eqn:E'; lia.
Qed.

Lemma string_length_drop (n : nat) s :
  String.length (drop n s) = (String.length s - n)%nat.
Proof.
  revert s; induction n as [|n IH]; intros [|c s]; cbn; try done; try lia.
Qed.

Lemma take_all (n : nat) s : (String.length s <= n)%nat -> take n s = s.
Proof.
  revert s; induction n as [|n IH]; intros [|c s]; cbn; try done; try lia.
  intros H. f_equal. apply IH. lia.
Qed.

Lemma sliceFrom_drop s (lo : Z) :
  0 <= lo <= len s -> sliceFrom s lo = Done (drop (Z.to_nat lo) s).
Proof.
  intros H. unfold sliceFrom, slice.
  assert ((0 <=? lo) && (lo <=? len s) && (len s <=? len s) = true) as ->.
  { rewrite !andb_true_iff. repeat split; apply Z.leb_le; lia. }
  f_equal. apply take_all. rewrite string_length_drop. unfold len in *. lia.
Qed.

Lemma sliceTo_take s (hi : Z) :
  0 <= hi <= len s -> sliceTo s hi = Done (take (Z.to_nat hi) s).
Proof.
  intros H. unfold sliceTo, slice.
  assert ((0 <=? 0) && (0 <=? hi) && (hi <=? len s) = true) as ->.
  { rewrite !andb_true_iff. repeat split; apply Z.leb_le; lia. }
  by rewrite Z.sub_0_r.
Qed.

Lemma sliceTo_short s (hi : Z) :
  len s < hi -> sliceTo s hi = Panic SliceBoundsOutOfRange.
Proof.
  intros H. unfold sliceTo, slice.
  assert ((hi <=? len s) = false) as -> by (apply Z.leb_gt; lia).
  by rewrite andb_false_r.
Qed.

Lemma TrimLeft_no_blank s :
  strings.HasPrefix (strings.TrimLeft s " ") " " = false.
Proof.
  induction s as [|c s IH]; [done|]. cbn [strings.TrimLeft strings.inCutset].
  case_decide as Hc; [exact IH|].
  unfold strings.HasPrefix. cbn [String.prefix].
  destruct (ascii_dec " " c) as [<-|]; done.
Qed.

End MoreStrings.

(** ** More on the LIST-line parsers *)

Section MoreListing.

Context {time_Time : Type}.
Variable zeroTime : time_Time.
Variable time_Parse : string -> string -> error + time_Time.
Variable thisYear : Z.
Variable ParseUint0 : string -> Z * option error.

Lemma assignTime_fields (e : Entry) (layout value : string) :
  Name (fst (assignTime zeroTime time_Parse e layout value)) = Name e
  /\ Type_ (fst (assignTime zeroTime time_Parse e layout value)) = Type_ e
  /\ Size (fst (assignTime zeroTime time_Parse e layout value)) = Size e.
Proof. unfold assignTime. by destruct (time_Parse layout value). Qed.

(** The loop over the facts never panics and leaves the name alone. *)
Lemma rfc3659Facts_total (fields : list string) : forall e : Entry,
  exists r,
    rfc3659Facts zeroTime time_Parse ParseUint0 fields e = Done r
    /\ (forall e', r = inr e' -> Name e' = Name e).
Proof.
  induction fields as [|field fields IH]; intros e; cbn [rfc3659Facts].
  - exists (inr e). split; [done|]. by intros e' [= <-].
  - destruct (strings.Index field "=" <? 1) eqn:Hi.
    { eexists. split; [reflexivity|]. done. }
    apply Z.ltb_ge in Hi.
    pose proof (Index_upper field "=") as Hup.
    pose proof (Index_found_bound field "=" ltac:(lia)) as Hin.
    change (GoString.len "=") with 1 in Hin.
    rewrite sliceTo_take, sliceFrom_drop by lia. cbn [run_bind].
    assert (Hnext : forall e1 : Entry, Name e1 = Name e ->
              exists r,
                rfc3659Facts zeroTime time_Parse ParseUint0 fields e1 = Done r
                /\ (forall e', r = inr e' -> Name e' = Name e)).
    { intros e1 He1. destruct (IH e1) as (r & Hr & Hn).
      exists r. split; [done|]. intros e' He'. by rewrite (Hn e' He'). }
    repeat case_decide.
    + pose proof (assignTime_fields e "20060102150405"
                    (GoString.drop (Z.to_nat (strings.Index field "=" + 1)) field))
        as (Hname & _).
      destruct (assignTime zeroTime time_Parse e "20060102150405" _)
        as [e1 [err|]]; cbn in Hname.
      * eexists. split; [reflexivity|]. done.
      * by apply Hnext.
    + by apply Hnext.
    + by apply Hnext.
    + by apply Hnext.
    + apply Hnext. unfold SetSize. by destruct (ParseUint0 _).
    + by apply Hnext.
Qed.

(** Past its guard, both slice expressions of [parseRFC3659ListLine] are
    within the line: the blank lies strictly behind the semicolon. *)
Lemma rfc3659_slices (line : string) :
  (strings.Index line ";" <? 0)
  || (strings.Index line " " <? strings.Index line ";") = false ->
  0 <= strings.Index line ";" < strings.Index line " "
  /\ GoString.sliceFrom line (strings.Index line " " + 1)
     = Done (GoString.drop (Z.to_nat (strings.Index line " " + 1)) line)
  /\ GoString.sliceTo line (strings.Index line " " - 1)
     = Done (GoString.take (Z.to_nat (strings.Index line " " - 1)) line).
Proof.
  intros Hguard.
  apply orb_false_iff in Hguard as [Hsemi Hws].
  apply Z.ltb_ge in Hsemi, Hws.
  assert (Hne : strings.Index line ";" <> strings.Index line " ")
    by (by apply Index_distinct).
  pose proof (Index_found_bound line " " ltac:(lia)) as Hin.
  change (GoString.len " ") with 1 in Hin.
  split; [lia|]. by rewrite sliceFrom_drop, sliceTo_take by lia.
Qed.

Lemma parseRFC3659ListLine_returns (line : string) :
  exists r, parseRFC3659ListLine zeroTime time_Parse ParseUint0 line = Done r.
Proof.
  unfold parseRFC3659ListLine.
  destruct ((strings.Index line ";" <? 0)
            || (strings.Index line " " <? strings.Index line ";")) eqn:Hguard;
    [by eexists|].
  destruct (rfc3659_slices line Hguard) as (_ & -> & ->). cbn [run_bind].
  destruct (rfc3659Facts_total
              (strings.Split
                 (GoString.take (Z.to_nat (strings.Index line " " - 1)) line) ";")
              (withName
                 (GoString.drop (Z.to_nat (strings.Index line " " + 1)) line)
                 (zeroEntry zeroTime)))
    as (r & Hr & _).
  by exists r.
Qed.

(** X10: [parseRFC3659ListLine] never panics: for every line it returns
    an entry or an error; and the name of a returned entry is all of the
    line after its first blank, which a semicolon precedes. *)
Theorem parseRFC3659ListLine_total (line : string) :
  exists r,
    parseRFC3659ListLine zeroTime time_Parse ParseUint0 line = Done r
    /\ (forall e, r = inr e ->
        0 <= strings.Index line ";" < strings.Index line " "
        /\ Name e
           = GoString.drop (Z.to_nat (strings.Index line " " + 1)) line).
Proof.
  unfold parseRFC3659ListLine.
  destruct ((strings.Index line ";" <? 0)
            || (strings.Index line " " <? strings.Index line ";")) eqn:Hguard.
  { eexists. split; [reflexivity|]. done. }
  destruct (rfc3659_slices line Hguard) as (Horder & -> & ->).
  cbn [run_bind].
  destruct (rfc3659Facts_total
              (strings.Split
                 (GoString.take (Z.to_nat (strings.Index line " " - 1)) line) ";")
              (withName
                 (GoString.drop (Z.to_nat (strings.Index line " " + 1)) line)
                 (zeroEntry zeroTime)))
    as (r & Hr & Hn).
  exists r. split; [exact Hr|]. intros e He. split; [exact Horder|].
  by rewrite (Hn e He).
Qed.

(** The DIR parser reads the first 17 bytes of the line before anything
    else. *)
Lemma parseDirListLine_short (line : string) :
  GoString.len line < 17 ->
  parseDirListLine zeroTime time_Parse line = Panic SliceBoundsOutOfRange.
Proof.
  intros Hshort. unfold parseDirListLine, dirTimeFormats. cbn [dirTime].
  rewrite sliceTo_short; [done|]. exact Hshort.
Qed.

(** X11: a line shorter than 17 bytes that is neither an RFC 3659 line
    nor an ls line makes [parseListLine] panic, in the slice expression of
    the DIR parser, instead of returning the unsupported-line error; and
    [List] panics on a stream that begins with such a line, after its
    deferred read of the closing reply. *)
Theorem parseListLine_short_panics (line : string) :
  GoString.len line < 17 ->
  isUnsupported (parseRFC3659ListLine zeroTime time_Parse ParseUint0 line) = true ->
  isUnsupported (parseLsListLine zeroTime time_Parse thisYear ParseUint0 line) = true ->
  parseListLine zeroTime time_Parse thisYear ParseUint0 line
  = Panic SliceBoundsOutOfRange
  /\ (forall (conn : ReceiveStream) (after : list string) (w : World),
        scanLines conn = line :: after ->
        exists w',
          listFrom zeroTime time_Parse thisYear ParseUint0 conn w
          = Panics SliceBoundsOutOfRange w'
          /\ trace w' = trace w ++ [EvReadResponse StatusClosingDataConnection]).
Proof.
  intros Hshort Hrfc Hls.
  assert (Hpanic : parseListLine zeroTime time_Parse thisYear ParseUint0 line
                   = Panic SliceBoundsOutOfRange).
  { unfold parseListLine, listLineParsers.
    rewrite tryParsers_firstSupported. cbn [map firstSupported].
    by rewrite Hrfc, Hls, parseDirListLine_short. }
  split; [exact Hpanic|].
  intros conn after w Hlines.
  unfold listFrom, defer, bind at 1, liftRun. rewrite Hlines.
  cbn [scanEntries]. rewrite Hpanic. cbn [run_bind].
  destruct (ReadResponse_step StatusClosingDataConnection w)
    as (r & w' & Hread & Ht & _).
  unfold bind, ret. rewrite Hread. by exists w'.
Qed.


End MoreListing.

Lemma parseListLine_short_panics_witness :
  GoString.len "total 12" < 17
  /\ isUnsupported (parseRFC3659ListLine tt noTime noSize "total 12") = true
  /\ isUnsupported (parseLsListLine tt noTime 2026 noSize "total 12") = true
  /\ parseListLine tt noTime 2026 noSize "total 12" = Panic SliceBoundsOutOfRange
  /\ exists w',
      listFrom tt noTime 2026 noSize
        (mkReceiveStream 3 ["total 12"; "-rw-r--r-- 1 u g 5 Jan 1 2020 f"] None)
        (freshWorld [] [] [] [inr (226, "Done.")])
      = Panics SliceBoundsOutOfRange w'
      /\ trace w'
         = trace (freshWorld [] [] [] [inr (226, "Done.")])
           ++ [EvReadResponse StatusClosingDataConnection].
Proof.
  split; [reflexivity|]. split; [reflexivity|]. split; [reflexivity|].
  destruct (parseListLine_short_panics tt noTime 2026 noSize "total 12"
              eq_refl eq_refl eq_refl) as [Hline Hlist].
  split; [exact Hline|].
  exact (Hlist
           (mkReceiveStream 3 ["total 12"; "-rw-r--r-- 1 u g 5 Jan 1 2020 f"] None)
           ["-rw-r--r-- 1 u g 5 Jan 1 2020 f"]
           (freshWorld [] [] [] [inr (226, "Done.")]) eq_refl).
Defined.

(** ** The task channel and the collection loop of MultipleTransfer *)

Section Transfer.

Lemma append_empty (s : string) : s +:+ "" = s.
Proof. induction s as [|c s IH]; [done|]. by rewrite append_cons, IH. Qed.

Lemma collectedMessages_app (xs ys : list (option error)) :
  collectedMessages (xs ++ ys)
  = collectedMessages xs +:+ collectedMessages ys.
Proof.
  induction xs as [|[e|] xs IH]; cbn [app collectedMessages].
  - done.
  - by rewrite IH, !append_assoc.
  - exact IH.
Qed.

Lemma collectedMessages_empty (xs : list (option error)) :
  collectedMessages xs = "" <-> Forall (fun replay => replay = None) xs.
Proof.
  induction xs as [|[e|] xs IH]; cbn [collectedMessages].
  - split; [constructor|done].
  - split; [|by inversion 1]. unfold GoString.LF. by rewrite append_cons.
  - rewrite IH. split; [by constructor|by inversion 1].
Qed.

(** The loop reads the channel from its head: the replies it has read,
    their number and the messages it has appended. *)
Lemma collectReplies_consumed (lenTasks nrParallel : Z)
    (returnChannel : list (option error)) :
  forall (normalReplay goRoutineResetReply : Z) (errorMessage : string)
         (n r : Z) (msg : string),
    collectReplies lenTasks nrParallel returnChannel
      normalReplay goRoutineResetReply errorMessage
    = Some (n, r, msg) ->
    exists consumed rest,
      returnChannel = consumed ++ rest
      /\ n = normalReplay + Z.of_nat (length consumed)
      /\ (consumed <> [] -> n <= lenTasks)
      /\ msg = errorMessage +:+ collectedMessages consumed.
Proof.
  induction returnChannel as [|replay ch IH];
    intros normalReplay reset errorMessage n r msg; cbn [collectReplies];
    destruct ((normalReplay <? lenTasks) && (reset <? nrParallel)) eqn:Hgo;
    try done.
  - intros [= <- <- <-]. exists [], []. cbn.
    rewrite append_empty. split; [done|]. split; [lia|]. done.
  - apply andb_true_iff in Hgo as [Hn _]. apply Z.ltb_lt in Hn.
    destruct replay as [e|]; intros Hrun;
      apply IH in Hrun as (consumed & rest & -> & -> & Hle & ->).
    + exists (Some e :: consumed), rest. cbn [app length collectedMessages].
      split; [done|]. split; [lia|]. split.
      * intros _. destruct consumed as [|o consumed]; [cbn; lia|].
        specialize (Hle ltac:(done)). cbn [length] in *. lia.
      * by rewrite !append_assoc.
    + exists (None :: consumed), rest. cbn [app length collectedMessages].
      split; [done|]. split; [lia|]. split; [|done].
      intros _. destruct consumed as [|o consumed]; [cbn; lia|].
      specialize (Hle ltac:(done)). cbn [length] in *. lia.
  - intros [= <- <- <-]. exists [], (replay :: ch). cbn.
    rewrite append_empty. split; [done|]. split; [lia|]. done.
Qed.

(** X12: when the collection loop of [MultipleTransfer] ends, it has read
    the replies at the head of the return channel, at most one per task;
    the error message is their messages in that order, each behind a line
    feed; and the error returned is nil exactly when every reply it read
    was nil. *)
Theorem collectReplies_collects (lenTasks nrParallel : Z)
    (returnChannel : list (option error)) (n r : Z) (msg : string) :
  collectReplies lenTasks nrParallel returnChannel 0 0 "" = Some (n, r, msg) ->
  exists consumed rest,
    returnChannel = consumed ++ rest
    /\ n = Z.of_nat (length consumed)
    /\ n <= Z.max 0 lenTasks
    /\ msg = collectedMessages consumed
    /\ (collectedError msg = None
        <-> Forall (fun replay => replay = None) consumed).
Proof.
  intros Hrun.
  apply collectReplies_consumed in Hrun
    as (consumed & rest & -> & -> & Hle & ->).
  exists consumed, rest. rewrite append_nil.
  split; [done|]. split; [lia|]. split.
  { destruct consumed; [cbn; lia|]. specialize (Hle ltac:(done)). lia. }
  split; [done|].
  rewrite <- collectedMessages_empty. unfold collectedError.
  case_decide; split; done.
Qed.

Lemma collectReplies_enough (lenTasks nrParallel : Z)
    (returnChannel : list (option error)) :
  forall (normalReplay goRoutineResetReply : Z) (errorMessage : string),
    lenTasks - normalReplay <= Z.of_nat (length returnChannel) ->
    is_Some (collectReplies lenTasks nrParallel returnChannel
               normalReplay goRoutineResetReply errorMessage).
Proof.
  induction returnChannel as [|replay ch IH];
    intros normalReplay reset errorMessage Hlen; cbn [collectReplies];
    destruct ((normalReplay <? lenTasks) && (reset <? nrParallel)) eqn:Hgo;
    try done.
  - apply andb_true_iff in Hgo as [Hn _]. apply Z.ltb_lt in Hn.
    cbn in Hlen. lia.
  - cbn [length] in Hlen. destruct replay; apply IH; lia.
Qed.

(** X13: the collection loop of [MultipleTransfer] does not wait for ever
    once the return channel delivers one reply per task: it ends, and has
    then read no more than that. *)
Theorem collectReplies_returns (lenTasks nrParallel : Z)
    (returnChannel : list (option error)) :
  lenTasks <= Z.of_nat (length returnChannel) ->
  exists n r msg,
    collectReplies lenTasks nrParallel returnChannel 0 0 "" = Some (n, r, msg)
    /\ 0 <= n <= Z.max 0 lenTasks
    /\ 0 <= r <= n.
Proof.
  intros Hlen.
  destruct (collectReplies_enough lenTasks nrParallel returnChannel 0 0 ""
              ltac:(lia)) as [[[n r] msg] Hrun].
  exists n, r, msg. split; [exact Hrun|].
  assert (Hcount : forall ch n0 r0 m0 n1 r1 m1,
            collectReplies lenTasks nrParallel ch n0 r0 m0 = Some (n1, r1, m1) ->
            n0 <= n1 /\ r0 <= r1 /\ r1 - r0 <= n1 - n0
            /\ (n0 <= Z.max 0 lenTasks -> n1 <= Z.max 0 lenTasks)).
  { clear. induction ch as [|replay ch IH]; intros n0 r0 m0 n1 r1 m1;
      cbn [collectReplies];
      destruct ((n0 <? lenTasks) && (r0 <? nrParallel)) eqn:Hgo; try done;
      try (intros [= <- <- <-]; lia).
    apply andb_true_iff in Hgo as [Hn _]. apply Z.ltb_lt in Hn.
    destruct replay as [e|]; intros Hrun; apply IH in Hrun;
      [destruct (countsAsReset e)|]; lia. }
  apply Hcount in Hrun. lia.
Qed.


Lemma collectReplies_collects_witness :
  collectReplies 2 1 [None; Some (errorsNew "550 no such file")] 0 0 ""
  = Some (2, 0, GoString.LF +:+ "550 no such file")
  /\ exists consumed rest,
      [None; Some (errorsNew "550 no such file")] = consumed ++ rest
      /\ 2 = Z.of_nat (length consumed)
      /\ 2 <= Z.max 0 2
      /\ GoString.LF +:+ "550 no such file" = collectedMessages consumed
      /\ (collectedError (GoString.LF +:+ "550 no such file") = None
          <-> Forall (fun replay => replay = None) consumed).
Proof.
  split; [reflexivity|].
  exact (collectReplies_collects 2 1
           [None; Some (errorsNew "550 no such file")] 2 0
           (GoString.LF +:+ "550 no such file") eq_refl).
Defined.

Lemma collectReplies_returns_witness :
  2 <= Z.of_nat (length [None; Some (errorsNew "550 no such file")])
  /\ exists n r msg,
      collectReplies 2 1 [None; Some (errorsNew "550 no such file")] 0 0 ""
      = Some (n, r, msg)
      /\ 0 <= n <= Z.max 0 2
      /\ 0 <= r <= n.
Proof.
  split; [cbn; lia|].
  apply (collectReplies_returns 2 1 [None; Some (errorsNew "550 no such file")]).
  cbn; lia.
Defined.

End Transfer.

(** ** Entries of the MS-DOS DIR parser *)

Section DirEntries.

Context {time_Time : Type}.
Variable zeroTime : time_Time.
Variable time_Parse : string -> string -> error + time_Time.

(** The loop over the time formats sets the time and nothing else. *)
Lemma dirTime_fields (line : string) (formats : list string) :
  forall (e : Entry) (err : option error) e' line' err',
    dirTime zeroTime time_Parse formats line e err = Done (e', line', err') ->
    Type_ e' = Type_ e /\ Size e' = Size e.
Proof.
  induction formats as [|format formats IH]; intros e err e' line' err';
    cbn [dirTime].
  - by intros [= <- <- <-].
  - destruct (GoString.sliceTo line (GoString.len format)) as [head|k];
      cbn [run_bind]; [|done].
    pose proof (assignTime_fields zeroTime time_Parse e format head)
      as (_ & Htype & Hsize).
    destruct (assignTime zeroTime time_Parse e format head) as [e1 [err1|]];
      cbn [fst] in Htype, Hsize.
    + intros Hrest. apply IH in Hrest as [-> ->]. done.
    + destruct (GoString.sliceFrom line (GoString.len format)) as [rest|k];
        cbn [run_bind]; [|done].
      by intros [= <- <- <-].
Qed.

(** X15: an entry returned by [parseDirListLine] comes from a line of at
    least 17 bytes; its name does not begin with a blank; and it is either
    a folder of size 0 or a file whose size fits 64 bits without sign:
    the parser never returns a link. *)
Theorem parseDirListLine_entry (line : string) (e : Entry) :
  parseDirListLine zeroTime time_Parse line = Done (inr e) ->
  17 <= GoString.len line
  /\ strings.HasPrefix (Name e) " " = false
  /\ (Type_ e = EntryTypeFolder /\ Size e = 0
      \/ Type_ e = EntryTypeFile /\ 0 <= Size e < 2 ^ 64).
Proof.
  intros Hparse. split.
  { destruct (Z.lt_ge_cases (GoString.len line) 17) as [Hshort|]; [|lia].
    by rewrite (parseDirListLine_short zeroTime time_Parse line Hshort)
      in Hparse. }
  revert Hparse. unfold parseDirListLine. cbv zeta.
  destruct (dirTime zeroTime time_Parse dirTimeFormats line
              (zeroEntry zeroTime) None) as [[[e0 l0] err0]|k] eqn:Htime;
    cbn [run_bind]; [|done].
  apply dirTime_fields in Htime as [_ Hsize]. cbn in Hsize.
  destruct err0; [done|].
  destruct (strings.HasPrefix (strings.TrimLeft l0 " ") "<DIR>").
  { intros [= <-]. cbn. split; [apply TrimLeft_no_blank|]. by left. }
  destruct (strings.Index (strings.TrimLeft l0 " ") " " =? -1); [done|].
  destruct (GoString.sliceTo _ _) as [digits|k]; cbn [run_bind]; [|done].
  destruct (strconv.ParseUint10 digits) as [|n] eqn:Hdigits; [done|].
  destruct (GoString.sliceFrom _ _) as [rest|k]; cbn [run_bind]; [|done].
  intros [= <-]. cbn. split; [apply TrimLeft_no_blank|]. right.
  split; [done|].
  destruct digits as [|c digits]; [done|]. unfold strconv.ParseUint10 in Hdigits.
  apply parseUintLoop_range in Hdigits; unfold strconv.maxUint64 in *; lia.
Qed.

End DirEntries.

Lemma parseDirListLine_entry_witness :
  parseDirListLine "" textTime "01-02-06  03:04PM       <DIR>          pub"
  = Done (inr (mkEntry "pub" EntryTypeFolder 0 "01-02-06  03:04PM"))
  /\ 17 <= GoString.len "01-02-06  03:04PM       <DIR>          pub"
  /\ strings.HasPrefix (Name (mkEntry "pub" EntryTypeFolder 0 "01-02-06  03:04PM")) " " = false
  /\ (Type_ (mkEntry "pub" EntryTypeFolder 0 "01-02-06  03:04PM") = EntryTypeFolder
      /\ Size (mkEntry "pub" EntryTypeFolder 0 "01-02-06  03:04PM") = 0
      \/ Type_ (mkEntry "pub" EntryTypeFolder 0 "01-02-06  03:04PM") = EntryTypeFile
         /\ 0 <= Size (mkEntry "pub" EntryTypeFolder 0 "01-02-06  03:04PM") < 2 ^ 64).
Proof.
  split; [reflexivity|].
  exact (parseDirListLine_entry "" textTime
           "01-02-06  03:04PM       <DIR>          pub"
           (mkEntry "pub" EntryTypeFolder 0 "01-02-06  03:04PM") eq_refl).
Defined.

(** ** Operations that leave the session alone *)

Section Steady.

Implicit Types (w : World) (format : string) (args : list Arg).

Lemma steady_refl w : steady w w.
Proof. done. Qed.










(** Opening a send stream takes the mutex and gives it back. *)
Lemma getNewDataSendStream_run w :
  mutexHeld w = false ->
  exists r w',
    getNewDataSendStream w = Returns r w'
    /\ steady w w'
    /\ trace w' = trace w ++ [EvLock; EvOpenUniStreamSync; EvUnlock]
    /\ cmdResults (peer w') = cmdResults (peer w)
    /\ replies (peer w') = replies (peer w).
Proof.
  destruct w as [[[m b] f] [a o cs rs] t]. cbn. intros ->.
  unfold getNewDataSendStream, bind, defer, Lock, Unlock, OpenUniStreamSync.
  cbn. destruct o as [|r o]; cbn; eexists _, _; (split; [reflexivity|]);
    cbn; by rewrite <- !app_assoc.
Qed.




(** X18: a REST that is not answered 350 ends a transfer from an offset
    before its command is sent: the receive side returns the error having
    sent REST alone, and the send side, whose stream is open by then,
    also closes that stream once. *)
Theorem REST_refused_ends_transfer (offset : Z) format args w :
  offset <> 0 ->
  ~ answered w StatusRequestFilePending ->
  (exists e w' evs,
     cmdDataReceiveStreamFrom offset format args w = Returns (inl e) w'
     /\ trace w' = trace w ++ evs
     /\ sentCommands evs = [("REST %d", [ArgUint offset])])
  /\ (mutexHeld w = false ->
      forall stream w0,
        getNewDataSendStream w = Returns (inr stream) w0 ->
        exists e w' evs,
          cmdDataSendStreamFrom offset format args w = Returns (inl e) w'
          /\ trace w' = trace w0 ++ evs
          /\ sentCommands evs = [("REST %d", [ArgUint offset])]
          /\ closeCount (StreamID stream) evs = 1%nat).
Proof.
  intros Hoffset Hnot.
  assert (Hrest : forall w0,
            cmdResults (peer w0) = cmdResults (peer w) ->
            replies (peer w0) = replies (peer w) ->
            exists e wr evs,
              (if negb (offset =? 0)
               then bind (cmd StatusRequestFilePending "REST %d" [ArgUint offset])
                      (fun '(_, _, err) => ret err)
               else ret None) w0 = Returns (Some e) wr
              /\ trace wr = trace w0 ++ evs
              /\ sentCommands evs = [("REST %d", [ArgUint offset])]
              /\ forall id, closeCount id evs = O).
  { intros w0 Hc Hr.
    rewrite (proj2 (Z.eqb_neq _ _) Hoffset). cbn [negb].
    destruct (cmd_step StatusRequestFilePending "REST %d" [ArgUint offset] w0)
      as ([[c m] err] & wr & evs & Hrun & Ht & Hs & Hcl & _).
    destruct err as [e|].
    - exists e, wr, evs. unfold bind. by rewrite Hrun.
    - exfalso. apply Hnot.
      assert (Hans : answered w0 StatusRequestFilePending).
      { apply (cmd_nil_iff StatusRequestFilePending "REST %d" [ArgUint offset] w0);
          [done|]. by eexists _, _, _. }
      destruct Hans as (msg & cs & rs & Hc0 & Hr0).
      exists msg, cs, rs. by rewrite <- Hc, <- Hr. }
  split.
  - destruct (Hrest w eq_refl eq_refl) as (e & wr & evs & Hrun & Ht & Hs & _).
    exists e, wr, evs. unfold cmdDataReceiveStreamFrom, bind at 1.
    by rewrite Hrun.
  - intros Hfree stream w0 Hopen.
    destruct (getNewDataSendStream_run w Hfree)
      as (s & w0' & Hopen' & _ & _ & Hc & Hr).
    rewrite Hopen in Hopen'. injection Hopen' as <- <-.
    destruct (Hrest w0 Hc Hr) as (e & wr & evs & Hrun & Ht & Hs & Hcl).
    exists e, (emit (EvCloseSend (StreamID stream)) wr),
      (evs ++ [EvCloseSend (StreamID stream)]).
    unfold cmdDataSendStreamFrom. unfold bind at 1. rewrite Hopen.
    unfold bind at 1. rewrite Hrun. split; [reflexivity|].
    cbn. split; [by rewrite Ht, <- app_assoc|].
    split; [by rewrite sentCommands_app, Hs|].
    by rewrite closeCount_app, Hcl, closeCount_close.
Qed.

End Steady.


Lemma REST_refused_ends_transfer_witness :
  100 <> 0
  /\ ~ answered
       (freshWorld [] [inr (mkSendStream 2)] [None] [inr (502, "No REST.")])
       StatusRequestFilePending
  /\ (exists e w' evs,
        cmdDataReceiveStreamFrom 100 "RETR %s" [ArgString "f"]
          (freshWorld [] [inr (mkSendStream 2)] [None] [inr (502, "No REST.")])
        = Returns (inl e) w'
        /\ trace w'
           = trace
               (freshWorld [] [inr (mkSendStream 2)] [None]
                  [inr (502, "No REST.")])
             ++ evs
        /\ sentCommands evs = [("REST %d", [ArgUint 100])])
  /\ exists w0,
      getNewDataSendStream
        (freshWorld [] [inr (mkSendStream 2)] [None] [inr (502, "No REST.")])
      = Returns (inr (mkSendStream 2)) w0
      /\ exists e w' evs,
          cmdDataSendStreamFrom 100 "STOR %s" [ArgString "f"]
            (freshWorld [] [inr (mkSendStream 2)] [None] [inr (502, "No REST.")])
          = Returns (inl e) w'
          /\ trace w' = trace w0 ++ evs
          /\ sentCommands evs = [("REST %d", [ArgUint 100])]
          /\ closeCount (StreamID (mkSendStream 2)) evs = 1%nat.
Proof.
  assert (Hnot : ~ answered
                   (freshWorld [] [inr (mkSendStream 2)] [None]
                      [inr (502, "No REST.")])
                   StatusRequestFilePending).
  { intros (msg & cs & rs & _ & Hr). cbn in Hr. discriminate. }
  split; [lia|]. split; [exact Hnot|].
  destruct (REST_refused_ends_transfer 100 "RETR %s" [ArgString "f"]
              (freshWorld [] [inr (mkSendStream 2)] [None] [inr (502, "No REST.")])
              ltac:(lia) Hnot) as [Hrecv _].
  split; [exact Hrecv|].
  eexists. split; [reflexivity|].
  exact (proj2 (REST_refused_ends_transfer 100 "STOR %s" [ArgString "f"]
                  (freshWorld [] [inr (mkSendStream 2)] [None]
                     [inr (502, "No REST.")])
                  ltac:(lia) Hnot)
           eq_refl (mkSendStream 2) _ eq_refl).
Defined.

Lemma NameList_result_witness :
  exists w1 w',
    cmdDataReceiveStreamFrom 0 "NLST %s" [ArgString "/"]
      (freshWorld [inr (mkReceiveStream 3 ["incoming"; "pub"] None)] [] [None]
         [inr (150, "3 Here comes the listing."); inr (550, "Broken.")])
    = Returns (inr (mkReceiveStream 3 ["incoming"; "pub"] None)) w1
    /\ NameList "/"
         (freshWorld [inr (mkReceiveStream 3 ["incoming"; "pub"] None)] [] [None]
            [inr (150, "3 Here comes the listing."); inr (550, "Broken.")])
       = Returns (["incoming"; "pub"], None) w'
    /\ trace w' = trace w1 ++ [EvReadResponse StatusClosingDataConnection]
    /\ replies (peer w') = tail (replies (peer w1)).
Proof.
  assert (Hrecv : exists w1,
            cmdDataReceiveStreamFrom 0 "NLST %s" [ArgString "/"]
              (freshWorld [inr (mkReceiveStream 3 ["incoming"; "pub"] None)]
                 [] [None]
                 [inr (150, "3 Here comes the listing."); inr (550, "Broken.")])
            = Returns (inr (mkReceiveStream 3 ["incoming"; "pub"] None)) w1)
    by (eexists; vm_compute; reflexivity).
  destruct Hrecv as [w1 Hrecv].
  destruct (proj1 (NameList_result "/"
                     (freshWorld [inr (mkReceiveStream 3 ["incoming"; "pub"] None)]
                        [] [None]
                        [inr (150, "3 Here comes the listing.");
                         inr (550, "Broken.")]))
              (mkReceiveStream 3 ["incoming"; "pub"] None) w1 Hrecv)
    as (w' & Hrun & Ht & Hr).
  exists w1, w'. split; [exact Hrecv|]. split; [exact Hrun|].
  split; [exact Ht|]. exact Hr.
Defined.

(** ** The path in a PWD reply *)

Section Pwd.

Import GoString.

Lemma LastIndex_none s sep :
  strings.Index s sep = -1 -> strings.LastIndex s sep = -1.
Proof.
  induction s as [|c s IH]; cbn [strings.Index strings.LastIndex].
  - by destruct (String.prefix sep "").
  - destruct (String.prefix sep (String c s)); [lia|].
    pose proof (Index_lower s sep).
    destruct (strings.Index s sep <? 0) eqn:E; [|lia].
    apply Z.ltb_lt in E. intros _. rewrite IH by lia. done.
Qed.

(** The last instance of a byte that does not occur after it. *)
Lemma LastIndex_before c v r :
  strings.Index r (String c "") = -1 ->
  strings.LastIndex (v +:+ String c "" +:+ r) (String c "") = len v.
Proof.
  intros Hnone. unfold len. induction v as [|d v IH].
  - rewrite append_nil, append_cons, append_nil. cbn [strings.LastIndex].
    rewrite (LastIndex_none r _ Hnone). cbn.
    rewrite prefix_nil. by destruct (ascii_dec c c).
  - rewrite append_cons. cbn [strings.LastIndex String.length].
    rewrite IH.
    assert ((0 <=? Z.of_nat (String.length v)) = true) as ->
      by (apply Z.leb_le; lia).
    lia.
Qed.

(** X19: when PWD is answered 257 with a message that has the path
    between double quotes, with no double quote before the opening and
    none after the closing one, [CurrentDir] returns exactly that path,
    double quotes inside the path included. *)
Theorem CurrentDir_round_trip w wc code (before path after : string) w1 :
  Cmd "PWD" [] w = Returns None wc ->
  ReadResponse StatusPathCreated wc
  = Returns (code, before +:+ QUOTE +:+ path +:+ QUOTE +:+ after, None) w1 ->
  strings.Index before QUOTE = -1 ->
  strings.Index after QUOTE = -1 ->
  CurrentDir w = Returns (path, None) w1.
Proof.
  intros Hcmd Hread Hbefore Hafter.
  set (msg := before +:+ QUOTE +:+ path +:+ QUOTE +:+ after) in *.
  assert (Hfirst : strings.Index msg QUOTE = len before)
    by (by apply Index_after).
  assert (Hlast : strings.LastIndex msg QUOTE = len (before +:+ QUOTE +:+ path)).
  { unfold msg.
    replace (before +:+ QUOTE +:+ path +:+ QUOTE +:+ after)
      with ((before +:+ QUOTE +:+ path) +:+ QUOTE +:+ after)
      by (by rewrite !append_assoc).
    by apply LastIndex_before. }
  assert (Hlen : len (before +:+ QUOTE +:+ path) = len before + 1 + len path).
  { unfold len. rewrite !length_append. cbn. lia. }
  assert (Hlb : 0 <= len before) by (unfold len; lia).
  assert (Hlp : 0 <= len path) by (unfold len; lia).
  rewrite (CurrentDir_quoted w wc code msg w1 Hcmd Hread) by lia.
  rewrite Hfirst, Hlast, Hlen. do 2 f_equal.
  replace (Z.to_nat (len before + 1))
    with (String.length (before +:+ QUOTE))
    by (rewrite length_append; unfold len; cbn; lia).
  replace (Z.to_nat (len before + 1 + len path - (len before + 1)))
    with (String.length path) by (unfold len; lia).
  unfold msg.
  replace (before +:+ QUOTE +:+ path +:+ QUOTE +:+ after)
    with ((before +:+ QUOTE) +:+ path +:+ QUOTE +:+ after)
    by (by rewrite !append_assoc).
  by rewrite drop_app_length, take_app_length.
Qed.

End Pwd.

Lemma CurrentDir_round_trip_witness :
  exists wc w1,
    Cmd "PWD" []
      (freshWorld [] [] [None]
         [inr (257, "" +:+ GoString.QUOTE +:+ "/home/ftp" +:+ GoString.QUOTE
                    +:+ " is the current directory")])
    = Returns None wc
    /\ ReadResponse StatusPathCreated wc
       = Returns (257, "" +:+ GoString.QUOTE +:+ "/home/ftp" +:+ GoString.QUOTE
                       +:+ " is the current directory", None) w1
    /\ strings.Index "" GoString.QUOTE = -1
    /\ strings.Index " is the current directory" GoString.QUOTE = -1
    /\ CurrentDir
         (freshWorld [] [] [None]
            [inr (257, "" +:+ GoString.QUOTE +:+ "/home/ftp" +:+ GoString.QUOTE
                       +:+ " is the current directory")])
       = Returns ("/home/ftp", None) w1.
Proof.
  eexists _, _. split; [reflexivity|]. split; [reflexivity|].
  split; [reflexivity|]. split; [reflexivity|].
  exact (CurrentDir_round_trip
           (freshWorld [] [] [None]
              [inr (257, "" +:+ GoString.QUOTE +:+ "/home/ftp" +:+ GoString.QUOTE
                         +:+ " is the current directory")])
           _ 257 "" "/home/ftp" " is the current directory" _
           eq_refl eq_refl eq_refl eq_refl).
Defined.

(** ** The features a FEAT reply lists *)

Section FeatLines.

Import GoString.

(** The first field of a trimmed feature line. *)
Lemma featureName_first (s name : string) :
  strings.Index name " " = -1 ->
  s = name \/ (exists desc, s = name +:+ " " +:+ desc) ->
  exists rest, strings.SplitN s " " 2 = name :: rest.
Proof.
  intros Hname [->|[desc ->]].
  - exists []. apply SplitN2_none. lia.
  - pose proof (Index_after " "%char name desc Hname) as Hi.
    assert (0 <= len name) by (unfold len; lia).
    eexists. rewrite SplitN2_some by lia. rewrite Hi. f_equal.
    unfold len. rewrite Nat2Z.id. apply take_app_length.
Qed.

Lemma featLines_records (lines : list string) :
  forall known known' : gmap string string,
    featLines lines known = Done known' ->
    forall line name,
      line ∈ lines ->
      strings.HasPrefix line " " = true ->
      strings.Index name " " = -1 ->
      strings.TrimSpace line = name
      \/ (exists desc, strings.TrimSpace line = name +:+ " " +:+ desc) ->
      is_Some (known' !! name).
Proof.
  induction lines as [|l lines IH]; intros known known' Hrun line name Hin
    Hprefix Hname Hshape.
  { by apply elem_of_nil in Hin. }
  cbn [featLines] in Hrun.
  apply elem_of_cons in Hin as [->|Hin].
  - rewrite Hprefix in Hrun. cbn [negb] in Hrun. cbv zeta in Hrun.
    destruct (featureName_first (strings.TrimSpace l) name Hname Hshape)
      as [rest Hsplit].
    rewrite Hsplit, at_head in Hrun. cbn [run_bind] in Hrun.
    destruct (if GoSlice.len (name :: rest) =? 2
              then GoSlice.at_ (name :: rest) 1 else Done "")
      as [desc|k]; cbn [run_bind] in Hrun; [|done].
    destruct (featLines_total lines (<[name:=desc]> known))
      as (known'' & Hrun' & Hdom).
    rewrite Hrun in Hrun'. injection Hrun' as <-.
    apply elem_of_dom. apply Hdom. rewrite dom_insert.
    apply elem_of_union. left. by apply elem_of_singleton.
  - destruct (negb (strings.HasPrefix l " ")).
    + exact (IH known known' Hrun line name Hin Hprefix Hname Hshape).
    + cbv zeta in Hrun.
      destruct (GoSlice.at_ _ 0) as [command|k]; cbn [run_bind] in Hrun;
        [|done].
      destruct (if GoSlice.len _ =? 2 then _ else _) as [desc|k];
        cbn [run_bind] in Hrun; [|done].
      exact (IH _ known' Hrun line name Hin Hprefix Hname Hshape).
Qed.

(** X20: when FEAT is answered 211, [Feat] reports success and every
    line of the reply that begins with a blank is known afterwards: the
    first word of the line, surrounding blanks removed, is a key of the
    features map. *)
Theorem Feat_records_lines w (message : string) w1 :
  cmd (-1) "FEAT" [] w = Returns (StatusSystem, message, None) w1 ->
  exists w',
    Feat w = Returns None w'
    /\ forall line name,
        line ∈ strings.Split message LF ->
        strings.HasPrefix line " " = true ->
        strings.Index name " " = -1 ->
        strings.TrimSpace line = name
        \/ (exists desc, strings.TrimSpace line = name +:+ " " +:+ desc) ->
        is_Some (Features w' !! name).
Proof.
  intros Hcmd. unfold Feat, bind at 1. rewrite Hcmd.
  cbn [Z.eqb negb]. rewrite Z.eqb_refl. cbn [negb]. cbv zeta.
  destruct (featLines_total (strings.Split message LF) (features (subC w1)))
    as (known' & Hrun & _).
  unfold bind, getFeatures, putFeatures, liftRun, ret. rewrite Hrun.
  eexists. split; [reflexivity|].
  intros line name Hin Hprefix Hname Hshape. unfold Features, setFeatures; cbn.
  by apply (featLines_records _ _ _ Hrun line name).
Qed.

End FeatLines.

Lemma Feat_records_lines_witness :
  exists w1 w',
    cmd (-1) "FEAT" [] (freshWorld [] [] [None] [inr (211, featReply)])
    = Returns (StatusSystem, featReply, None) w1
    /\ Feat (freshWorld [] [] [None] [inr (211, featReply)]) = Returns None w'
    /\ is_Some (Features w' !! "UTF8").
Proof.
  assert (Hcmd : exists w1,
            cmd (-1) "FEAT" [] (freshWorld [] [] [None] [inr (211, featReply)])
            = Returns (StatusSystem, featReply, None) w1)
    by (eexists; vm_compute; reflexivity).
  destruct Hcmd as [w1 Hcmd].
  destruct (Feat_records_lines _ _ _ Hcmd) as (w' & Hrun & Hknown).
  exists w1, w'. split; [exact Hcmd|]. split; [exact Hrun|].
  apply (Hknown " UTF8" "UTF8").
  - vm_compute. apply elem_of_cons. right. apply elem_of_cons. by left.
  - reflexivity.
  - reflexivity.
  - left. reflexivity.
Defined.

(** ** When the ls parser panics *)

Section LsPanics.

Context {time_Time : Type}.
Variable zeroTime : time_Time.
Variable time_Parse : string -> string -> error + time_Time.
Variable thisYear : Z.
Variable ParseUint0 : string -> Z * option error.









End LsPanics.


(** ** When the DIR parser and [parseListLine] panic *)

Section ListPanics.

Context {time_Time : Type}.
Variable zeroTime : time_Time.
Variable time_Parse : string -> string -> error + time_Time.
Variable thisYear : Z.
Variable ParseUint0 : string -> Z * option error.

Lemma dirTime_returns (line : string) :
  17 <= GoString.len line ->
  exists e rest err,
    dirTime zeroTime time_Parse dirTimeFormats line (zeroEntry zeroTime) None
    = Done (e, rest, err).
Proof.
  intros Hlong. unfold dirTimeFormats. cbn [dirTime].
  change (GoString.len "01-02-06  03:04PM") with 17.
  change (GoString.len "2006-01-02  15:04") with 17.
  rewrite !sliceTo_take, !sliceFrom_drop by lia. cbn [run_bind].
  destruct (assignTime zeroTime time_Parse (zeroEntry zeroTime) _ _)
    as [e1 [err1|]]; [|by eexists _, _, _].
  destruct (assignTime zeroTime time_Parse e1 _ _) as [e2 [err2|]];
    by eexists _, _, _.
Qed.

Lemma parseDirListLine_returns (line : string) :
  17 <= GoString.len line ->
  exists r, parseDirListLine zeroTime time_Parse line = Done r.
Proof.
  intros Hlong. unfold parseDirListLine. cbv zeta.
  destruct (dirTime_returns line Hlong) as (e & rest & err & Htime).
  rewrite Htime. cbn [run_bind]. destruct err; [by eexists|].
  destruct (strings.HasPrefix (strings.TrimLeft rest " ") "<DIR>");
    [by eexists|].
  destruct (strings.Index (strings.TrimLeft rest " ") " " =? -1) eqn:Hspace;
    [by eexists|].
  apply Z.eqb_neq in Hspace.
  pose proof (Index_lower (strings.TrimLeft rest " ") " ").
  pose proof (Index_upper (strings.TrimLeft rest " ") " ").
  rewrite sliceTo_take, sliceFrom_drop by lia. cbn [run_bind].
  destruct (strconv.ParseUint10 _); by eexists.
Qed.

(** X22: [parseDirListLine] panics exactly on the lines shorter than 17
    bytes, the length of both its time layouts; on every other line it
    returns an entry or an error. *)
Theorem parseDirListLine_panics_iff (line : string) :
  (exists k, parseDirListLine zeroTime time_Parse line = Panic k)
  <-> GoString.len line < 17.
Proof.
  split.
  - intros [k Hpanic].
    destruct (Z.lt_ge_cases (GoString.len line) 17) as [|Hlong]; [done|].
    destruct (parseDirListLine_returns line Hlong) as [r Hr].
    by rewrite Hr in Hpanic.
  - intros Hshort. exists SliceBoundsOutOfRange.
    by apply parseDirListLine_short.
Qed.

(** X23: [parseListLine] panics exactly when the line is no RFC 3659
    line and either the ls parser panics on it, or the ls parser finds it
    unsupported and it is shorter than 17 bytes. *)
Theorem parseListLine_panics_iff (line : string) :
  (exists k,
     parseListLine zeroTime time_Parse thisYear ParseUint0 line = Panic k)
  <-> isUnsupported (parseRFC3659ListLine zeroTime time_Parse ParseUint0 line)
      = true
      /\ ((exists k,
             parseLsListLine zeroTime time_Parse thisYear ParseUint0 line
             = Panic k)
          \/ (isUnsupported
                (parseLsListLine zeroTime time_Parse thisYear ParseUint0 line)
              = true
              /\ GoString.len line < 17)).
Proof.
  unfold parseListLine, listLineParsers.
  rewrite tryParsers_firstSupported. cbn [map firstSupported].
  destruct (parseRFC3659ListLine_returns zeroTime time_Parse ParseUint0 line)
    as [r ->].
  destruct (isUnsupported (Done r)).
  2: { split; [by intros [k ?] | by intros [? _]]. }
  destruct (parseLsListLine zeroTime time_Parse thisYear ParseUint0 line)
    as [rl|k] eqn:Hls.
  2: { cbn [isUnsupported]. split; [|by exists k].
       intros _. split; [done|]. left. by exists k. }
  destruct (isUnsupported (Done rl)).
  2: { split; [by intros [k ?]|]. intros [_ [[k ?]|[? _]]]; done. }
  destruct (Z.lt_ge_cases (GoString.len line) 17) as [Hshort|Hlong].
  - rewrite (parseDirListLine_short zeroTime time_Parse line Hshort).
    cbn [isUnsupported]. split; [|by eexists].
    intros _. split; [done|]. by right.
  - destruct (parseDirListLine_returns line Hlong) as [rd ->].
    split.
    + intros [k Hk]. by destruct (isUnsupported (Done rd)).
    + intros [_ [[k ?]|[_ ?]]]; [done|lia].
Qed.

End ListPanics.
